(** * D'SIS catering backend: booking availability, receipts, promo codes,
      password policy and menu maintenance

    A shallow embedding of the request handlers of the catering backend
    (Express routers over flat JSON files) and of the password policy of its
    auth helper, together with the properties stated about them.

    Conventions of the embedding:
    - a JSON file is a value of [Storage.file]: what [JSON.parse] would
      return, or nothing when the file cannot be read or parsed, and a flag
      telling whether the next write succeeds;
    - a handler is a function from the request, the readings of the clock
      and of the random source it uses, and the file, to the response sent
      and the file left behind;
    - JavaScript numbers that hold amounts of money are binary64 floats
      ([PrimFloat]); what is proved of all of them rests on the statements
      of the standard library that specify the primitive operations
      ([FloatAxioms]); identifiers and counters are integers ([Z]), and the
      addition that makes a new identifier rounds to binary64
      ([Js.toDouble]);
    - JavaScript strings are [string]s of 8-bit characters; case mapping acts
      on the ASCII range. *)

From Stdlib Require Import Ascii String List PrimFloat FloatOps FloatAxioms SpecFloat Uint63.
From Stdlib Require Import ZArith QArith Qabs Qpower Lia Lqa.
From stdpp Require Import base list strings.

#[local] Set Warnings "-inexact-float".
#[local] Open Scope string_scope.
#[local] Open Scope Z_scope.

(** ** JavaScript values and strings *)

Module Js.

(** The scalar JSON values a field of a stored object can hold, and
    [undefined] for a field that is absent. *)
Inductive value : Type :=
| JUndefined
| JNull
| JBool (b : bool)
| JNum (x : float)
| JStr (s : string).

Definition str_truthy (s : string) : bool :=
  negb (String.eqb s "").

Definition num_truthy (x : float) : bool :=
  negb (PrimFloat.is_zero x || PrimFloat.is_nan x).

(** ToBoolean *)
Definition truthy (v : value) : bool :=
  match v with
  | JUndefined | JNull => false
  | JBool b => b
  | JNum x => num_truthy x
  | JStr s => str_truthy s
  end.

(** [a || b] *)
Definition or_else (a b : value) : value :=
  if truthy a then a else b.

(** [a === b] *)
Definition strict_eq (a b : value) : bool :=
  match a, b with
  | JUndefined, JUndefined => true
  | JNull, JNull => true
  | JBool x, JBool y => Bool.eqb x y
  | JNum x, JNum y => PrimFloat.eqb x y
  | JStr x, JStr y => String.eqb x y
  | _, _ => false
  end.

(** SameValueZero, the comparison of [Array.prototype.includes] *)
Definition same_value_zero (a b : value) : bool :=
  match a, b with
  | JNum x, JNum y => PrimFloat.eqb x y || (PrimFloat.is_nan x && PrimFloat.is_nan y)
  | _, _ => strict_eq a b
  end.

Definition includes (l : list value) (v : value) : bool :=
  existsb (fun x => same_value_zero x v) l.

(** [x || 0] on a number that may be absent *)
Definition num_or_zero (x : option float) : float :=
  match x with
  | Some y => if num_truthy y then y else 0%float
  | None => 0%float
  end.

(** [s || t] on a string that may be absent *)
Definition str_or (s : option string) (t : string) : string :=
  match s with
  | Some x => if str_truthy x then x else t
  | None => t
  end.

(** Template-literal interpolation of a string that may be absent *)
Definition interpolate (s : option string) : string :=
  match s with
  | Some x => x
  | None => "undefined"
  end.

Definition is_lower (c : ascii) : bool :=
  let n := N_of_ascii c in ((97 <=? n) && (n <=? 122))%N.

Definition is_upper (c : ascii) : bool :=
  let n := N_of_ascii c in ((65 <=? n) && (n <=? 90))%N.

Definition is_digit (c : ascii) : bool :=
  let n := N_of_ascii c in ((48 <=? n) && (n <=? 57))%N.

(** White space, as [trim] removes it and [\s] matches it: tab, line
    feed, vertical tab, form feed, carriage return, space and the no-break
    space. *)
Definition is_space (c : ascii) : bool :=
  let n := N_of_ascii c in (((9 <=? n) && (n <=? 13)) || (n =? 32) || (n =? 160))%N.

Definition upper_char (c : ascii) : ascii :=
  if is_lower c then ascii_of_N (N_of_ascii c - 32) else c.

Fixpoint toUpperCase (s : string) : string :=
  match s with
  | EmptyString => EmptyString
  | String c s' => String (upper_char c) (toUpperCase s')
  end.

Fixpoint trimStart (s : string) : string :=
  match s with
  | EmptyString => EmptyString
  | String c s' => if is_space c then trimStart s' else s
  end.

Definition reverse_string (s : string) : string :=
  string_of_list_ascii (rev (list_ascii_of_string s)).

Definition trimEnd (s : string) : string :=
  reverse_string (trimStart (reverse_string s)).

Definition trim (s : string) : string :=
  trimEnd (trimStart s).

(** *** Numbers written as text *)

Definition digitValue (c : ascii) : Z := Z.of_N (N_of_ascii c) - 48.

Fixpoint takeDigits (s : string) : list ascii * string :=
  match s with
  | String c s' =>
      if is_digit c
      then let (digits, rest) := takeDigits s' in (c :: digits, rest)
      else ([], s)
  | EmptyString => ([], s)
  end.

Definition digitsValue (digits : list ascii) : Z :=
  fold_left (fun n c => 10 * n + digitValue c) digits 0.

(** The double nearest to [n * 10 ^ e], for [n] not negative, with the sign
    given: one rounding, ties to even. *)
Definition decimalValue (negative : bool) (n e : Z) : float :=
  match n with
  | Zpos p =>
      if 0 <=? e
      then SF2Prim (binary_round prec emax negative (p * Z.to_pos (10 ^ e)) 0)
      else SF2Prim (SFdiv prec emax (S754_finite negative p 0)
                      (S754_finite false (Z.to_pos (10 ^ (- e))) 0))
  | _ => if negative then (-0)%float else 0%float
  end.

Definition dropPrefix (prefix s : string) : option string :=
  if String.prefix prefix s
  then Some (String.substring (String.length prefix) (String.length s - String.length prefix) s)
  else None.

(** ExponentPart, when the text starts with one: its value and the rest. *)
Definition exponentPart (s : string) : option (Z * string) :=
  match s with
  | String c s' =>
      if Ascii.eqb c "e" || Ascii.eqb c "E"
      then
        let '(negative, body) :=
          match s' with
          | String "+" t => (false, t)
          | String "-" t => (true, t)
          | _ => (false, s')
          end in
        match takeDigits body with
        | ([], _) => None
        | (digits, rest) =>
            Some (if negative then - digitsValue digits else digitsValue digits, rest)
        end
      else None
  | EmptyString => None
  end.

(** The longest prefix that is a StrUnsignedDecimalLiteral: its value with
    the sign given, and the rest of the text. *)
Definition unsignedDecimalPrefix (negative : bool) (s : string) : option (float * string) :=
  match dropPrefix "Infinity" s with
  | Some rest => Some (if negative then neg_infinity else infinity, rest)
  | None =>
      let (whole, afterWhole) := takeDigits s in
      let mantissa :=
        match afterWhole with
        | String "." t =>
            let (fraction, afterFraction) := takeDigits t in
            match whole, fraction with
            | [], [] => None
            | _, _ => Some (whole ++ fraction, - Z.of_nat (length fraction), afterFraction)
            end
        | _ =>
            match whole with
            | [] => None
            | _ => Some (whole, 0, afterWhole)
            end
        end%list in
      match mantissa with
      | None => None
      | Some (digits, e, rest) =>
          match exponentPart rest with
          | Some (e', rest') => Some (decimalValue negative (digitsValue digits) (e + e'), rest')
          | None => Some (decimalValue negative (digitsValue digits) e, rest)
          end
      end
  end.

(** The longest prefix that is a StrDecimalLiteral. *)
Definition decimalPrefix (s : string) : option (float * string) :=
  match s with
  | String "+" t => unsignedDecimalPrefix false t
  | String "-" t => unsignedDecimalPrefix true t
  | _ => unsignedDecimalPrefix false s
  end.

(** [parseFloat(text)] *)
Definition parseFloatText (s : string) : float :=
  match decimalPrefix (trimStart s) with
  | Some (x, _) => x
  | None => nan
  end.

Definition is_hex (c : ascii) : bool :=
  let n := N_of_ascii c in
  is_digit c || ((65 <=? n) && (n <=? 70))%N || ((97 <=? n) && (n <=? 102))%N.

Definition hexValue (c : ascii) : Z :=
  let n := Z.of_N (N_of_ascii c) in
  if is_digit c then n - 48 else if n <=? 70 then n - 55 else n - 87.

(** The integer written in the base given, when every character is a digit
    of that base and there is at least one. *)
Definition integerInBase (base : Z) (s : string) : option Z :=
  let digits := list_ascii_of_string s in
  if negb (length digits =? 0)%nat
     && forallb (fun c => is_hex c && (hexValue c <? base)) digits
  then Some (fold_left (fun n c => base * n + hexValue c) digits 0)
  else None.

Definition nonDecimalInteger (s : string) : option Z :=
  match s with
  | String "0" (String c t) =>
      if Ascii.eqb c "x" || Ascii.eqb c "X" then integerInBase 16 t
      else if Ascii.eqb c "o" || Ascii.eqb c "O" then integerInBase 8 t
      else if Ascii.eqb c "b" || Ascii.eqb c "B" then integerInBase 2 t
      else None
  | _ => None
  end.

(** [Number(text)], the conversion that a comparison applies to a text. *)
Definition toNumberText (s : string) : float :=
  let t := trim s in
  match t with
  | EmptyString => 0%float
  | _ =>
      match nonDecimalInteger t with
      | Some n => decimalValue false n 0
      | None =>
          match decimalPrefix t with
          | Some (x, EmptyString) => x
          | _ => nan
          end
      end
  end.

(** The binary64 number nearest to the integer [n], ties to even: what a
    number holds when the exact result of an operation on integers is [n],
    for [n] within the range of binary64 (below [2 ^ 1024] in magnitude).
    Every integer up to [2 ^ 53] in magnitude is kept; above, only the 53
    leading bits are. *)
Definition toDouble (n : Z) : Z :=
  if Z.abs n <=? 2 ^ 53 then n
  else
    let k := Z.log2 (Z.abs n) - 52 in
    let q := n / 2 ^ k in
    let r := n mod 2 ^ k in
    let half := 2 ^ (k - 1) in
    (if (half <? r) || ((half =? r) && Z.odd q) then q + 1 else q) * 2 ^ k.

End Js.

(** ** The JSON-file store *)

Module Storage.

(** [contents = None]: the file is missing, unreadable or not valid JSON,
    so that [readFileSync]/[JSON.parse] throws. A file that is read holds
    an array of records, as every write of the routers leaves it; other
    JSON values are outside the model. [writable = false]: the next
    [writeFileSync] throws and leaves the file as it was. *)
Record file (A : Type) : Type := File {
  contents : option (list A);
  writable : bool
}.
Arguments File {A} _ _.
Arguments contents {A} _.
Arguments writable {A} _.

(** [readJSONFile], [readMenuData], [readPromoData]: the [catch] branch
    logs and returns the empty array. *)
Definition readJSONFile {A} (f : file A) : list A :=
  match contents f with
  | Some data => data
  | None => []
  end.

(** [writeJSONFile], [writeMenuData], [writePromoData]: the [catch]
    branch logs and returns [false]. *)
Definition writeJSONFile {A} (f : file A) (data : list A) : file A * bool :=
  if writable f
  then (File (Some data) (writable f), true)
  else (f, false).

End Storage.

(** ** Bookings router ([backend/routes/bookings.js]) *)

Module Bookings.
Import Js Storage.

(** An element of [selectedItems] in the request body. *)
Record SelectedItem : Type := {
  name : option string;
  price : option float;
  quantity : option float
}.

(** An element of [items] in a stored booking. *)
Record BookingItem : Type := {
  itemName : option string;
  itemQuantity : option float;
  unitPrice : option float;
  totalPrice : float
}.

(** An object of [bookings.json]. The four fields that the availability
    scan and the creation check read, in their camel-case and snake-case
    spellings, are kept as JSON values. *)
Record Booking : Type := {
  id : option Z;
  bookingId : string;
  userId : Z;
  customerName : string;
  customerPhone : option string;
  eventType : option string;
  eventDate : value;
  event_date : value;
  timeSlot : value;
  time_slot : value;
  eventVenue : option string;
  venue : option string;
  numGuests : option Z;
  totalAmount : float;
  specialInstructions : string;
  selectedItems : list SelectedItem;
  items : list BookingItem;
  bookingStatus : string;
  status : string;
  createdAt : string;
  updatedAt : string
}.

(** The body of [POST /]. [numGuests] is the result of [parseInt], [None]
    standing for [NaN]; an element [None] of [selectedItems] is a [null]
    of the array. *)
Record CreateRequest : Type := {
  req_firstName : option string;
  req_lastName : option string;
  req_contactNumber : option string;
  req_occasion : option string;
  req_eventDate : option string;
  req_timeSlot : option string;
  req_numGuests : option Z;
  req_eventVenue : option string;
  req_instructions : option string;
  req_fullAddress : option string;
  req_selectedItems : option (list (option SelectedItem))
}.

(** What the handler reads from the clock and the random source:
    [Date.now()] as text, the five random characters, and
    [new Date().toISOString()]. *)
Record Env : Type := {
  now_text : string;
  random_text : string;
  iso_text : string
}.

Inductive Response : Type :=
| Availability (date : string) (bookings : list Booking) (availableSlots : list string)
| Created (message : string) (booking : Booking)
| Error (status : Z) (error : string).

Definition allSlots : list string := ["morning"; "afternoon"].

(** [booking.eventDate || booking.event_date] *)
Definition bookingDate (b : Booking) : value :=
  or_else (eventDate b) (event_date b).

(** [booking.timeSlot || booking.time_slot] *)
Definition bookingSlot (b : Booking) : value :=
  or_else (timeSlot b) (time_slot b).

Definition getAvailableSlots (dateBookings : list Booking) : list string :=
  let bookedSlots := List.filter truthy (List.map bookingSlot dateBookings) in
  List.filter (fun slot => negb (includes bookedSlots (JStr slot))) allSlots.

(** [GET /availability/:date] *)
Definition checkAvailability (date : string) (f : file Booking) : Response * file Booking :=
  let bookings := readJSONFile f in
  let dateBookings :=
    List.filter (fun booking => strict_eq (bookingDate booking) (JStr date)) bookings in
  (Availability date dateBookings (getAvailableSlots dateBookings), f).

(** The predicate of [bookings.find] in [POST /]. *)
Definition conflicts (eventDate0 timeSlot0 : string) (booking : Booking) : bool :=
  strict_eq (eventDate booking) (JStr eventDate0)
  && (strict_eq (timeSlot booking) (JStr timeSlot0)
      || strict_eq (time_slot booking) (JStr timeSlot0)).

Definition id_or_zero (i : option Z) : Z :=
  match i with
  | Some n => n
  | None => 0
  end.

(** [Math.max(0, ...bookings.map(b => b.id || 0)) + 1] *)
Definition newId (bookings : list Booking) : Z :=
  toDouble (fold_right Z.max 0 (List.map (fun b => id_or_zero (id b)) bookings) + 1).

Definition lineTotal (item : SelectedItem) : float :=
  (num_or_zero (price item) * num_or_zero (quantity item))%float.

(** [selectedItems.forEach(item => { totalAmount += ... })] *)
Definition computeTotal (selected : list SelectedItem) : float :=
  fold_left (fun total item => (total + lineTotal item)%float) selected 0%float.

Definition toBookingItem (item : SelectedItem) : BookingItem :=
  {| itemName := name item;
     itemQuantity := quantity item;
     unitPrice := price item;
     totalPrice := lineTotal item |}.

Definition optional_truthy (s : option string) : bool :=
  match s with
  | Some x => str_truthy x
  | None => false
  end.

Definition conflictMessage (timeSlot0 eventDate0 : string) : string :=
  "The " ++ timeSlot0 ++ " time slot is already booked for " ++ eventDate0.

Definition newBooking (env : Env) (req : CreateRequest) (eventDate0 timeSlot0 : string)
    (selected : list SelectedItem) (bookings : list Booking) : Booking :=
  {| id := Some (newId bookings);
     bookingId := "BK-" ++ now_text env ++ "-" ++ random_text env;
     userId := 1;
     customerName := interpolate (req_firstName req) ++ " " ++ interpolate (req_lastName req);
     customerPhone := req_contactNumber req;
     eventType := req_occasion req;
     eventDate := JStr eventDate0;
     event_date := JUndefined;
     timeSlot := JStr timeSlot0;
     time_slot := JUndefined;
     eventVenue := if optional_truthy (req_eventVenue req)
                   then req_eventVenue req else req_fullAddress req;
     venue := req_fullAddress req;
     numGuests := req_numGuests req;
     totalAmount := computeTotal selected;
     specialInstructions := str_or (req_instructions req) "";
     selectedItems := selected;
     items := List.map toBookingItem selected;
     bookingStatus := "pending";
     status := "pending";
     createdAt := iso_text env;
     updatedAt := iso_text env |}.

(** [!eventDate || !timeSlot || !selectedItems || !selectedItems.length] *)
Definition missingRequiredFields (req : CreateRequest) : bool :=
  negb (optional_truthy (req_eventDate req))
  || negb (optional_truthy (req_timeSlot req))
  || match req_selectedItems req with
     | Some selected => (length selected =? 0)%nat
     | None => true
     end.

(** The elements of [selectedItems] as [forEach] reads them: reading
    [item.price] of a [null] element throws. *)
Fixpoint readItems (selected : list (option SelectedItem)) : option (list SelectedItem) :=
  match selected with
  | [] => Some []
  | None :: _ => None
  | Some item :: rest => option_map (cons item) (readItems rest)
  end.

(** [POST /]. The [catch] branch answers what is thrown after the two
    guards, before anything is written. *)
Definition createBooking (env : Env) (req : CreateRequest) (f : file Booking)
    : Response * file Booking :=
  if missingRequiredFields req
  then (Error 400 "Missing required fields", f)
  else
    let eventDate0 := str_or (req_eventDate req) "" in
    let timeSlot0 := str_or (req_timeSlot req) "" in
    let bookings := readJSONFile f in
    match List.find (conflicts eventDate0 timeSlot0) bookings with
    | Some _ => (Error 400 (conflictMessage timeSlot0 eventDate0), f)
    | None =>
        match readItems (default [] (req_selectedItems req)) with
        | None => (Error 500 "Internal server error", f)
        | Some selected =>
            let booking := newBooking env req eventDate0 timeSlot0 selected bookings in
            let (f', saved) := writeJSONFile f (bookings ++ [booking]) in
            if saved
            then (Created "Booking created successfully" booking, f')
            else (Error 500 "Failed to save booking", f')
        end
    end.

(** The slots of the stored bookings whose date field is the string
    [date]. *)
Definition bookedOn (bookings : list Booking) (date slot : string) : Prop :=
  ∃ b, In b bookings ∧ bookingDate b = JStr date ∧ bookingSlot b = JStr slot.

(** A stored booking without the snake-case fields. *)
Definition camelCaseOnly (b : Booking) : Prop :=
  event_date b = JUndefined ∧ time_slot b = JUndefined.

(** The answers that report success, and those with status 500. *)
Definition succeeded (r : Response) : Prop :=
  match r with
  | Error _ _ => False
  | _ => True
  end.

Definition serverError (r : Response) : Prop :=
  ∃ error, r = Error 500 error.

End Bookings.

(** ** Arrays *)

Module Array.

(** [Array.prototype.findIndex]; [None] stands for [-1]. *)
Fixpoint findIndex {A} (p : A -> bool) (l : list A) : option nat :=
  match l with
  | [] => None
  | x :: l' => if p x then Some O else option_map S (findIndex p l')
  end.

(** [array.splice(i, 1)] as far as the array is concerned. *)
Definition splice1 {A} (i : nat) (l : list A) : list A := delete i l.

End Array.

(** ** Receipts router ([backend/routes/receipts.js]): the totals of
       [POST /generate] *)

Module Receipts.
Import Js.

Record Totals : Type := {
  subtotal : float;
  taxRate : float;
  taxAmount : float;
  totalAmount : float
}.

(** The totals as the handler computes them, in binary64:
    [subtotal = booking.total_amount || 0], [taxRate = 0.12],
    [taxAmount = subtotal * taxRate], [totalAmount = subtotal + taxAmount]. *)
Definition receiptTotals (total_amount : option float) : Totals :=
  let subtotal0 := num_or_zero total_amount in
  let taxRate0 := 0.12%float in
  let taxAmount0 := (subtotal0 * taxRate0)%float in
  let totalAmount0 := (subtotal0 + taxAmount0)%float in
  {| subtotal := subtotal0; taxRate := taxRate0;
     taxAmount := taxAmount0; totalAmount := totalAmount0 |}.

(** The rational number a finite float denotes. *)
Definition exact (x : float) : option Q :=
  match Prim2SF x with
  | SpecFloat.S754_zero _ => Some 0%Q
  | SpecFloat.S754_finite s m e =>
      Some ((if s then -(1) else 1) * (Zpos m # 1) * Qpower 2 e)%Q
  | _ => None
  end.

(** The rational number of the mantissa [m] and the exponent [e]. *)
Definition dyadic (m : positive) (e : Z) : Q := (inject_Z (Zpos m) * Qpower 2 e)%Q.

(** The state of the rounding of a mantissa [M] after [n] of its low bits
    are shifted out: the quotient, and what the round bit and the sticky bit
    tell about the remainder. *)
Definition halved (M n : Z) (mrs : shr_record) : Prop :=
  ∃ rem,
    0 ≤ shr_m mrs ∧ 0 ≤ rem < 2 ^ n
    ∧ M = shr_m mrs * 2 ^ n + rem
    ∧ (shr_r mrs = true ↔ 2 ^ n ≤ 2 * rem)
    ∧ (shr_s mrs = true ↔ rem ≠ 0 ∧ 2 * rem ≠ 2 ^ n).

End Receipts.

(** ** Promo-codes router ([backend/routes/promo-codes.js]) *)

Module PromoCodes.
Import Js Storage Array.

Record PromoCode : Type := {
  id : option Z;
  code : string;
  discountPercent : Z;
  description : string;
  usageLimit : option Z;
  usageCount : Z;
  startAt : option string;
  endAt : option string;
  active : bool;
  createdAt : string;
  updatedAt : string
}.

(** The clock: [new Date()] in milliseconds, its ISO text, and the
    milliseconds of [new Date(s)], [None] for an invalid date. *)
Record Clock : Type := {
  now : Z;
  iso_text : string;
  date_ms : string -> option Z
}.

Inductive Response : Type :=
| Ok (status : Z) (promoCode : PromoCode)
| Error (status : Z) (error : string).

Definition sameCode (code0 : string) (p : PromoCode) : bool :=
  String.eqb (toUpperCase (code p)) (toUpperCase code0).

(** [promoCode.startAt && new Date(promoCode.startAt) > now] *)
Definition notYetActive (clock : Clock) (p : PromoCode) : bool :=
  match startAt p with
  | Some s =>
      str_truthy s &&
      match date_ms clock s with
      | Some t => now clock <? t
      | None => false
      end
  | None => false
  end.

(** [promoCode.endAt && new Date(promoCode.endAt) < now] *)
Definition expired (clock : Clock) (p : PromoCode) : bool :=
  match endAt p with
  | Some s =>
      str_truthy s &&
      match date_ms clock s with
      | Some t => t <? now clock
      | None => false
      end
  | None => false
  end.

(** [promoCode.usageLimit && promoCode.usageCount >= promoCode.usageLimit] *)
Definition limitReached (p : PromoCode) : bool :=
  match usageLimit p with
  | Some limit => negb (limit =? 0) && (limit <=? usageCount p)
  | None => false
  end.

(** [POST /validate] *)
Definition validatePromo (clock : Clock) (code0 : option string) (f : file PromoCode)
    : Response * file PromoCode :=
  match code0 with
  | None => (Error 400 "Promo code is required", f)
  | Some c =>
      if negb (str_truthy c) then (Error 400 "Promo code is required", f)
      else
        match List.find (sameCode c) (readJSONFile f) with
        | None => (Error 404 "Invalid promo code", f)
        | Some promoCode =>
            if negb (active promoCode)
            then (Error 400 "Promo code is no longer active", f)
            else if notYetActive clock promoCode
            then (Error 400 "Promo code is not yet active", f)
            else if expired clock promoCode
            then (Error 400 "Promo code has expired", f)
            else if limitReached promoCode
            then (Error 400 "Promo code usage limit reached", f)
            else (Ok 200 promoCode, f)
        end
  end.

Record CreateRequest : Type := {
  req_code : option string;
  req_discountPercent : option Z;
  req_description : option string;
  req_usageLimit : option Z;
  req_startAt : option string;
  req_endAt : option string;
  req_active : option bool
}.

Definition id_or_zero (i : option Z) : Z :=
  match i with
  | Some n => n
  | None => 0
  end.

Fixpoint maximum (x : Z) (l : list Z) : Z :=
  match l with
  | [] => x
  | y :: l' => Z.max x (maximum y l')
  end.

(** [promoCodes.length > 0 ? Math.max(...promoCodes.map(p => p.id || 0)) + 1 : 1] *)
Definition newId (promoCodes : list PromoCode) : Z :=
  match List.map (fun p => id_or_zero (id p)) promoCodes with
  | [] => 1
  | x :: l => toDouble (maximum x l + 1)
  end.

Definition newPromoCode (clock : Clock) (req : CreateRequest) (code0 : string)
    (percent : Z) (promoCodes : list PromoCode) : PromoCode :=
  {| id := Some (newId promoCodes);
     code := trim (toUpperCase code0);
     discountPercent := percent;
     description := str_or (req_description req) "";
     usageLimit := match req_usageLimit req with
                   | Some n => if n =? 0 then None else Some n
                   | None => None
                   end;
     usageCount := 0;
     startAt := Some (str_or (req_startAt req) (iso_text clock));
     endAt := match req_endAt req with
              | Some s => if str_truthy s then Some s else None
              | None => None
              end;
     active := match req_active req with
               | Some b => b
               | None => true
               end;
     createdAt := iso_text clock;
     updatedAt := iso_text clock |}.

(** [POST /] *)
Definition createPromo (clock : Clock) (req : CreateRequest) (f : file PromoCode)
    : Response * file PromoCode :=
  match req_code req, req_discountPercent req with
  | Some code0, Some percent =>
      if negb (str_truthy code0) || (percent =? 0)
      then (Error 400 "Code and discount percentage are required", f)
      else if (percent <? 1) || (100 <? percent)
      then (Error 400 "Discount percentage must be between 1 and 100", f)
      else
        let promoCodes := readJSONFile f in
        match List.find (sameCode code0) promoCodes with
        | Some _ => (Error 400 "Promo code already exists", f)
        | None =>
            let promo := newPromoCode clock req code0 percent promoCodes in
            let (f', success) := writeJSONFile f (promoCodes ++ [promo]) in
            if success
            then (Ok 201 promo, f')
            else (Error 500 "Failed to save promo code", f')
        end
  | _, _ => (Error 400 "Code and discount percentage are required", f)
  end.

(** The body of [PUT /:id]: the fields present in it replace those of the
    stored object. *)
Record Updates : Type := {
  upd_code : option string;
  upd_discountPercent : option Z;
  upd_description : option string;
  upd_usageLimit : option (option Z);
  upd_usageCount : option Z;
  upd_startAt : option (option string);
  upd_endAt : option (option string);
  upd_active : option bool;
  upd_createdAt : option string
}.

Definition override {A} (current : A) (update : option A) : A :=
  match update with
  | Some x => x
  | None => current
  end.

(** [{ ...currentPromo, ...updates, id: promoId, updatedAt: ... }] *)
Definition applyUpdates (clock : Clock) (promoId : Z) (current : PromoCode)
    (updates : Updates) : PromoCode :=
  {| id := Some promoId;
     code := override (code current) (upd_code updates);
     discountPercent := override (discountPercent current) (upd_discountPercent updates);
     description := override (description current) (upd_description updates);
     usageLimit := override (usageLimit current) (upd_usageLimit updates);
     usageCount := override (usageCount current) (upd_usageCount updates);
     startAt := override (startAt current) (upd_startAt updates);
     endAt := override (endAt current) (upd_endAt updates);
     active := override (active current) (upd_active updates);
     createdAt := override (createdAt current) (upd_createdAt updates);
     updatedAt := iso_text clock |}.

(** [promo.id === promoId], where [promoId] is the result of [parseInt]
    ([None] for [NaN]). *)
Definition hasId (promoId : option Z) (p : PromoCode) : bool :=
  match id p, promoId with
  | Some i, Some j => i =? j
  | _, _ => false
  end.

(** The common shape of [PUT /:id], [PATCH /:id/toggle] and
    [DELETE /:id]: find the index, change the array, write it back. *)
Definition modifyAt (promoId : option Z) (failure : string)
    (change : nat -> PromoCode -> list PromoCode -> list PromoCode * PromoCode)
    (f : file PromoCode) : Response * file PromoCode :=
  let promoCodes := readJSONFile f in
  match findIndex (hasId promoId) promoCodes with
  | None => (Error 404 "Promo code not found", f)
  | Some promoIndex =>
      match promoCodes !! promoIndex with
      | None => (Error 404 "Promo code not found", f)
      | Some current =>
          let (promoCodes', answer) := change promoIndex current promoCodes in
          let (f', success) := writeJSONFile f promoCodes' in
          if success then (Ok 200 answer, f') else (Error 500 failure, f')
      end
  end.

(** [PUT /:id] *)
Definition updatePromo (clock : Clock) (promoId : option Z) (updates : Updates)
    (f : file PromoCode) : Response * file PromoCode :=
  modifyAt promoId "Failed to save promo code"
    (fun promoIndex current promoCodes =>
       let updatedPromo := applyUpdates clock (id_or_zero promoId) current updates in
       (<[promoIndex := updatedPromo]> promoCodes, updatedPromo)) f.

(** [PATCH /:id/toggle]; [Boolean(undefined)] is [false]. *)
Definition togglePromo (clock : Clock) (promoId : option Z) (active0 : option bool)
    (f : file PromoCode) : Response * file PromoCode :=
  modifyAt promoId "Failed to update promo code"
    (fun promoIndex current promoCodes =>
       let toggled :=
         {| id := id current; code := code current;
            discountPercent := discountPercent current;
            description := description current;
            usageLimit := usageLimit current; usageCount := usageCount current;
            startAt := startAt current; endAt := endAt current;
            active := match active0 with Some b => b | None => false end;
            createdAt := createdAt current;
            updatedAt := iso_text clock |} in
       (<[promoIndex := toggled]> promoCodes, toggled)) f.

(** [DELETE /:id] *)
Definition deletePromo (promoId : option Z) (f : file PromoCode)
    : Response * file PromoCode :=
  modifyAt promoId "Failed to delete promo code"
    (fun promoIndex current promoCodes => (splice1 promoIndex promoCodes, current)) f.

(** No two stored promo codes have codes equal up to case. *)
Definition uniqueCodes (promoCodes : list PromoCode) : Prop :=
  List.NoDup (List.map (fun p => toUpperCase (code p)) promoCodes).

(** The checks of the validation endpoint in the order the specification
    lists them, each with its reason; [firstFailure] returns the reason of
    the first check that fails. *)
Definition orderedChecks (clock : Clock) (p : PromoCode) : list (bool * string) :=
  [ (active p, "Promo code is no longer active");
    (negb (notYetActive clock p), "Promo code is not yet active");
    (negb (expired clock p), "Promo code has expired");
    (negb (limitReached p), "Promo code usage limit reached") ].

Fixpoint firstFailure (checks : list (bool * string)) : option string :=
  match checks with
  | [] => None
  | (passed, reason) :: rest => if passed then firstFailure rest else Some reason
  end.




(** The answers that report success, and those with status 500. *)
Definition succeeded (r : Response) : Prop :=
  match r with
  | Error _ _ => False
  | _ => True
  end.

Definition serverError (r : Response) : Prop :=
  ∃ error, r = Error 500 error.

End PromoCodes.

(** ** Auth helper: the password policy *)

Module Auth.
Import Js.

(** The character class of the "special character" regular expression:
    the punctuation marks below and the double quote (character 34). *)
Definition specialCharacters : string :=
  "!@#$%^&*(),.?" ++ String (ascii_of_N 34) ":{}|<>".

Definition is_special (c : ascii) : bool :=
  existsb (Ascii.eqb c) (list_ascii_of_string specialCharacters).

(** [/class/.test(password)] for a class of single characters *)
Definition test (class : ascii -> bool) (password : string) : bool :=
  existsb class (list_ascii_of_string password).

Definition strLength (s : string) : Z := Z.of_nat (String.length s).

Definition calculatePasswordStrength (password : string) : string :=
  let score :=
    (if 8 <=? strLength password then 1 else 0)
    + (if 12 <=? strLength password then 1 else 0)
    + (if test is_upper password then 1 else 0)
    + (if test is_lower password then 1 else 0)
    + (if test is_digit password then 1 else 0)
    + (if test is_special password then 1 else 0) in
  if score <? 3 then "weak"
  else if score <? 5 then "medium"
  else "strong".

Record Validation : Type := {
  isValid : bool;
  errors : list string;
  strength : string
}.

Definition pushIf (condition : bool) (message : string) (errors0 : list string)
    : list string :=
  if condition then errors0 ++ [message] else errors0.

Definition minLength : Z := 8.

Definition lengthError : string := "Password must be at least 8 characters long".
Definition uppercaseError : string := "Password must contain at least one uppercase letter".
Definition lowercaseError : string := "Password must contain at least one lowercase letter".
Definition numberError : string := "Password must contain at least one number".
Definition specialError : string := "Password must contain at least one special character".

Definition validatePasswordStrength (password : string) : Validation :=
  let hasUpperCase := test is_upper password in
  let hasLowerCase := test is_lower password in
  let hasNumbers := test is_digit password in
  let hasSpecial := test is_special password in
  let errors0 :=
    pushIf (negb hasSpecial) specialError
      (pushIf (negb hasNumbers) numberError
         (pushIf (negb hasLowerCase) lowercaseError
            (pushIf (negb hasUpperCase) uppercaseError
               (pushIf (strLength password <? minLength) lengthError [])))) in
  {| isValid := (length errors0 =? 0)%nat;
     errors := errors0;
     strength := calculatePasswordStrength password |}.

(** The characters of a password. *)
Definition contains (class : ascii -> bool) (password : string) : Prop :=
  ∃ c, In c (list_ascii_of_string password) ∧ class c = true.

End Auth.

(** ** Menu router ([backend/routes/menu.js]) *)

Module Menu.
Import Js Storage Array.

Record MenuItem : Type := {
  id : option Z;
  itemName : string;
  description : string;
  category : string;
  pricePerServing : float;
  imageUrl : string;
  isAvailable : bool
}.

Inductive Response : Type :=
| Ok (status : Z) (message : string) (item : MenuItem)
| Error (status : Z) (error : string).

(** A JavaScript number that is an integer or minus infinity: the values
    [Math.max] takes on a list of integers. *)
Inductive ExtInt : Type :=
| NegInfinity
| Finite (n : Z).

Definition ext_max (a b : ExtInt) : ExtInt :=
  match a, b with
  | NegInfinity, _ => b
  | _, NegInfinity => a
  | Finite x, Finite y => Finite (Z.max x y)
  end.

(** [Math.max(...values)]; minus infinity for no argument. *)
Definition mathMax (values : list Z) : ExtInt :=
  fold_right (fun v acc => ext_max (Finite v) acc) NegInfinity values.

(** [a + 1] *)
Definition ext_succ (a : ExtInt) : ExtInt :=
  match a with
  | NegInfinity => NegInfinity
  | Finite x => Finite (toDouble (x + 1))
  end.

Definition id_or_zero (i : option Z) : Z :=
  match i with
  | Some n => n
  | None => 0
  end.

(** [Math.max(...menuItems.map(item => item.id || 0)) + 1] *)
Definition newId (menuItems : list MenuItem) : ExtInt :=
  ext_succ (mathMax (List.map (fun item => id_or_zero (id item)) menuItems)).

(** The identifier as [JSON.stringify] writes it: minus infinity becomes
    [null]. *)
Definition storedId (i : ExtInt) : option Z :=
  match i with
  | NegInfinity => None
  | Finite n => Some n
  end.

(** The [pricePerServing] of a request body, a JSON value: a number, a
    text, [null], [true] or [false]. An array or an object is given as the
    text it converts to, since the comparison and [parseFloat] both read it
    through that text. *)
Inductive Price : Type :=
| PriceNumber (x : float)
| PriceText (text : string)
| PriceNull
| PriceBool (b : bool).

(** The number that the comparison [pricePerServing < 0] converts the price
    to. *)
Definition toNumber (price0 : Price) : float :=
  match price0 with
  | PriceNumber x => x
  | PriceText text => toNumberText text
  | PriceNull => 0%float
  | PriceBool b => if b then 1%float else 0%float
  end.

(** [pricePerServing < 0] *)
Definition belowZero (price0 : Price) : bool :=
  PrimFloat.ltb (toNumber price0) 0.

(** [parseFloat(pricePerServing)], which reads the text that the price
    converts to: for a number, the number itself, minus zero becoming zero;
    for a text, the number at its beginning; for [null], [true] and [false],
    not a number. *)
Definition parseFloat (price0 : Price) : float :=
  match price0 with
  | PriceNumber x => if PrimFloat.is_zero x then 0%float else x
  | PriceText text => parseFloatText text
  | PriceNull | PriceBool _ => nan
  end.

Record CreateRequest : Type := {
  req_itemName : option string;
  req_description : option string;
  req_category : option string;
  req_pricePerServing : option Price;
  req_imageUrl : option string;
  req_isAvailable : option bool
}.

Definition optional_truthy (s : option string) : bool :=
  match s with
  | Some x => str_truthy x
  | None => false
  end.

(** [POST /] *)
Definition createMenuItem (req : CreateRequest) (f : file MenuItem)
    : Response * file MenuItem :=
  match req_itemName req, req_category req, req_pricePerServing req with
  | Some itemName0, Some category0, Some price0 =>
      if negb (str_truthy itemName0) || negb (str_truthy category0)
      then (Error 400 "Missing required fields: itemName, category, pricePerServing", f)
      else if belowZero price0
      then (Error 400 "Price per serving must be non-negative", f)
      else
        let menuItems := readJSONFile f in
        let newItem :=
          {| id := storedId (newId menuItems);
             itemName := trim itemName0;
             description := str_or (req_description req) "";
             category := trim category0;
             pricePerServing := parseFloat price0;
             imageUrl := str_or (req_imageUrl req) "";
             isAvailable := match req_isAvailable req with
                            | Some b => b
                            | None => true
                            end |} in
        let (f', success) := writeJSONFile f (menuItems ++ [newItem]) in
        if success
        then (Ok 201 "Menu item created successfully" newItem, f')
        else (Error 500 "Failed to save menu item", f')
  | _, _, _ =>
      (Error 400 "Missing required fields: itemName, category, pricePerServing", f)
  end.

(** The body of [PUT /:id]; an absent field is [None]. *)
Record Updates : Type := {
  upd_itemName : option string;
  upd_description : option string;
  upd_category : option string;
  upd_pricePerServing : option Price;
  upd_imageUrl : option string;
  upd_isAvailable : option bool
}.

(** [item.id === itemId], [itemId] being the result of [parseInt]. *)
Definition hasId (itemId : option Z) (item : MenuItem) : bool :=
  match id item, itemId with
  | Some i, Some j => i =? j
  | _, _ => false
  end.

Definition applyUpdates (currentItem : MenuItem) (updates : Updates) : MenuItem :=
  {| id := id currentItem;
     itemName := match upd_itemName updates with
                 | Some s => trim s
                 | None => itemName currentItem
                 end;
     description := match upd_description updates with
                    | Some s => s
                    | None => description currentItem
                    end;
     category := match upd_category updates with
                 | Some s => trim s
                 | None => category currentItem
                 end;
     pricePerServing := match upd_pricePerServing updates with
                        | Some x => parseFloat x
                        | None => pricePerServing currentItem
                        end;
     imageUrl := match upd_imageUrl updates with
                 | Some s => s
                 | None => imageUrl currentItem
                 end;
     isAvailable := match upd_isAvailable updates with
                    | Some b => b
                    | None => isAvailable currentItem
                    end |}.

Definition negativePrice (updates : Updates) : bool :=
  match upd_pricePerServing updates with
  | Some x => belowZero x
  | None => false
  end.

(** What [PUT /:id], [DELETE /:id] and [PATCH /:id/availability] share. *)
Definition modifyAt (itemId : option Z) (message failure : string)
    (change : nat -> MenuItem -> list MenuItem -> list MenuItem * MenuItem)
    (f : file MenuItem) : Response * file MenuItem :=
  let menuItems := readJSONFile f in
  match findIndex (hasId itemId) menuItems with
  | None => (Error 404 "Menu item not found", f)
  | Some itemIndex =>
      match menuItems !! itemIndex with
      | None => (Error 404 "Menu item not found", f)
      | Some currentItem =>
          let (menuItems', answer) := change itemIndex currentItem menuItems in
          let (f', success) := writeJSONFile f menuItems' in
          if success then (Ok 200 message answer, f') else (Error 500 failure, f')
      end
  end.

(** A creation request that passes the two checks of [POST /]: it has a
    name and a category that are not empty, and a price that is not below
    zero when compared as a number. *)
Definition acceptable (req : CreateRequest) : Prop :=
  ∃ itemName0 category0 price0,
    req_itemName req = Some itemName0 ∧ itemName0 ≠ ""
    ∧ req_category req = Some category0 ∧ category0 ≠ ""
    ∧ req_pricePerServing req = Some price0
    ∧ match price0 with
      | PriceNumber x => PrimFloat.ltb x 0 = false
      | PriceText text => PrimFloat.ltb (toNumberText text) 0 = false
      | PriceNull | PriceBool _ => True
      end.

(** [PUT /:id] *)
Definition updateMenuItem (itemId : option Z) (updates : Updates) (f : file MenuItem)
    : Response * file MenuItem :=
  if negativePrice updates
  then (Error 400 "Price per serving must be non-negative", f)
  else
    modifyAt itemId "Menu item updated successfully" "Failed to save menu item"
      (fun itemIndex currentItem menuItems =>
         let updatedItem := applyUpdates currentItem updates in
         (<[itemIndex := updatedItem]> menuItems, updatedItem)) f.

(** [DELETE /:id] *)
Definition deleteMenuItem (itemId : option Z) (f : file MenuItem)
    : Response * file MenuItem :=
  modifyAt itemId "Menu item deleted successfully" "Failed to delete menu item"
    (fun itemIndex currentItem menuItems => (splice1 itemIndex menuItems, currentItem)) f.

(** [PATCH /:id/availability] *)
Definition toggleAvailability (itemId : option Z) (f : file MenuItem)
    : Response * file MenuItem :=
  modifyAt itemId "Menu item availability updated successfully"
    "Failed to update menu item availability"
    (fun itemIndex currentItem menuItems =>
       let toggled :=
         {| id := id currentItem; itemName := itemName currentItem;
            description := description currentItem; category := category currentItem;
            pricePerServing := pricePerServing currentItem;
            imageUrl := imageUrl currentItem;
            isAvailable := negb (isAvailable currentItem) |} in
       (<[itemIndex := toggled]> menuItems, toggled)) f.

(** The answers that report success, and those with status 500. *)
Definition succeeded (r : Response) : Prop :=
  match r with
  | Error _ _ => False
  | _ => True
  end.

Definition serverError (r : Response) : Prop :=
  ∃ error, r = Error 500 error.

End Menu.

(** ** Storage failures, as properties of a handler *)

Module Failures.
Import Storage.

Section Handler.
Context {A R : Type}.
Variable handler : file A -> R * file A.

(** With an unreadable file the handler answers what it answers on the
    empty collection, and leaves the file alone or writes what it would
    write starting from the empty collection. *)
Definition readFailureActsAsEmpty : Prop :=
  ∀ w,
    fst (handler (File None w)) = fst (handler (File (Some []) w))
    ∧ (snd (handler (File None w)) = File None w
       ∨ snd (handler (File None w)) = snd (handler (File (Some []) w))).

(** Whenever the handler gets as far as writing, a failing write is
    answered with status 500 and the file stays as it was. *)
Definition writeFailureIs500 (succeeds serverError : R -> Prop) : Prop :=
  ∀ c,
    succeeds (fst (handler (File c true))) →
    serverError (fst (handler (File c false)))
    ∧ snd (handler (File c false)) = File c false.
End Handler.

End Failures.

(** ** Sample data *)

Module Samples.
Import Js Storage.

Definition bookingEnv : Bookings.Env :=
  {| Bookings.now_text := "1748736000000";
     Bookings.random_text := "K3F9Q";
     Bookings.iso_text := "2025-06-01T00:00:00.000Z" |}.

Definition storedBooking (i : Z) (camelDate snakeDate camelSlot snakeSlot : value)
    : Bookings.Booking :=
  {| Bookings.id := Some i;
     Bookings.bookingId := "BK-1700000000000-AB12C";
     Bookings.userId := 1;
     Bookings.customerName := "Ana Cruz";
     Bookings.customerPhone := Some "09170000000";
     Bookings.eventType := Some "Birthday";
     Bookings.eventDate := camelDate;
     Bookings.event_date := snakeDate;
     Bookings.timeSlot := camelSlot;
     Bookings.time_slot := snakeSlot;
     Bookings.eventVenue := Some "Function hall";
     Bookings.venue := Some "Function hall";
     Bookings.numGuests := Some 50;
     Bookings.totalAmount := 1000%float;
     Bookings.specialInstructions := "";
     Bookings.selectedItems := [];
     Bookings.items := [];
     Bookings.bookingStatus := "pending";
     Bookings.status := "pending";
     Bookings.createdAt := "2025-05-01T00:00:00.000Z";
     Bookings.updatedAt := "2025-05-01T00:00:00.000Z" |}.

(** A booking as [POST /] writes it. *)
Definition morningBooking : Bookings.Booking :=
  storedBooking 1 (JStr "2025-06-01") JUndefined (JStr "morning") JUndefined.

(** A booking that carries its date and slot as [event_date] and
    [time_slot]. *)
Definition snakeCaseBooking : Bookings.Booking :=
  storedBooking 1 JUndefined (JStr "2025-06-01") JUndefined (JStr "morning").

Definition adobo : Bookings.SelectedItem :=
  {| Bookings.name := Some "Chicken adobo";
     Bookings.price := Some 250%float;
     Bookings.quantity := Some 4%float |}.

Definition bookingRequest (selected : option (list Bookings.SelectedItem))
    : Bookings.CreateRequest :=
  {| Bookings.req_firstName := Some "Ben";
     Bookings.req_lastName := Some "Reyes";
     Bookings.req_contactNumber := Some "09180000000";
     Bookings.req_occasion := Some "Wedding";
     Bookings.req_eventDate := Some "2025-06-01";
     Bookings.req_timeSlot := Some "morning";
     Bookings.req_numGuests := Some 80;
     Bookings.req_eventVenue := Some "Garden";
     Bookings.req_instructions := None;
     Bookings.req_fullAddress := Some "12 Mabini St";
     Bookings.req_selectedItems := option_map (List.map Some) selected |}.

(** The clock reads 15 June 2025; it knows its own reading and three
    dates. *)
Definition promoClock : PromoCodes.Clock :=
  {| PromoCodes.now := 1749945600000;
     PromoCodes.iso_text := "2025-06-15T00:00:00.000Z";
     PromoCodes.date_ms := fun s =>
       if String.eqb s "2025-06-15T00:00:00.000Z" then Some 1749945600000
       else if String.eqb s "2024-01-01" then Some 1704067200000
       else if String.eqb s "2024-12-31" then Some 1735603200000
       else if String.eqb s "2099-01-01" then Some 4070908800000
       else None |}.

Definition storedPromo (i : Z) (code0 : string) (endAt0 : option string) (active0 : bool)
    : PromoCodes.PromoCode :=
  {| PromoCodes.id := Some i;
     PromoCodes.code := code0;
     PromoCodes.discountPercent := 10;
     PromoCodes.description := "Ten percent off";
     PromoCodes.usageLimit := Some 100;
     PromoCodes.usageCount := 3;
     PromoCodes.startAt := Some "2024-01-01";
     PromoCodes.endAt := endAt0;
     PromoCodes.active := active0;
     PromoCodes.createdAt := "2024-01-01T00:00:00.000Z";
     PromoCodes.updatedAt := "2024-01-01T00:00:00.000Z" |}.

Definition save10 : PromoCodes.PromoCode :=
  storedPromo 1 "SAVE10" (Some "2099-01-01") true.

Definition welcome5 : PromoCodes.PromoCode :=
  storedPromo 2 "WELCOME5" (Some "2099-01-01") true.


Definition renameTo (code0 : string) : PromoCodes.Updates :=
  {| PromoCodes.upd_code := Some code0;
     PromoCodes.upd_discountPercent := None;
     PromoCodes.upd_description := None;
     PromoCodes.upd_usageLimit := None;
     PromoCodes.upd_usageCount := None;
     PromoCodes.upd_startAt := None;
     PromoCodes.upd_endAt := None;
     PromoCodes.upd_active := None;
     PromoCodes.upd_createdAt := None |}.

Definition promoRequest (code0 : string) : PromoCodes.CreateRequest :=
  {| PromoCodes.req_code := Some code0;
     PromoCodes.req_discountPercent := Some 15;
     PromoCodes.req_description := None;
     PromoCodes.req_usageLimit := None;
     PromoCodes.req_startAt := None;
     PromoCodes.req_endAt := None;
     PromoCodes.req_active := None |}.

Definition lumpia : Menu.MenuItem :=
  {| Menu.id := Some 4;
     Menu.itemName := "Lumpia";
     Menu.description := "Spring rolls";
     Menu.category := "Appetizer";
     Menu.pricePerServing := 120%float;
     Menu.imageUrl := "";
     Menu.isAvailable := true |}.

Definition pancit : Menu.MenuItem :=
  {| Menu.id := Some 7;
     Menu.itemName := "Pancit";
     Menu.description := "Noodles";
     Menu.category := "Main";
     Menu.pricePerServing := 180%float;
     Menu.imageUrl := "";
     Menu.isAvailable := true |}.

Definition priceUpdate (x : float) : Menu.Updates :=
  {| Menu.upd_itemName := None;
     Menu.upd_description := None;
     Menu.upd_category := None;
     Menu.upd_pricePerServing := Some (Menu.PriceNumber x);
     Menu.upd_imageUrl := None;
     Menu.upd_isAvailable := None |}.

Definition menuRequest : Menu.CreateRequest :=
  {| Menu.req_itemName := Some "Leche flan";
     Menu.req_description := None;
     Menu.req_category := Some "Dessert";
     Menu.req_pricePerServing := Some (Menu.PriceNumber 90%float);
     Menu.req_imageUrl := None;
     Menu.req_isAvailable := None |}.

End Samples.

(** ** Bookings router: what the availability answer lists, and [GET /] *)

Module BookingQueries.
Import Js Storage Bookings.

(** The [availableSlots] of the answer of [GET /availability/:date]. *)
Definition freeSlots (date : string) (f : file Booking) : list string :=
  match fst (checkAvailability date f) with
  | Availability _ _ free => free
  | _ => []
  end.

(** An object of [users.json], as far as [GET /] reads it. *)
Record User : Type := {
  user_id : option Z;
  firstName : option string;
  lastName : option string;
  email : option string;
  phoneNumber : option string
}.

(** A booking of the answer of [GET /]: the stored booking with
    [customerName] and [customerPhone] replaced, and four more fields. *)
Record Enhanced : Type := {
  shown : Booking;
  first_name : string;
  last_name : string;
  shown_email : string;
  phone_number : string
}.

(** [u.id === booking.userId] *)
Definition isUser (userId0 : Z) (u : User) : bool :=
  match user_id u with
  | Some i => i =? userId0
  | None => false
  end.

Definition withCustomer (b : Booking) (name0 : string) (phone0 : option string) : Booking :=
  {| id := id b; bookingId := bookingId b; userId := userId b;
     customerName := name0; customerPhone := phone0;
     eventType := eventType b; eventDate := eventDate b; event_date := event_date b;
     timeSlot := timeSlot b; time_slot := time_slot b;
     eventVenue := eventVenue b; venue := venue b; numGuests := numGuests b;
     totalAmount := totalAmount b; specialInstructions := specialInstructions b;
     selectedItems := selectedItems b; items := items b;
     bookingStatus := bookingStatus b; status := status b;
     createdAt := createdAt b; updatedAt := updatedAt b |}.

Definition enhance (users : list User) (b : Booking) : Enhanced :=
  match List.find (isUser (userId b)) users with
  | Some user =>
      {| shown := withCustomer b
                    (interpolate (firstName user) ++ " " ++ interpolate (lastName user))
                    (phoneNumber user);
         first_name := str_or (firstName user) "Unknown";
         last_name := str_or (lastName user) "Customer";
         shown_email := str_or (email user) "No email";
         phone_number := str_or (phoneNumber user) "No phone" |}
  | None =>
      {| shown := withCustomer b "Unknown Customer" (Some "No phone");
         first_name := "Unknown";
         last_name := "Customer";
         shown_email := "No email";
         phone_number := "No phone" |}
  end.

(** [GET /]: the [bookings] of the answer. *)
Definition listBookings (usersFile : file User) (f : file Booking) : list Enhanced :=
  List.map (enhance (readJSONFile usersFile)) (readJSONFile f).

End BookingQueries.

(** ** Menu router: [GET /:id] *)

Module MenuQueries.
Import Js Storage Menu.

Inductive Answer : Type :=
| Found (item : MenuItem)
| NotFound (status : Z) (error : string).

(** [GET /:id] *)
Definition getMenuItem (itemId : option Z) (f : file MenuItem) : Answer :=
  match List.find (hasId itemId) (readJSONFile f) with
  | Some item => Found item
  | None => NotFound 404 "Menu item not found"
  end.

End MenuQueries.

(** ** Invariants of the stored collections *)

Module Invariants.

(** No two stored promo codes carry the same [id] field. *)
Definition promoIdsUnique (promoCodes : list PromoCodes.PromoCode) : Prop :=
  List.NoDup (List.map PromoCodes.id promoCodes).

(** No two stored menu items carry the same [id] field. *)
Definition menuIdsUnique (menuItems : list Menu.MenuItem) : Prop :=
  List.NoDup (List.map Menu.id menuItems).

(** No stored menu item has a price below zero. *)
Definition pricesNotNegative (menuItems : list Menu.MenuItem) : Prop :=
  Forall (fun item => PrimFloat.ltb (Menu.pricePerServing item) 0 = false) menuItems.

End Invariants.

(** ** Auth helper: the middleware *)

Module AuthMiddleware.
Import Js.

(** The payload of a token, as [generateToken] signs it. *)
Record Payload : Type := {
  payload_id : Z;
  payload_email : string;
  userType : value;
  username : string
}.

(** What [jwt.verify] hands to its callback: the payload, or an error with
    its name. *)
Inductive Verification : Type :=
| Valid (user : Payload)
| Invalid (name : string).

Inductive Outcome : Type :=
| Next (user : option Payload)
| Reject (status : Z) (error : string).

(** [s.split(sep)] for a separator of one character: the pieces between the
    separators, empty pieces included. *)
Fixpoint split (sep : ascii) (s : string) : list string :=
  match s with
  | EmptyString => [EmptyString]
  | String c s' =>
      if Ascii.eqb c sep then EmptyString :: split sep s'
      else match split sep s' with
           | piece :: pieces => String c piece :: pieces
           | [] => [String c EmptyString]
           end
  end.

(** [authHeader && authHeader.split(' ')[1]], [None] when the value is
    [undefined] or the header is missing or empty. *)
Definition bearerToken (authHeader : option string) : option string :=
  match authHeader with
  | Some header =>
      if str_truthy header then nth_error (split " " header) 1 else None
  | None => None
  end.

Definition authenticateToken (verify : string -> Verification)
    (authHeader : option string) : Outcome :=
  match bearerToken authHeader with
  | None => Reject 401 "Access token required"
  | Some token =>
      if negb (str_truthy token) then Reject 401 "Access token required"
      else
        match verify token with
        | Invalid name =>
            if String.eqb name "TokenExpiredError" then Reject 401 "Token expired"
            else if String.eqb name "JsonWebTokenError" then Reject 403 "Invalid token"
            else Reject 403 "Token verification failed"
        | Valid user => Next (Some user)
        end
  end.

Definition requireAdmin (user : option Payload) : Outcome :=
  match user with
  | Some u =>
      if negb (strict_eq (userType u) (JStr "admin"))
      then Reject 403 "Admin access required"
      else Next user
  | None => Reject 403 "Admin access required"
  end.

Definition requireCustomerOrAdmin (user : option Payload) : Outcome :=
  match user with
  | Some u =>
      if negb (strict_eq (userType u) (JStr "customer"))
         && negb (strict_eq (userType u) (JStr "admin"))
      then Reject 403 "Customer or admin access required"
      else Next user
  | None => Reject 403 "Customer or admin access required"
  end.

(** The chain [authenticateToken, requireCustomerOrAdmin] in front of the
    protected routes: the second runs when the first calls [next]. *)
Definition protectedRoute (verify : string -> Verification)
    (authHeader : option string) : Outcome :=
  match authenticateToken verify authHeader with
  | Next user => requireCustomerOrAdmin user
  | rejected => rejected
  end.

Definition noSpace (s : string) : Prop :=
  ¬ In " "%char (list_ascii_of_string s).

End AuthMiddleware.

(** ** Front-end utilities ([js/utils.js]) *)

Module Utils.
Import Js.

(** [text.substring(0, n)] *)
Fixpoint take (n : nat) (s : string) : string :=
  match n, s with
  | S m, String c s' => String c (take m s')
  | _, _ => EmptyString
  end.

Definition strLength (s : string) : Z := Z.of_nat (String.length s).

Definition truncateText (text : string) (maxLength : Z) : string :=
  if negb (str_truthy text) || (strLength text <=? maxLength) then text
  else take (Z.to_nat maxLength) text ++ "...".

(** [phone.replace(/\s/g, '')] *)
Fixpoint removeSpaces (s : string) : string :=
  match s with
  | EmptyString => EmptyString
  | String c s' => if is_space c then removeSpaces s' else String c (removeSpaces s')
  end.

Definition is_nonzero_digit (c : ascii) : bool :=
  let n := N_of_ascii c in ((49 <=? n) && (n <=? 57))%N.

(** The expression of [validatePhone]: an optional plus sign, a digit from
    1 to 9, then at most 15 digits, and nothing else. *)
Definition phonePattern (s : string) : bool :=
  let digits := match s with
                | String "+" rest => rest
                | _ => s
                end in
  match digits with
  | String c rest =>
      is_nonzero_digit c
      && (String.length rest <=? 15)%nat
      && forallb is_digit (list_ascii_of_string rest)
  | EmptyString => false
  end.

Definition validatePhone (phone : string) : bool :=
  phonePattern (removeSpaces phone).

(** [timestamp.replace(/[:.]/g, '-')] *)
Fixpoint dashes (s : string) : string :=
  match s with
  | EmptyString => EmptyString
  | String c s' =>
      String (if Ascii.eqb c ":" || Ascii.eqb c "." then "-"%char else c) (dashes s')
  end.

(** [originalName.split('.').pop()] *)
Definition extension (originalName : string) : string :=
  List.last (AuthMiddleware.split "." originalName) EmptyString.

(** [generateImageFileName]; [iso] is [new Date().toISOString()]. *)
Definition generateImageFileName (iso originalName : string) : string :=
  "offer-" ++ dashes iso ++ "." ++ extension originalName.

Fixpoint countChar (c : ascii) (s : string) : nat :=
  match s with
  | EmptyString => O
  | String d s' => ((if Ascii.eqb d c then 1 else 0) + countChar c s')%nat
  end.

End Utils.

(** ** Offers router ([backend/routes/offers.js]) *)

Module Offers.
Import Js Storage.

Record Offer : Type := {
  id : option Z;
  title : string;
  description : string;
  benefits : string;
  imageUrl : string;
  imageFileName : string;
  startAt : option string;
  endAt : option string;
  active : bool;
  createdAt : string;
  updatedAt : string
}.

Inductive Response : Type :=
| Ok (status : Z) (offer : Offer)
| Error (status : Z) (error : string).

(** The milliseconds of [new Date('2099-12-31')]. *)
Definition farFuture : Z := 4102358400000.

(** [offer.startAt ? new Date(offer.startAt) : new Date(0)], [None] for an
    invalid date. *)
Definition startDate (clock : PromoCodes.Clock) (offer : Offer) : option Z :=
  match startAt offer with
  | Some s => if str_truthy s then PromoCodes.date_ms clock s else Some 0
  | None => Some 0
  end.

(** [offer.endAt ? new Date(offer.endAt) : new Date('2099-12-31')] *)
Definition endDate (clock : PromoCodes.Clock) (offer : Offer) : option Z :=
  match endAt offer with
  | Some s => if str_truthy s then PromoCodes.date_ms clock s else Some farFuture
  | None => Some farFuture
  end.

(** The predicate of the filter of [GET /active]; a comparison with an
    invalid date is false. *)
Definition isActive (clock : PromoCodes.Clock) (offer : Offer) : bool :=
  if negb (active offer) then false
  else
    match startDate clock offer, endDate clock offer with
    | Some t0, Some t1 => (t0 <=? PromoCodes.now clock) && (PromoCodes.now clock <=? t1)
    | _, _ => false
    end.

(** [GET /active]: the [offers] of the answer. *)
Definition activeOffers (clock : PromoCodes.Clock) (f : file Offer) : list Offer :=
  List.filter (isActive clock) (readJSONFile f).

Record CreateRequest : Type := {
  req_title : option string;
  req_description : option string;
  req_benefits : option string;
  req_imageData : option string;
  req_imageFileName : option string;
  req_startAt : option string;
  req_endAt : option string;
  req_active : option bool
}.

Definition id_or_zero (i : option Z) : Z :=
  match i with
  | Some n => n
  | None => 0
  end.

(** [offers.length > 0 ? Math.max(...offers.map(o => o.id || 0)) + 1 : 1] *)
Definition newId (offers : list Offer) : Z :=
  match List.map (fun o => id_or_zero (id o)) offers with
  | [] => 1
  | x :: l => Js.toDouble (PromoCodes.maximum x l + 1)
  end.

(** [POST /] *)
Definition createOffer (clock : PromoCodes.Clock) (req : CreateRequest) (f : file Offer)
    : Response * file Offer :=
  match req_title req with
  | None => (Error 400 "Title is required", f)
  | Some title0 =>
      if negb (str_truthy title0) then (Error 400 "Title is required", f)
      else
        let offers := readJSONFile f in
        let newOffer :=
          {| id := Some (newId offers);
             title := trim title0;
             description := str_or (req_description req) "";
             benefits := str_or (req_benefits req) "";
             imageUrl := str_or (req_imageData req) "";
             imageFileName := str_or (req_imageFileName req) "";
             startAt := Some (str_or (req_startAt req) (PromoCodes.iso_text clock));
             endAt := match req_endAt req with
                      | Some s => if str_truthy s then Some s else None
                      | None => None
                      end;
             active := match req_active req with
                       | Some b => b
                       | None => true
                       end;
             createdAt := PromoCodes.iso_text clock;
             updatedAt := PromoCodes.iso_text clock |} in
        let (f', success) := writeJSONFile f (offers ++ [newOffer]) in
        if success
        then (Ok 201 newOffer, f')
        else (Error 500 "Failed to save offer", f')
  end.

End Offers.

(** ** Receipts router: [GET /booking/:bookingId/pdf] up to the call of
       the renderer *)

Module ReceiptPdf.
Import Js Storage.

(** [booking.bookingId || booking.id] *)
Inductive BookingRef : Type :=
| RefText (s : string)
| RefNumber (n : Z)
| RefMissing.

(** The [receiptData] handed to [generateReceiptPDF]. *)
Record ReceiptData : Type := {
  receipt_number : string;
  booking_id : BookingRef;
  first_name : string;
  last_name : string;
  email : string;
  phone_number : string;
  event_type : option string;
  event_date : value;
  event_venue : option string;
  num_guests : option Z;
  total_amount : float;
  payment_method : string;
  payment_status : string;
  issued_date : string
}.

Inductive Response : Type :=
| Document (fileName : string) (receiptData : ReceiptData)
    (bookingItems : list Bookings.SelectedItem)
| Error (status : Z) (error : string).



(** [b.id === parseInt(bookingId)], [None] standing for [NaN]. *)
Definition hasId (bookingId : option Z) (b : Bookings.Booking) : bool :=
  match Bookings.id b, bookingId with
  | Some i, Some j => i =? j
  | _, _ => false
  end.



End ReceiptPdf.

(** ** More sample data *)

Module MoreSamples.

Definition offerRequest : Offers.CreateRequest :=
  {| Offers.req_title := Some "Fiesta package";
     Offers.req_description := None;
     Offers.req_benefits := None;
     Offers.req_imageData := None;
     Offers.req_imageFileName := None;
     Offers.req_startAt := None;
     Offers.req_endAt := None;
     Offers.req_active := None |}.

(** An offer whose end is not a date. *)
Definition undatedOffer : Offers.Offer :=
  {| Offers.id := Some 1;
     Offers.title := "Summer buffet";
     Offers.description := "";
     Offers.benefits := "";
     Offers.imageUrl := "";
     Offers.imageFileName := "";
     Offers.startAt := Some "2024-01-01";
     Offers.endAt := Some "soon";
     Offers.active := true;
     Offers.createdAt := "2024-01-01T00:00:00.000Z";
     Offers.updatedAt := "2024-01-01T00:00:00.000Z" |}.

Definition adminPayload : AuthMiddleware.Payload :=
  {| AuthMiddleware.payload_id := 1;
     AuthMiddleware.payload_email := "admin@example.com";
     AuthMiddleware.userType := Js.JStr "admin";
     AuthMiddleware.username := "admin" |}.

(** A stored menu item with the identifier [2 ^ 53], the first integer
    whose successor is not a binary64 number. *)
Definition lastSafeItem : Menu.MenuItem :=
  {| Menu.id := Some (2 ^ 53);
     Menu.itemName := "Halo-halo";
     Menu.description := "";
     Menu.category := "Dessert";
     Menu.pricePerServing := 95%float;
     Menu.imageUrl := "";
     Menu.isAvailable := true |}.

(** A stored booking with the identifier [2 ^ 53]. *)
Definition lastSafeBooking : Bookings.Booking :=
  Samples.storedBooking (2 ^ 53) (Js.JStr "2025-06-01") Js.JUndefined
    (Js.JStr "morning") Js.JUndefined.

(** The sample request, for the afternoon. *)
Definition afternoonRequest : Bookings.CreateRequest :=
  {| Bookings.req_firstName := Some "Ben";
     Bookings.req_lastName := Some "Reyes";
     Bookings.req_contactNumber := Some "09180000000";
     Bookings.req_occasion := Some "Wedding";
     Bookings.req_eventDate := Some "2025-06-01";
     Bookings.req_timeSlot := Some "afternoon";
     Bookings.req_numGuests := Some 80;
     Bookings.req_eventVenue := Some "Garden";
     Bookings.req_instructions := None;
     Bookings.req_fullAddress := Some "12 Mabini St";
     Bookings.req_selectedItems := Some [Some Samples.adobo] |}.


(** An update whose price is the text [-5abc]: the comparison converts it
    to no number, and [parseFloat] reads -5 in it. *)
Definition textPriceUpdate : Menu.Updates :=
  {| Menu.upd_itemName := None;
     Menu.upd_description := None;
     Menu.upd_category := None;
     Menu.upd_pricePerServing := Some (Menu.PriceText "-5abc");
     Menu.upd_imageUrl := None;
     Menu.upd_isAvailable := None |}.

(** A verifier that accepts every token as the administrator's. *)
Definition acceptAll (token : string) : AuthMiddleware.Verification :=
  AuthMiddleware.Valid adminPayload.

End MoreSamples.

(** * Properties *)

(** ** JavaScript values *)

Lemma strict_eq_str (v : Js.value) (s : string) :
  Js.strict_eq v (Js.JStr s) = true ↔ v = Js.JStr s.
Proof.
  destruct v as [| | b | x | t]; simpl; try (split; [discriminate | intros [=]]).
  rewrite String.eqb_eq. split; [intros -> | intros [= ->]]; reflexivity.
Qed.

Lemma same_value_zero_str (v : Js.value) (s : string) :
  Js.same_value_zero v (Js.JStr s) = true ↔ v = Js.JStr s.
Proof.
  destruct v as [| | b | x | t]; apply (strict_eq_str _ s).
Qed.

Lemma includes_str (l : list Js.value) (s : string) :
  Js.includes l (Js.JStr s) = true ↔ In (Js.JStr s) l.
Proof.
  unfold Js.includes. rewrite existsb_exists. split.
  - intros (v & Hin & Heq). apply same_value_zero_str in Heq. now subst.
  - intros Hin. exists (Js.JStr s). split; [assumption |].
    now apply same_value_zero_str.
Qed.

Lemma str_truthy_true (s : string) : Js.str_truthy s = true ↔ s ≠ "".
Proof.
  unfold Js.str_truthy. rewrite negb_true_iff, String.eqb_neq. reflexivity.
Qed.

(** The numbers read in some texts, by [parseFloat] and by the conversion
    of a comparison. *)
Example numbers_in_text :
  Js.parseFloatText "19.99" = 19.99%float
  ∧ Js.toNumberText "19.99" = 19.99%float
  ∧ Js.parseFloatText "-5abc" = (-5)%float
  ∧ PrimFloat.is_nan (Js.toNumberText "-5abc") = true
  ∧ Js.parseFloatText "  12.5px" = 12.5%float
  ∧ Js.toNumberText " 12.5 " = 12.5%float
  ∧ Js.toNumberText "" = 0%float
  ∧ Js.toNumberText "0x1A" = 26%float
  ∧ Js.parseFloatText "0x1A" = 0%float
  ∧ Js.parseFloatText "1.e2" = 100%float
  ∧ Js.parseFloatText "1e" = 1%float
  ∧ PrimFloat.is_nan (Js.toNumberText "1e") = true
  ∧ PrimFloat.is_nan (Js.parseFloatText ".") = true
  ∧ Js.parseFloatText "-Infinity" = neg_infinity
  ∧ Js.toNumberText "1e309" = infinity
  ∧ Js.toNumberText "5e-324" = 5e-324%float
  ∧ Js.toNumberText "2.4e-324" = 0%float
  ∧ Js.toNumberText "9007199254740993" = 9007199254740992%float
  ∧ Js.toNumberText "0.30000000000000004" = 0.30000000000000004%float.
Proof.
  vm_compute. repeat split.
Qed.

(** ** The store *)

Lemma read_written {A} (data : list A) (w : bool) :
  Storage.readJSONFile (Storage.File (Some data) w) = data.
Proof. reflexivity. Qed.

Lemma read_unreadable {A} (w : bool) :
  Storage.readJSONFile (Storage.File (@None (list A)) w) = [].
Proof. reflexivity. Qed.

(** ** Bookings *)

Lemma slot_names_truthy (slot : string) :
  In slot Bookings.allSlots → Js.truthy (Js.JStr slot) = true.
Proof.
  intros [<- | [<- | []]]; reflexivity.
Qed.

Lemma booked_slots_of (dateBookings : list Bookings.Booking) (slot : string) :
  Js.truthy (Js.JStr slot) = true →
  In (Js.JStr slot) (List.filter Js.truthy (List.map Bookings.bookingSlot dateBookings))
  ↔ ∃ b, In b dateBookings ∧ Bookings.bookingSlot b = Js.JStr slot.
Proof.
  intros Htruthy. rewrite filter_In, in_map_iff. split.
  - intros [(b & Hslot & Hin) _]. eauto.
  - intros (b & Hin & Hslot). split; [eauto | assumption].
Qed.

Lemma available_slots_spec (dateBookings : list Bookings.Booking) (slot : string) :
  In slot (Bookings.getAvailableSlots dateBookings)
  ↔ In slot Bookings.allSlots
    ∧ ¬ ∃ b, In b dateBookings ∧ Bookings.bookingSlot b = Js.JStr slot.
Proof.
  unfold Bookings.getAvailableSlots. rewrite filter_In, negb_true_iff.
  split; intros [Hall Hfree]; split; try assumption.
  - intros Hbooked. apply booked_slots_of in Hbooked; [| now apply slot_names_truthy].
    apply includes_str in Hbooked. congruence.
  - apply not_true_is_false. intros Hinc. apply Hfree.
    apply includes_str in Hinc. apply booked_slots_of in Hinc; [assumption |].
    now apply slot_names_truthy.
Qed.

Lemma available_slots_NoDup (dateBookings : list Bookings.Booking) :
  List.NoDup (Bookings.getAvailableSlots dateBookings).
Proof.
  unfold Bookings.getAvailableSlots. apply List.NoDup_filter.
  repeat constructor; simpl; intuition discriminate.
Qed.

Lemma all_slots (slot : string) :
  In slot Bookings.allSlots ↔ slot = "morning" ∨ slot = "afternoon".
Proof.
  simpl. split; [intros [<- | [<- | []]] | intros [-> | ->]]; auto.
Qed.

Lemma filter_is_sublist {A} (p : A → bool) (l : list A) :
  sublist (List.filter p l) l.
Proof.
  induction l as [| x l IH]; simpl; [constructor |].
  destruct (p x); now constructor.
Qed.

(** C1. For every stored bookings list and every date string [date], the
    availability operation answers with that date, with the stored bookings
    of that date in their stored order, and with a list of slots that has no
    repetition and whose members are exactly those of morning and afternoon
    that are not the slot of a stored booking of that date. The date of a
    booking is its [eventDate], or its [event_date] when [eventDate] is
    absent or falsy; its slot is its [timeSlot], or its [time_slot] when
    [timeSlot] is absent or falsy; a booking is of the date when its date is
    the string [date]. The file is left as it was. *)
Theorem availability_is_complement (bookings : list Bookings.Booking) (w : bool)
    (date : string) :
  ∃ dateBookings free,
    Bookings.checkAvailability date (Storage.File (Some bookings) w)
    = (Bookings.Availability date dateBookings free, Storage.File (Some bookings) w)
    ∧ sublist dateBookings bookings
    ∧ (∀ b, In b dateBookings
            ↔ In b bookings
              ∧ (if Js.truthy (Bookings.eventDate b)
                 then Bookings.eventDate b else Bookings.event_date b) = Js.JStr date)
    ∧ List.NoDup free
    ∧ ∀ slot,
        In slot free
        ↔ (slot = "morning" ∨ slot = "afternoon")
          ∧ ¬ ∃ b, In b bookings
                   ∧ (if Js.truthy (Bookings.eventDate b)
                      then Bookings.eventDate b else Bookings.event_date b) = Js.JStr date
                   ∧ (if Js.truthy (Bookings.timeSlot b)
                      then Bookings.timeSlot b else Bookings.time_slot b) = Js.JStr slot.
Proof.
  eexists _, _. split; [reflexivity |].
  split; [rewrite read_written; apply filter_is_sublist |].
  split.
  { intros b. rewrite read_written, filter_In, strict_eq_str. reflexivity. }
  split; [apply available_slots_NoDup |].
  intros slot. rewrite available_slots_spec, all_slots.
  unfold Bookings.bookingSlot, Bookings.bookingDate, Js.or_else.
  split; intros [Hall Hfree]; split; try assumption; intros (b & Hin & Hrest); apply Hfree.
  - destruct Hrest as [Hdate Hslot]. exists b. split; [| assumption].
    apply filter_In. split; [assumption |]. now apply strict_eq_str.
  - apply filter_In in Hin as [Hin Hdate]. apply strict_eq_str in Hdate. eauto.
Qed.

Lemma find_conflict_iff (bookings : list Bookings.Booking) (d s : string) :
  (∃ b, List.find (Bookings.conflicts d s) bookings = Some b)
  ↔ ∃ b, In b bookings ∧ Bookings.conflicts d s b = true.
Proof.
  split.
  - intros [b Hfind]. apply List.find_some in Hfind. eauto.
  - intros (b & Hin & Hb). destruct (List.find _ bookings) as [b' |] eqn:Hfind; [eauto |].
    pose proof (List.find_none _ _ Hfind b Hin). congruence.
Qed.

Lemma conflicts_true (d s : string) (b : Bookings.Booking) :
  Bookings.conflicts d s b = true
  ↔ Bookings.eventDate b = Js.JStr d
    ∧ (Bookings.timeSlot b = Js.JStr s ∨ Bookings.time_slot b = Js.JStr s).
Proof.
  unfold Bookings.conflicts.
  rewrite andb_true_iff, orb_true_iff, !strict_eq_str. reflexivity.
Qed.

Lemma missing_fields_false (req : Bookings.CreateRequest) (d s : string) :
  Bookings.req_eventDate req = Some d →
  Bookings.req_timeSlot req = Some s →
  Bookings.missingRequiredFields req = false →
  Js.str_or (Bookings.req_eventDate req) "" = d
  ∧ Js.str_or (Bookings.req_timeSlot req) "" = s
  ∧ Js.str_truthy d = true ∧ Js.str_truthy s = true.
Proof.
  unfold Bookings.missingRequiredFields. intros -> ->. simpl.
  destruct (Js.str_truthy d), (Js.str_truthy s); simpl; try discriminate.
  intros _. repeat split.
Qed.

(** C2, as amended. If the stored list holds a booking whose [eventDate] is
    the string [d] and whose [timeSlot] or [time_slot] is the string [s], a
    creation request for [d] and [s] fails: with the conflict error that
    names the slot and the date when the request carries its required
    fields (date, slot and at least one selected item), and with "Missing
    required fields" otherwise. In both cases the stored list is left as it
    was. *)
Theorem occupied_slot_is_refused (env : Bookings.Env) (req : Bookings.CreateRequest)
    (bookings : list Bookings.Booking) (w : bool) (d s : string) (b : Bookings.Booking) :
  Bookings.req_eventDate req = Some d →
  Bookings.req_timeSlot req = Some s →
  In b bookings →
  Bookings.eventDate b = Js.JStr d →
  Bookings.timeSlot b = Js.JStr s ∨ Bookings.time_slot b = Js.JStr s →
  Bookings.createBooking env req (Storage.File (Some bookings) w)
  = (if Bookings.missingRequiredFields req
     then Bookings.Error 400 "Missing required fields"
     else Bookings.Error 400 ("The " ++ s ++ " time slot is already booked for " ++ d),
     Storage.File (Some bookings) w).
Proof.
  intros Hd Hs Hin Hdate Hslot. unfold Bookings.createBooking.
  destruct (Bookings.missingRequiredFields req) eqn:Hmissing; [reflexivity |].
  destruct (missing_fields_false req d s Hd Hs Hmissing) as (-> & -> & _ & _).
  unfold Storage.readJSONFile; cbn [Storage.contents].
  destruct (proj2 (find_conflict_iff bookings d s)) as [b' ->]; [| reflexivity].
  exists b. split; [assumption |]. now apply conflicts_true.
Qed.

Lemma occupied_slot_is_refused_witness :
  Bookings.createBooking Samples.bookingEnv (Samples.bookingRequest (Some [Samples.adobo]))
    (Storage.File (Some [Samples.morningBooking]) true)
  = (Bookings.Error 400 "The morning time slot is already booked for 2025-06-01",
     Storage.File (Some [Samples.morningBooking]) true).
Proof.
  exact (occupied_slot_is_refused Samples.bookingEnv
           (Samples.bookingRequest (Some [Samples.adobo]))
           [Samples.morningBooking] true "2025-06-01" "morning" Samples.morningBooking
           eq_refl eq_refl (or_introl eq_refl) eq_refl (or_introl eq_refl)).
Defined.

(** C2, as stated, fails: a request for an occupied date and slot that
    carries no selected item is turned away by the required-field check,
    with an error that names neither the slot nor the date. *)
Lemma conflict_error_not_for_every_request :
  ¬ (∀ (env : Bookings.Env) (req : Bookings.CreateRequest)
       (bookings : list Bookings.Booking) (w : bool) (d s : string) (b : Bookings.Booking),
       Bookings.req_eventDate req = Some d →
       Bookings.req_timeSlot req = Some s →
       In b bookings →
       Bookings.eventDate b = Js.JStr d →
       Bookings.timeSlot b = Js.JStr s →
       Bookings.createBooking env req (Storage.File (Some bookings) w)
       = (Bookings.Error 400 (Bookings.conflictMessage s d), Storage.File (Some bookings) w)).
Proof.
  intros H.
  specialize (H Samples.bookingEnv (Samples.bookingRequest (Some []))
                [Samples.morningBooking] true "2025-06-01" "morning" Samples.morningBooking
                eq_refl eq_refl (or_introl eq_refl) eq_refl eq_refl).
  vm_compute in H. discriminate H.
Qed.

(** Every answer of [POST /] other than "created" leaves the file as it
    was. *)
Lemma failed_creation_changes_nothing (env : Bookings.Env) (req : Bookings.CreateRequest)
    (f : Storage.file Bookings.Booking) :
  match fst (Bookings.createBooking env req f) with
  | Bookings.Created _ _ => True
  | _ => snd (Bookings.createBooking env req f) = f
  end.
Proof.
  unfold Bookings.createBooking.
  destruct (Bookings.missingRequiredFields req); [reflexivity |].
  destruct (List.find _ _); [reflexivity |].
  destruct (Bookings.readItems _); [| reflexivity].
  unfold Storage.writeJSONFile. destruct (Storage.writable f); simpl; auto.
Qed.

(** On stored bookings without [event_date] and [time_slot], the creation
    check and the availability scan agree on each of the two slots. *)
Lemma conflict_iff_unavailable (bookings : list Bookings.Booking) (d s : string) :
  Forall Bookings.camelCaseOnly bookings →
  d ≠ "" →
  In s Bookings.allSlots →
  (∃ b, List.find (Bookings.conflicts d s) bookings = Some b)
  ↔ Bookings.bookedOn bookings d s.
Proof.
  intros Hcamel Hd Hs. rewrite find_conflict_iff. unfold Bookings.bookedOn.
  apply str_truthy_true in Hd. pose proof (slot_names_truthy s Hs) as Hst.
  rewrite List.Forall_forall in Hcamel.
  split; intros (b & Hin & Hb); exists b; (split; [assumption |]);
    destruct (Hcamel b Hin) as [Hsnake_d Hsnake_s].
  - apply conflicts_true in Hb as [Hdate Hslot].
    unfold Bookings.bookingDate, Bookings.bookingSlot, Js.or_else.
    rewrite Hdate. simpl. rewrite Hd. split; [reflexivity |].
    destruct Hslot as [Hslot | Hslot]; [| congruence].
    rewrite Hslot. simpl in *. now rewrite Hst.
  - apply conflicts_true. destruct Hb as [Hdate Hslot].
    unfold Bookings.bookingDate, Bookings.bookingSlot, Js.or_else in *.
    rewrite Hsnake_d in Hdate. rewrite Hsnake_s in Hslot.
    destruct (Js.truthy (Bookings.eventDate b)); [| discriminate].
    destruct (Js.truthy (Bookings.timeSlot b)); [| discriminate]. auto.
Qed.

(** C3 fails on the code. A stored booking that carries [event_date] and
    [time_slot] takes the morning of its date away from the availability
    answer, yet the creation check, which reads [eventDate] only, lets a
    second booking for that morning through and stores it. *)
Theorem snake_case_booking_is_double_booked :
  let stored := Storage.File (Some [Samples.snakeCaseBooking]) true in
  fst (Bookings.checkAvailability "2025-06-01" stored)
  = Bookings.Availability "2025-06-01" [Samples.snakeCaseBooking] ["afternoon"]
  ∧ ∃ booking,
      Bookings.createBooking Samples.bookingEnv
        (Samples.bookingRequest (Some [Samples.adobo])) stored
      = (Bookings.Created "Booking created successfully" booking,
         Storage.File (Some [Samples.snakeCaseBooking; booking]) true)
      ∧ Bookings.eventDate booking = Js.JStr "2025-06-01"
      ∧ Bookings.timeSlot booking = Js.JStr "morning".
Proof.
  split; [reflexivity |]. eexists. split; [reflexivity |]. split; reflexivity.
Qed.

(** ** Receipts *)

(** *** Rounding in binary64

    The multiplication and the addition of two finite floats round the exact
    result to 53 bits, to the nearest with ties to even ([SFmul], [SFadd]
    and [binary_round_aux] of the standard library, which [FloatAxioms]
    states of the primitive operations). Away from the ends of the range,
    the rounded result is within [2 ^ -53] of the exact one, relatively. *)

(** The number of bits of a mantissa. *)
Lemma digits2_pos_bounds (p : positive) :
  2 ^ (Zpos (digits2_pos p) - 1) ≤ Zpos p < 2 ^ Zpos (digits2_pos p).
Proof.
  induction p as [p IH | p IH |]; simpl digits2_pos.
  - rewrite Pos2Z.inj_succ, Z.pow_succ_r by lia.
    replace (Z.succ (Zpos (digits2_pos p)) - 1) with (Z.succ (Zpos (digits2_pos p) - 1)) by lia.
    rewrite Z.pow_succ_r by lia. lia.
  - rewrite Pos2Z.inj_succ, Z.pow_succ_r by lia.
    replace (Z.succ (Zpos (digits2_pos p)) - 1) with (Z.succ (Zpos (digits2_pos p) - 1)) by lia.
    rewrite Z.pow_succ_r by lia. lia.
  - simpl. lia.
Qed.

(** Shifting [n] bits out, one at a time. *)
Lemma iter_pos_nat {A} (f : A → A) (p : positive) (x : A) :
  SpecFloat.iter_pos f p x = Nat.iter (Pos.to_nat p) f x.
Proof.
  revert x. induction p as [p IH | p IH |]; intros x; simpl SpecFloat.iter_pos.
  - rewrite !IH, Pos2Nat.inj_xI, Nat.iter_succ_r.
    replace (2 * Pos.to_nat p)%nat with (Pos.to_nat p + Pos.to_nat p)%nat by lia.
    now rewrite Nat.iter_add.
  - rewrite !IH, Pos2Nat.inj_xO.
    replace (2 * Pos.to_nat p)%nat with (Pos.to_nat p + Pos.to_nat p)%nat by lia.
    now rewrite Nat.iter_add.
  - reflexivity.
Qed.

Lemma halved_step (M n : Z) (mrs : shr_record) :
  0 ≤ n → Receipts.halved M n mrs → Receipts.halved M (n + 1) (shr_1 mrs).
Proof.
  intros Hn (rem & Hm & Hrem & HM & Hr & Hs). unfold Receipts.halved.
  assert (Hpow : 2 ^ (n + 1) = 2 * 2 ^ n) by (rewrite Z.pow_add_r, Z.pow_1_r; lia).
  rewrite Hpow. clear Hpow.
  pose proof (Z.pow_pos_nonneg 2 n ltac:(lia) Hn) as Hpos.
  set (P := 2 ^ n) in *. clearbody P.
  destruct mrs as [m r s]. simpl in *.
  assert (Hor : r || s = true ↔ rem ≠ 0).
  { rewrite orb_true_iff, Hr, Hs. lia. }
  destruct m as [| [p | p |] | p]; try lia; simpl.
  - exists rem. rewrite Hor. repeat split; try lia; discriminate.
  - exists (rem + P). rewrite Hor. rewrite Pos2Z.inj_xI in HM. repeat split; try lia.
  - exists rem. rewrite Hor. rewrite Pos2Z.inj_xO in HM. repeat split; try lia; discriminate.
  - exists (rem + P). rewrite Hor. repeat split; try lia.
Qed.

Lemma halved_iter (M : Z) (k : nat) :
  0 ≤ M → Receipts.halved M (Z.of_nat k) (Nat.iter k shr_1 (Build_shr_record M false false)).
Proof.
  intros HM. induction k as [| k IH].
  - exists 0. simpl. repeat split; try lia; try discriminate.
  - rewrite Nat2Z.inj_succ, <- Z.add_1_r. simpl. apply halved_step; [lia | exact IH].
Qed.

(** Rounding to the nearest after [n] bits are shifted out is off by at
    most half a unit of the last bit kept. *)
Lemma round_halved (M n : Z) (mrs : shr_record) :
  0 ≤ n → Receipts.halved M n mrs →
  let R := round_nearest_even (shr_m mrs) (loc_of_shr_record mrs) in
  shr_m mrs ≤ R ≤ shr_m mrs + 1 ∧ 2 * Z.abs (R * 2 ^ n - M) ≤ 2 ^ n.
Proof.
  intros Hn (rem & Hm & Hrem & HM & Hr & Hs).
  pose proof (Z.pow_pos_nonneg 2 n ltac:(lia) Hn) as Hpos.
  set (P := 2 ^ n) in *. clearbody P.
  destruct mrs as [m r s]. simpl in *.
  destruct r, s; simpl.
  - assert (P ≤ 2 * rem) by now apply Hr. nia.
  - assert (P ≤ 2 * rem) by now apply Hr.
    assert (¬ (rem ≠ 0 ∧ 2 * rem ≠ P)) by (intros H'; apply Hs in H'; discriminate).
    destruct (Z.even m); nia.
  - assert (¬ P ≤ 2 * rem) by (intros H'; apply Hr in H'; discriminate). nia.
  - assert (¬ P ≤ 2 * rem) by (intros H'; apply Hr in H'; discriminate).
    assert (¬ (rem ≠ 0 ∧ 2 * rem ≠ P)) by (intros H'; apply Hs in H'; discriminate).
    nia.
Qed.

Lemma digits2_pos_unique (p : positive) (k : Z) :
  2 ^ (k - 1) ≤ Zpos p < 2 ^ k → Zpos (digits2_pos p) = k.
Proof.
  intros [Hlow Hhigh]. pose proof (digits2_pos_bounds p) as [Hlow' Hhigh'].
  assert (Hk : 0 < k).
  { destruct (Z_lt_le_dec 0 k) as [H | H]; [exact H |].
    destruct (Z.eq_dec k 0) as [-> | Hne]; [simpl in Hhigh; lia |].
    rewrite Z.pow_neg_r in Hhigh by lia. lia. }
  destruct (Z.lt_trichotomy (Zpos (digits2_pos p)) k) as [Hlt | [Heq | Hgt]];
    [| exact Heq |].
  - assert (2 ^ Zpos (digits2_pos p) ≤ 2 ^ (k - 1)) by (apply Z.pow_le_mono_r; lia). lia.
  - assert (2 ^ k ≤ 2 ^ (Zpos (digits2_pos p) - 1)) by (apply Z.pow_le_mono_r; lia). lia.
Qed.

(** Rounding a mantissa of at least 53 bits, in the range of the normal
    numbers: the result is finite, has 53 bits, and differs from the exact
    Receipts.dyadic by at most [2 ^ -53] of it. *)
Lemma binary_round_aux_normal (sx : bool) (M : positive) (E : Z) :
  53 ≤ Zpos (digits2_pos M) →
  -1021 ≤ Zpos (digits2_pos M) + E ≤ 1023 →
  ∃ m e,
    binary_round_aux prec emax sx (Zpos M) E loc_Exact = S754_finite sx m e
    ∧ Zpos (digits2_pos m) = 53
    ∧ Zpos (digits2_pos M) + E - 53 ≤ e ≤ Zpos (digits2_pos M) + E - 52
    ∧ 2 ^ 53 * Z.abs (Zpos m * 2 ^ (e - E) - Zpos M) ≤ Zpos M.
Proof.
  intros Hd Hrange. pose proof (digits2_pos_bounds M) as HM.
  set (d := Zpos (digits2_pos M)) in *.
  unfold binary_round_aux, shr_fexp, fexp, emin, Zdigits2. fold d.
  change prec with 53. change emax with 1024.
  replace (Z.max (d + E - 53) (3 - 1024 - 53) - E) with (d - 53) by lia.
  destruct (Z.eq_dec d 53) as [Hd53 | Hd53].
  - (* nothing to drop *)
    rewrite Hd53. simpl shr. cbn [shr_m loc_of_shr_record round_nearest_even].
    fold d. rewrite Hd53.
    replace (Z.max (53 + E - 53) (3 - 1024 - 53) - E) with 0 by lia.
    simpl shr. cbn [shr_m].
    replace (E <=? 1024 - 53) with true by (symmetry; apply Z.leb_le; lia).
    exists M, E. split; [reflexivity |]. split; [exact Hd53 |]. split; [lia |].
    rewrite Z.sub_diag. simpl. replace (Zpos M * 1 - Zpos M) with 0 by lia. simpl. lia.
  - (* [d - 53] low bits are dropped *)
    assert (Hn : 0 < d - 53) by lia.
    destruct (d - 53) as [| n |] eqn:Hshift; try lia.
    unfold shr at 1. rewrite iter_pos_nat.
    pose proof (halved_iter (Zpos M) (Pos.to_nat n) ltac:(lia)) as Hhalved.
    rewrite positive_nat_Z in Hhalved.
    change (shr_record_of_loc (Zpos M) loc_Exact) with (Build_shr_record (Zpos M) false false).
    set (mrs := Nat.iter (Pos.to_nat n) shr_1 _) in *. clearbody mrs.
    pose proof (round_halved (Zpos M) (Zpos n) mrs ltac:(lia) Hhalved) as [HR Herr].
    destruct Hhalved as (rem & Hm & Hrem & Hsplit & _).
    cbv beta iota.
    set (R := round_nearest_even (shr_m mrs) (loc_of_shr_record mrs)) in *. clearbody R.
    assert (Hpow : 2 ^ d = 2 ^ 53 * 2 ^ Zpos n).
    { rewrite <- Z.pow_add_r by lia. f_equal. lia. }
    assert (Hpow' : 2 ^ (d - 1) = 2 ^ 52 * 2 ^ Zpos n).
    { rewrite <- Z.pow_add_r by lia. f_equal. lia. }
    pose proof (Z.pow_pos_nonneg 2 (Zpos n) ltac:(lia) ltac:(lia)) as Hpos.
    set (P := 2 ^ Zpos n) in *.
    assert (Hquot : 2 ^ 52 ≤ shr_m mrs < 2 ^ 53) by nia.
    assert (HRpos : 0 < R) by lia.
    destruct R as [| r |] eqn:HReq; try lia.
    destruct (Z.eq_dec (Zpos r) (2 ^ 53)) as [Hcarry | Hcarry].
    + (* the rounding carried into a 54th bit *)
      assert (r = 9007199254740992%positive) as ->
        by (apply Pos2Z.inj; rewrite Hcarry; reflexivity).
      clear Hcarry.
      change (Zpos (digits2_pos 9007199254740992)) with 54.
      replace (Z.max (54 + (E + Zpos n) - 53) (3 - 1024 - 53) - (E + Zpos n))
        with 1 by lia.
      change (shr (shr_record_of_loc (Zpos 9007199254740992) loc_Exact) (E + Zpos n) 1)
        with (Build_shr_record 4503599627370496 false false, E + Zpos n + 1).
      cbv beta iota. cbn [shr_m].
      replace (E + Zpos n + 1 <=? 1024 - 53) with true by (symmetry; apply Z.leb_le; lia).
      eexists _, _. split; [reflexivity |]. split; [reflexivity |]. split; [lia |].
      replace (E + Zpos n + 1 - E) with (Zpos n + 1) by lia.
      rewrite Z.pow_add_r, Z.pow_1_r by lia. fold P.
      change (2 ^ 53) with 9007199254740992 in *.
      change (2 ^ 52) with 4503599627370496 in *.
      nia.
    + assert (Hdigits : Zpos (digits2_pos r) = 53).
      { apply digits2_pos_unique. change (53 - 1) with 52. lia. }
      rewrite Hdigits.
      replace (Z.max (53 + (E + Zpos n) - 53) (3 - 1024 - 53) - (E + Zpos n))
        with 0 by lia.
      cbn [shr shr_record_of_loc shr_m].
      replace (E + Zpos n <=? 1024 - 53) with true by (symmetry; apply Z.leb_le; lia).
      exists r, (E + Zpos n). split; [reflexivity |]. split; [exact Hdigits |].
      split; [lia |].
      replace (E + Zpos n - E) with (Zpos n) by lia. fold P.
      change (2 ^ 53) with 9007199254740992 in *.
      change (2 ^ 52) with 4503599627370496 in *.
      nia.
Qed.

(** Alignment shifts a mantissa to the left and keeps the value. *)
Lemma pos_iter_xO (m d : positive) :
  Zpos (Pos.iter xO m d) = Zpos m * 2 ^ Zpos d.
Proof.
  induction d as [| d IH] using Pos.peano_ind.
  - simpl. lia.
  - rewrite Pos.iter_succ, Pos2Z.inj_xO, IH, Pos2Z.inj_succ, Z.pow_succ_r by lia. lia.
Qed.

Lemma shl_align_spec (mx : positive) (ex ex' : Z) :
  ∃ m e,
    shl_align mx ex ex' = (m, e)
    ∧ e = Z.min ex ex'
    ∧ Zpos m = Zpos mx * 2 ^ (ex - e).
Proof.
  unfold shl_align. destruct (ex' - ex) as [| k | k] eqn:Hdiff.
  - exists mx, ex. split; [reflexivity |]. split; [lia |].
    rewrite Z.sub_diag. simpl. lia.
  - exists mx, ex. split; [reflexivity |]. split; [lia |].
    rewrite Z.sub_diag. simpl. lia.
  - exists (Pos.iter xO mx k), ex'. split; [reflexivity |]. split; [lia |].
    rewrite pos_iter_xO. f_equal. f_equal. lia.
Qed.

Lemma digits2_pos_shift (m m' : positive) (k : Z) :
  0 ≤ k → Zpos m' = Zpos m * 2 ^ k →
  Zpos (digits2_pos m') = Zpos (digits2_pos m) + k.
Proof.
  intros Hk Hm'. apply digits2_pos_unique. rewrite Hm'.
  pose proof (digits2_pos_bounds m) as [Hlow Hhigh].
  replace (Zpos (digits2_pos m) + k - 1) with (Zpos (digits2_pos m) - 1 + k) by lia.
  rewrite !Z.pow_add_r by lia.
  pose proof (Z.pow_pos_nonneg 2 k ltac:(lia) Hk). nia.
Qed.

Lemma digits2_pos_lower (p : positive) (k : Z) :
  0 ≤ k → 2 ^ k ≤ Zpos p → k + 1 ≤ Zpos (digits2_pos p).
Proof.
  intros Hk Hp. pose proof (digits2_pos_bounds p) as [_ Hhigh].
  apply Z.lt_succ_r. rewrite <- Z.add_1_r.
  assert (k < Zpos (digits2_pos p)); [| lia].
  apply (Z.pow_lt_mono_r_iff 2); lia.
Qed.

Lemma digits2_pos_upper (p : positive) (k : Z) :
  0 ≤ k → Zpos p < 2 ^ k → Zpos (digits2_pos p) ≤ k.
Proof.
  intros Hk Hp. pose proof (digits2_pos_bounds p) as [Hlow _].
  assert (Zpos (digits2_pos p) - 1 < k); [| lia].
  apply (Z.pow_lt_mono_r_iff 2); lia.
Qed.

(** Powers of two as rational numbers. *)
Lemma pow2_pos (e : Z) : (0 < Qpower 2 e)%Q.
Proof. apply Qpower_0_lt. reflexivity. Qed.

Lemma pow2_add (a b : Z) : (Qpower 2 (a + b) == Qpower 2 a * Qpower 2 b)%Q.
Proof. apply Qpower_plus. discriminate. Qed.

Lemma pow2_inject (k : Z) : 0 ≤ k → (Qpower 2 k == inject_Z (2 ^ k))%Q.
Proof. intros Hk. rewrite Zpower_Qpower by exact Hk. reflexivity. Qed.

Lemma dyadic_shift (m m' : positive) (e k : Z) :
  0 ≤ k → Zpos m' = Zpos m * 2 ^ k → (Receipts.dyadic m' e == Receipts.dyadic m (e + k))%Q.
Proof.
  intros Hk Hm'. unfold Receipts.dyadic.
  rewrite Hm', inject_Z_mult, pow2_add, (pow2_inject k Hk). ring.
Qed.

Lemma dyadic_pos (m : positive) (e : Z) : (0 < Receipts.dyadic m e)%Q.
Proof.
  unfold Receipts.dyadic. apply Qmult_lt_0_compat; [| apply pow2_pos].
  change 0%Q with (inject_Z 0). rewrite <- Zlt_Qlt. lia.
Qed.

(** From the error counted in units of the exponent [E] to the error of the
    values. *)
Lemma dyadic_error (m M : positive) (e E : Z) :
  E ≤ e →
  2 ^ 53 * Z.abs (Zpos m * 2 ^ (e - E) - Zpos M) ≤ Zpos M →
  (Qabs (Receipts.dyadic m e - Receipts.dyadic M E)
   <= Receipts.dyadic M E * (1 # 9007199254740992))%Q.
Proof.
  intros He Herr. unfold Receipts.dyadic.
  replace e with (E + (e - E)) at 1 by lia.
  rewrite pow2_add, (pow2_inject (e - E)) by lia.
  set (a := Zpos m * 2 ^ (e - E) - Zpos M) in *.
  assert (Hdiff : (inject_Z (Zpos m) * (Qpower 2 E * inject_Z (2 ^ (e - E)))
                   - inject_Z (Zpos M) * Qpower 2 E
                   == inject_Z a * Qpower 2 E)%Q).
  { unfold a, Z.sub. rewrite inject_Z_plus, inject_Z_mult, inject_Z_opp. ring. }
  rewrite Hdiff. clear Hdiff.
  change (2 ^ 53) with 9007199254740992 in Herr.
  assert (Hup : (inject_Z (9007199254740992 * a) <= inject_Z (Zpos M))%Q)
    by (rewrite <- Zle_Qle; lia).
  assert (Hdown : (inject_Z (- Zpos M) <= inject_Z (9007199254740992 * a))%Q)
    by (rewrite <- Zle_Qle; lia).
  rewrite inject_Z_mult in Hup, Hdown. rewrite inject_Z_opp in Hdown.
  pose proof (pow2_pos E) as Hp.
  set (qa := inject_Z a) in *. set (qM := inject_Z (Zpos M)) in *.
  set (p := Qpower 2 E) in *. clearbody qa qM p.
  change (inject_Z 9007199254740992) with (9007199254740992 # 1)%Q in *.
  apply Qabs_Qle_condition. split; nra.
Qed.

(** Rounding after alignment, as the addition does it. *)
Lemma binary_round_normal (sx : bool) (M : positive) (E : Z) :
  -1021 ≤ Zpos (digits2_pos M) + E ≤ 1023 →
  ∃ m e,
    binary_round prec emax sx M E = S754_finite sx m e
    ∧ Zpos (digits2_pos m) = 53
    ∧ Zpos (digits2_pos M) + E - 53 ≤ e ≤ Zpos (digits2_pos M) + E - 52
    ∧ (Qabs (Receipts.dyadic m e - Receipts.dyadic M E)
       <= Receipts.dyadic M E * (1 # 9007199254740992))%Q.
Proof.
  intros Hrange. unfold binary_round.
  destruct (shl_align_spec M E (fexp prec emax (Zpos (digits2_pos M) + E)))
    as (mz & ez & -> & Hez & Hmz).
  unfold fexp, emin in Hez. change prec with 53 in Hez. change emax with 1024 in Hez.
  assert (Hshift : 0 ≤ E - ez) by lia.
  pose proof (digits2_pos_shift M mz (E - ez) Hshift Hmz) as Hdigits.
  destruct (binary_round_aux_normal sx mz ez) as (m & e & -> & Hm & He & Herr);
    [lia | lia |].
  exists m, e. split; [reflexivity |]. split; [exact Hm |]. split; [lia |].
  assert (Receipts.dyadic mz ez == Receipts.dyadic M E)%Q as Hsame.
  { rewrite (dyadic_shift M mz ez (E - ez) Hshift Hmz). now replace (ez + (E - ez)) with E by lia. }
  rewrite <- Hsame. apply dyadic_error; lia.
Qed.

(** The product and the sum of two normal floats. *)
Lemma dyadic_mul (mx my : positive) (ex ey : Z) :
  (Receipts.dyadic (mx * my) (ex + ey) == Receipts.dyadic mx ex * Receipts.dyadic my ey)%Q.
Proof.
  unfold Receipts.dyadic. rewrite Pos2Z.inj_mul, inject_Z_mult, pow2_add. ring.
Qed.

Lemma SFmul_normal (mx my : positive) (ex ey : Z) :
  Zpos (digits2_pos mx) = 53 → Zpos (digits2_pos my) = 53 →
  -1126 ≤ ex + ey ≤ 917 →
  ∃ m e,
    SFmul prec emax (S754_finite false mx ex) (S754_finite false my ey)
    = S754_finite false m e
    ∧ Zpos (digits2_pos m) = 53
    ∧ ex + ey + 52 ≤ e ≤ ex + ey + 54
    ∧ (Qabs (Receipts.dyadic m e - Receipts.dyadic mx ex * Receipts.dyadic my ey)
       <= Receipts.dyadic mx ex * Receipts.dyadic my ey * (1 # 9007199254740992))%Q.
Proof.
  intros Hx Hy Hrange. cbn [SFmul xorb].
  pose proof (digits2_pos_bounds mx) as Hmx. pose proof (digits2_pos_bounds my) as Hmy.
  rewrite Hx in Hmx. rewrite Hy in Hmy.
  change (2 ^ (53 - 1)) with 4503599627370496 in *.
  change (2 ^ 53) with 9007199254740992 in *.
  assert (Hlow : 105 ≤ Zpos (digits2_pos (mx * my))).
  { apply (digits2_pos_lower _ 104); [lia |]. rewrite Pos2Z.inj_mul.
    change (2 ^ 104) with (4503599627370496 * 4503599627370496). nia. }
  assert (Hhigh : Zpos (digits2_pos (mx * my)) ≤ 106).
  { apply digits2_pos_upper; [lia |]. rewrite Pos2Z.inj_mul.
    change (2 ^ 106) with (9007199254740992 * 9007199254740992). nia. }
  destruct (binary_round_aux_normal false (mx * my) (ex + ey))
    as (m & e & -> & Hm & He & Herr); [lia | lia |].
  exists m, e. split; [reflexivity |]. split; [exact Hm |]. split; [lia |].
  rewrite <- dyadic_mul. apply dyadic_error; [lia | exact Herr].
Qed.

Lemma SFadd_normal (mx my : positive) (ex ey : Z) :
  Zpos (digits2_pos mx) = 53 → Zpos (digits2_pos my) = 53 →
  -1060 ≤ ex ≤ 950 → -1060 ≤ ey ≤ 950 →
  ∃ m e,
    SFadd prec emax (S754_finite false mx ex) (S754_finite false my ey)
    = S754_finite false m e
    ∧ Zpos (digits2_pos m) = 53
    ∧ (Qabs (Receipts.dyadic m e - (Receipts.dyadic mx ex + Receipts.dyadic my ey))
       <= (Receipts.dyadic mx ex + Receipts.dyadic my ey) * (1 # 9007199254740992))%Q.
Proof.
  intros Hx Hy Hex Hey. cbn [SFadd cond_Zopp].
  set (ez := Z.min ex ey).
  destruct (shl_align_spec mx ex ez) as (a & ea & -> & Hea & Ha).
  destruct (shl_align_spec my ey ez) as (b & eb & -> & Heb & Hb).
  cbn [fst]. replace ea with ez in * by lia. replace eb with ez in * by lia.
  change (Zpos a + Zpos b) with (Zpos (a + b)). cbn [binary_normalize].
  pose proof (digits2_pos_shift mx a (ex - ez) ltac:(lia) Ha) as Hda.
  pose proof (digits2_pos_shift my b (ey - ez) ltac:(lia) Hb) as Hdb.
  pose proof (digits2_pos_bounds a) as Hba. pose proof (digits2_pos_bounds b) as Hbb.
  rewrite Hda, Hx in Hba. rewrite Hdb, Hy in Hbb.
  assert (Hlow : 53 + ex - ez ≤ Zpos (digits2_pos (a + b))).
  { replace (53 + ex - ez) with (53 + (ex - ez) - 1 + 1) by lia.
    apply digits2_pos_lower; [lia |]. rewrite Pos2Z.inj_add. lia. }
  assert (Hhigh : Zpos (digits2_pos (a + b)) ≤ 54 + Z.max ex ey - ez).
  { apply digits2_pos_upper; [lia |]. rewrite Pos2Z.inj_add.
    assert (2 ^ (53 + (ex - ez)) ≤ 2 ^ (53 + Z.max ex ey - ez))
      by (apply Z.pow_le_mono_r; lia).
    assert (2 ^ (53 + (ey - ez)) ≤ 2 ^ (53 + Z.max ex ey - ez))
      by (apply Z.pow_le_mono_r; lia).
    replace (54 + Z.max ex ey - ez) with (Z.succ (53 + Z.max ex ey - ez)) by lia.
    rewrite Z.pow_succ_r by lia. lia. }
  destruct (binary_round_normal false (a + b) ez) as (m & e & -> & Hm & He & Herr); [lia |].
  exists m, e. split; [reflexivity |]. split; [exact Hm |].
  assert (Hsum : (Receipts.dyadic (a + b) ez == Receipts.dyadic mx ex + Receipts.dyadic my ey)%Q).
  { assert (Hva : (Receipts.dyadic a ez == Receipts.dyadic mx ex)%Q).
    { rewrite (dyadic_shift mx a ez (ex - ez)) by (lia || assumption).
      now replace (ez + (ex - ez)) with ex by lia. }
    assert (Hvb : (Receipts.dyadic b ez == Receipts.dyadic my ey)%Q).
    { rewrite (dyadic_shift my b ez (ey - ez)) by (lia || assumption).
      now replace (ez + (ey - ez)) with ey by lia. }
    rewrite <- Hva, <- Hvb. unfold Receipts.dyadic. rewrite Pos2Z.inj_add, inject_Z_plus. ring. }
  rewrite <- Hsum. exact Herr.
Qed.

(** A finite float denotes a canonical mantissa: above the subnormal range
    it has 53 bits. *)
Lemma finite_float_digits (x : float) (s : bool) (m : positive) (e : Z) :
  Prim2SF x = S754_finite s m e → -1074 < e → Zpos (digits2_pos m) = 53.
Proof.
  intros Hx He. pose proof (Prim2SF_valid x) as Hvalid. rewrite Hx in Hvalid.
  unfold SpecFloat.valid_binary, bounded, canonical_mantissa, fexp, emin in Hvalid.
  apply andb_prop in Hvalid as [Hcanonical _]. apply Z.eqb_eq in Hcanonical.
  change prec with 53 in Hcanonical. change emax with 1024 in Hcanonical. lia.
Qed.

Lemma SFcompare_refl (m : positive) (e : Z) :
  SFcompare (S754_finite false m e) (S754_finite false m e) = Some Eq.
Proof.
  simpl. rewrite Z.compare_refl. f_equal.
  now apply Pos.compare_cont_refl.
Qed.

Lemma finite_float_truthy (x : float) (m : positive) (e : Z) :
  Prim2SF x = S754_finite false m e → Js.num_truthy x = true.
Proof.
  intros Hx. unfold Js.num_truthy, PrimFloat.is_zero, PrimFloat.is_nan.
  rewrite !FloatAxioms.eqb_spec, Hx. unfold SFeqb. rewrite SFcompare_refl. reflexivity.
Qed.

(** A float between two finite positive floats is finite and positive, with
    an exponent between theirs. *)
Lemma float_between (lo hi x : float) (mlo mhi : positive) (elo ehi : Z) :
  Prim2SF lo = S754_finite false mlo elo →
  Prim2SF hi = S754_finite false mhi ehi →
  PrimFloat.leb lo x = true → PrimFloat.leb x hi = true →
  ∃ m e, Prim2SF x = S754_finite false m e ∧ elo ≤ e ≤ ehi.
Proof.
  intros Hlo Hhi. rewrite !FloatAxioms.leb_spec, Hlo, Hhi. unfold SFleb.
  destruct (Prim2SF x) as [s | s | | s m e]; simpl.
  - intros H1 H2. discriminate.
  - destruct s; intros H1 H2; discriminate.
  - intros H1 H2. discriminate.
  - destruct s; [intros H1 H2; discriminate |].
    destruct (Z.compare_spec elo e), (Z.compare_spec e ehi); intros H1 H2;
      try discriminate; exists m, e; (split; [reflexivity | lia]).
Qed.

Lemma exact_finite (x : float) (m : positive) (e : Z) :
  Prim2SF x = S754_finite false m e →
  ∃ q, Receipts.exact x = Some q ∧ (q == Receipts.dyadic m e)%Q.
Proof.
  intros Hx. unfold Receipts.exact. rewrite Hx. eexists. split; [reflexivity |].
  unfold Receipts.dyadic, inject_Z. ring.
Qed.

(** C4, as stated, fails in the arithmetic of the code. For the subtotal 23
    the total computed is neither the float nearest to 25.76, nor the float
    product of 23 and 1.12, nor, as a rational number, 23 times 1.12. *)
Lemma total_of_23_is_not_25_76 :
  let totals := Receipts.receiptTotals (Some 23%float) in
  PrimFloat.eqb (Receipts.totalAmount totals) 25.76 = false
  ∧ PrimFloat.eqb (Receipts.totalAmount totals) (23 * 1.12) = false
  ∧ ∃ q, Receipts.exact (Receipts.totalAmount totals) = Some q
         ∧ ¬ (q == (23 # 1) * (112 # 100))%Q.
Proof.
  split; [reflexivity |]. split; [reflexivity |].
  eexists. split; [vm_compute; reflexivity |].
  intros H. apply Qeq_bool_iff in H. vm_compute in H. discriminate H.
Qed.

(** At the ends of the range of binary64 the totals are not even close: the
    total of the subtotal 1.7e308 is infinite, and the tax of the least
    positive float is zero. *)
Example totals_out_of_range :
  Receipts.totalAmount (Receipts.receiptTotals (Some 1.7e308%float)) = infinity
  ∧ Receipts.taxAmount (Receipts.receiptTotals (Some 5e-324%float)) = 0%float.
Proof.
  split; reflexivity.
Qed.

(** C4, as amended. The handler takes [total_amount || 0] as subtotal and
    computes the tax as subtotal times 0.12 and the total as subtotal plus
    tax, in binary64. For every subtotal from 1e-300 to 1e300 the tax and
    the total are finite numbers, the tax within a relative error of
    [2 ^ -52] of 12% of the subtotal and the total within a relative error
    of [2 ^ -52] of the subtotal times 1.12. An absent subtotal and the
    subtotal 0 give the tax 0 and the total 0, and the subtotal 1000 gives
    exactly the tax 120 and the total 1120. *)
Theorem receipt_totals :
  (∀ x : float,
      PrimFloat.leb 1e-300 x = true → PrimFloat.leb x 1e300 = true →
      ∃ sub tax total : Q,
        Receipts.subtotal (Receipts.receiptTotals (Some x)) = x
        ∧ Receipts.exact x = Some sub ∧ (0 < sub)%Q
        ∧ Receipts.exact (Receipts.taxAmount (Receipts.receiptTotals (Some x))) = Some tax
        ∧ Receipts.exact (Receipts.totalAmount (Receipts.receiptTotals (Some x)))
          = Some total
        ∧ (Qabs (tax - sub * (12 # 100))
           <= sub * (12 # 100) * (1 # 4503599627370496))%Q
        ∧ (Qabs (total - sub * (112 # 100))
           <= sub * (112 # 100) * (1 # 4503599627370496))%Q)
  ∧ Receipts.receiptTotals None
    = {| Receipts.subtotal := 0%float; Receipts.taxRate := 0.12%float;
         Receipts.taxAmount := 0%float; Receipts.totalAmount := 0%float |}
  ∧ Receipts.receiptTotals (Some 0%float)
    = {| Receipts.subtotal := 0%float; Receipts.taxRate := 0.12%float;
         Receipts.taxAmount := 0%float; Receipts.totalAmount := 0%float |}
  ∧ Receipts.receiptTotals (Some 1000%float)
    = {| Receipts.subtotal := 1000%float; Receipts.taxRate := 0.12%float;
         Receipts.taxAmount := 120%float; Receipts.totalAmount := 1120%float |}.
Proof.
  split; [| repeat split].
  intros x Hlow Hhigh.
  destruct (float_between 1e-300 1e300 x 6032057205060441 6724873095247260 (-1049) 944
              eq_refl eq_refl Hlow Hhigh)
    as (m & e & Hx & He).
  pose proof (finite_float_digits x false m e Hx ltac:(lia)) as Hm.
  unfold Receipts.receiptTotals, Js.num_or_zero.
  rewrite (finite_float_truthy x m e Hx).
  cbn [Receipts.subtotal Receipts.taxAmount Receipts.totalAmount].
  destruct (SFmul_normal m 8646911284551352 e (-56) Hm eq_refl ltac:(lia))
    as (mt & et & Hmul & Hmt & Het & Htax).
  assert (Hprod : Prim2SF (x * 0.12) = S754_finite false mt et).
  { rewrite FloatAxioms.mul_spec, Hx. exact Hmul. }
  destruct (SFadd_normal m mt e et Hm Hmt ltac:(lia) ltac:(lia))
    as (mT & eT & Hadd & _ & Htotal).
  assert (Hsum : Prim2SF (x + x * 0.12) = S754_finite false mT eT).
  { rewrite FloatAxioms.add_spec, Hx, Hprod. exact Hadd. }
  destruct (exact_finite x m e Hx) as (sub & Hsub & Hsub').
  destruct (exact_finite _ mt et Hprod) as (tax & Htax0 & Htax').
  destruct (exact_finite _ mT eT Hsum) as (total & Htotal0 & Htotal').
  exists sub, tax, total.
  split; [reflexivity |]. split; [exact Hsub |].
  pose proof (dyadic_pos m e) as Hpos.
  split; [now rewrite Hsub' |]. split; [exact Htax0 |]. split; [exact Htotal0 |].
  rewrite Hsub', Htax', Htotal'.
  assert (Hrate : (Receipts.dyadic 8646911284551352 (-56)
                   == 8646911284551352 # 72057594037927936)%Q) by reflexivity.
  rewrite Hrate in Htax.
  set (S := Receipts.dyadic m e) in *. set (T := Receipts.dyadic mt et) in *.
  set (U := Receipts.dyadic mT eT) in *. clearbody S T U.
  apply Qabs_Qle_condition in Htax as [Htax1 Htax2].
  apply Qabs_Qle_condition in Htotal as [Htotal1 Htotal2].
  split; apply Qabs_Qle_condition; split; lra.
Qed.

Lemma receipt_totals_witness :
  ∃ sub tax total : Q,
    Receipts.subtotal (Receipts.receiptTotals (Some 19.99%float)) = 19.99%float
    ∧ Receipts.exact 19.99%float = Some sub ∧ (0 < sub)%Q
    ∧ Receipts.exact (Receipts.taxAmount (Receipts.receiptTotals (Some 19.99%float)))
      = Some tax
    ∧ Receipts.exact (Receipts.totalAmount (Receipts.receiptTotals (Some 19.99%float)))
      = Some total
    ∧ (Qabs (tax - sub * (12 # 100)) <= sub * (12 # 100) * (1 # 4503599627370496))%Q
    ∧ (Qabs (total - sub * (112 # 100))
       <= sub * (112 # 100) * (1 # 4503599627370496))%Q.
Proof.
  exact (proj1 receipt_totals 19.99%float eq_refl eq_refl).
Defined.

(** ** Promo codes *)

Lemma toUpperCase_empty (s : string) : Js.toUpperCase s = "" ↔ s = "".
Proof.
  destruct s; simpl; split; congruence.
Qed.




(** The answer of the validation endpoint once a stored code is matched. *)
Lemma validate_matched (clock : PromoCodes.Clock) (c : string)
    (promoCodes : list PromoCodes.PromoCode) (w : bool) (p : PromoCodes.PromoCode) :
  c ≠ "" →
  List.find (PromoCodes.sameCode c) promoCodes = Some p →
  PromoCodes.validatePromo clock (Some c) (Storage.File (Some promoCodes) w)
  = (match PromoCodes.firstFailure (PromoCodes.orderedChecks clock p) with
     | Some reason => PromoCodes.Error 400 reason
     | None => PromoCodes.Ok 200 p
     end, Storage.File (Some promoCodes) w).
Proof.
  intros Hc Hfind. unfold PromoCodes.validatePromo, Storage.readJSONFile.
  apply str_truthy_true in Hc. rewrite Hc.
  cbn [negb Storage.contents]. rewrite Hfind.
  unfold PromoCodes.orderedChecks. cbn [PromoCodes.firstFailure].
  destruct (PromoCodes.active p); simpl; [| reflexivity].
  destruct (PromoCodes.notYetActive clock p); simpl; [reflexivity |].
  destruct (PromoCodes.expired clock p); simpl; [reflexivity |].
  destruct (PromoCodes.limitReached p); reflexivity.
Qed.




(** C6 fails on the code. From a stored list with the codes SAVE10 and
    WELCOME5, which are distinct up to case, [PUT /2] with the code "save10"
    is accepted and stores SAVE10 next to save10, since the update path has
    no check of the code; and [POST /] with the code " save10" is accepted
    and stores SAVE10 twice, since the check of the creation path compares
    the code before it is trimmed. *)
Theorem update_and_create_break_unique_codes :
  let stored := [Samples.save10; Samples.welcome5] in
  PromoCodes.uniqueCodes stored
  ∧ (∃ renamed,
        PromoCodes.updatePromo Samples.promoClock (Some 2) (Samples.renameTo "save10")
          (Storage.File (Some stored) true)
        = (PromoCodes.Ok 200 renamed, Storage.File (Some [Samples.save10; renamed]) true)
        ∧ PromoCodes.code renamed = "save10"
        ∧ ¬ PromoCodes.uniqueCodes [Samples.save10; renamed])
  ∧ (∃ created,
        PromoCodes.createPromo Samples.promoClock (Samples.promoRequest " save10")
          (Storage.File (Some stored) true)
        = (PromoCodes.Ok 201 created,
           Storage.File (Some [Samples.save10; Samples.welcome5; created]) true)
        ∧ PromoCodes.code created = "SAVE10"
        ∧ ¬ PromoCodes.uniqueCodes [Samples.save10; Samples.welcome5; created]).
Proof.
  split.
  { unfold PromoCodes.uniqueCodes. simpl.
    repeat constructor; simpl; intuition discriminate. }
  split.
  - eexists. split; [reflexivity |]. split; [reflexivity |].
    unfold PromoCodes.uniqueCodes. simpl. intros H.
    apply List.NoDup_cons_iff in H as [H _]. apply H. left. reflexivity.
  - eexists. split; [reflexivity |]. split; [reflexivity |].
    unfold PromoCodes.uniqueCodes. simpl. intros H.
    apply List.NoDup_cons_iff in H as [H _]. apply H. right. left. reflexivity.
Qed.

(** *** What the other promo-code operations do to the uniqueness of codes *)

Lemma findIndex_Some {A} (p : A → bool) (l : list A) (i : nat) :
  Array.findIndex p l = Some i → ∃ x, l !! i = Some x ∧ p x = true.
Proof.
  revert i. induction l as [| y l IH]; intros i; simpl; [discriminate |].
  destruct (p y) eqn:Hy.
  - intros [= <-]. eauto.
  - destruct (Array.findIndex p l) as [j |]; simpl; [| discriminate].
    intros [= <-]. destruct (IH j eq_refl) as (x & Hx & Hp). eauto.
Qed.

(** [findIndex] returns the first index whose element passes the test. *)
Lemma findIndex_first {A} (p : A → bool) (l : list A) (i : nat) :
  Array.findIndex p l = Some i →
  ∃ x, l !! i = Some x ∧ p x = true
       ∧ ∀ j y, (j < i)%nat → l !! j = Some y → p y = false.
Proof.
  revert i. induction l as [| z l IH]; intros i; simpl; [discriminate |].
  destruct (p z) eqn:Hz.
  - intros [= <-]. exists z. repeat split; [assumption |]. intros j y Hj. lia.
  - destruct (Array.findIndex p l) as [k |]; simpl; [| discriminate].
    intros [= <-]. destruct (IH k eq_refl) as (x & Hx & Hp & Hfirst).
    exists x. repeat split; try assumption.
    intros [| j] y Hj; simpl; [now intros [= <-] |].
    apply Hfirst. lia.
Qed.

Lemma map_insert_same {A B} (g : A → B) (l : list A) (i : nat) (x y : A) :
  l !! i = Some y → g x = g y → List.map g (<[i := x]> l) = List.map g l.
Proof.
  revert i. induction l as [| z l IH]; intros [| i]; simpl; try discriminate.
  - intros [= ->] ->. reflexivity.
  - intros Hi Hg. f_equal. now apply IH.
Qed.

Lemma in_map_delete {A B} (g : A → B) (l : list A) (i : nat) (b : B) :
  In b (List.map g (delete i l)) → In b (List.map g l).
Proof.
  revert i. induction l as [| z l IH]; intros [| i]; simpl; auto.
  intros [H | H]; [auto | right; eauto].
Qed.

Lemma NoDup_map_delete {A B} (g : A → B) (l : list A) (i : nat) :
  List.NoDup (List.map g l) → List.NoDup (List.map g (delete i l)).
Proof.
  revert i. induction l as [| z l IH]; intros [| i]; simpl; auto.
  - intros H. now apply List.NoDup_cons_iff in H.
  - intros H. apply List.NoDup_cons_iff in H as [Hz Hl].
    apply List.NoDup_cons; [| auto]. intros Hin. apply Hz. eapply in_map_delete, Hin.
Qed.

(** The list a promo-code operation on one element leaves in the file: the
    list it found, or the changed list. *)
Lemma modifyAt_contents (promoId : option Z) (failure : string)
    (change : nat → PromoCodes.PromoCode → list PromoCodes.PromoCode
              → list PromoCodes.PromoCode * PromoCodes.PromoCode)
    (f : Storage.file PromoCodes.PromoCode) :
  Storage.readJSONFile (snd (PromoCodes.modifyAt promoId failure change f))
  = Storage.readJSONFile f
  ∨ ∃ i current,
      Storage.readJSONFile f !! i = Some current
      ∧ Storage.readJSONFile (snd (PromoCodes.modifyAt promoId failure change f))
        = fst (change i current (Storage.readJSONFile f)).
Proof.
  unfold PromoCodes.modifyAt. cbv zeta.
  destruct (Array.findIndex _ _) as [i |]; [| now left].
  destruct (Storage.readJSONFile f !! i) as [current |] eqn:Hi; [| now left].
  destruct (change i current (Storage.readJSONFile f)) as [promoCodes' answer] eqn:Hchange.
  unfold Storage.writeJSONFile. destruct (Storage.writable f); simpl; [| now left].
  right. exists i, current. rewrite Hchange. auto.
Qed.

Lemma toggle_keeps_codes_unique (clock : PromoCodes.Clock) (promoId : option Z)
    (active0 : option bool) (f : Storage.file PromoCodes.PromoCode) :
  PromoCodes.uniqueCodes (Storage.readJSONFile f) →
  PromoCodes.uniqueCodes
    (Storage.readJSONFile (snd (PromoCodes.togglePromo clock promoId active0 f))).
Proof.
  intros Hunique. unfold PromoCodes.togglePromo.
  match goal with
  | |- context [PromoCodes.modifyAt ?a ?b ?c ?d] =>
      destruct (modifyAt_contents a b c d) as [-> | (i & current & Hi & ->)];
      [assumption |]
  end.
  unfold PromoCodes.uniqueCodes in *. simpl.
  erewrite map_insert_same; [eassumption | eassumption | reflexivity].
Qed.

Lemma delete_keeps_codes_unique (promoId : option Z)
    (f : Storage.file PromoCodes.PromoCode) :
  PromoCodes.uniqueCodes (Storage.readJSONFile f) →
  PromoCodes.uniqueCodes (Storage.readJSONFile (snd (PromoCodes.deletePromo promoId f))).
Proof.
  intros Hunique. unfold PromoCodes.deletePromo.
  match goal with
  | |- context [PromoCodes.modifyAt ?a ?b ?c ?d] =>
      destruct (modifyAt_contents a b c d) as [-> | (i & current & Hi & ->)];
      [assumption |]
  end.
  unfold PromoCodes.uniqueCodes in *. simpl. now apply NoDup_map_delete.
Qed.

(** An update that does not carry a code keeps the codes unique. *)
Lemma update_without_code_keeps_codes_unique (clock : PromoCodes.Clock)
    (promoId : option Z) (updates : PromoCodes.Updates)
    (f : Storage.file PromoCodes.PromoCode) :
  PromoCodes.upd_code updates = None →
  PromoCodes.uniqueCodes (Storage.readJSONFile f) →
  PromoCodes.uniqueCodes
    (Storage.readJSONFile (snd (PromoCodes.updatePromo clock promoId updates f))).
Proof.
  intros Hcode Hunique. unfold PromoCodes.updatePromo.
  match goal with
  | |- context [PromoCodes.modifyAt ?a ?b ?c ?d] =>
      destruct (modifyAt_contents a b c d) as [-> | (i & current & Hi & ->)];
      [assumption |]
  end.
  unfold PromoCodes.uniqueCodes in *. simpl.
  erewrite map_insert_same; [eassumption | eassumption |].
  simpl. now rewrite Hcode.
Qed.

Lemma upper_char_idem (c : ascii) : Js.upper_char (Js.upper_char c) = Js.upper_char c.
Proof.
  destruct c as [[] [] [] [] [] [] [] []]; reflexivity.
Qed.

Lemma toUpperCase_idem (s : string) : Js.toUpperCase (Js.toUpperCase s) = Js.toUpperCase s.
Proof.
  induction s as [| c s IH]; simpl; [reflexivity |].
  now rewrite upper_char_idem, IH.
Qed.

Lemma NoDup_snoc {A} (l : list A) (x : A) :
  List.NoDup l → ¬ In x l → List.NoDup (l ++ [x]).
Proof.
  induction l as [| y l IH]; simpl; intros Hl Hx.
  - constructor; [intros [] | constructor].
  - apply List.NoDup_cons_iff in Hl as [Hy Hl]. apply List.NoDup_cons.
    + rewrite in_app_iff. simpl. intros [H | [H | []]]; [auto | subst; auto].
    + apply IH; auto.
Qed.

(** Creation keeps the codes unique when the code of the request has no
    white space at its ends. *)
Lemma create_keeps_codes_unique (clock : PromoCodes.Clock) (req : PromoCodes.CreateRequest)
    (f : Storage.file PromoCodes.PromoCode) (c : string) :
  PromoCodes.req_code req = Some c →
  Js.trim (Js.toUpperCase c) = Js.toUpperCase c →
  PromoCodes.uniqueCodes (Storage.readJSONFile f) →
  PromoCodes.uniqueCodes
    (Storage.readJSONFile (snd (PromoCodes.createPromo clock req f))).
Proof.
  intros Hreq Htrim Hunique. unfold PromoCodes.createPromo. rewrite Hreq.
  destruct (PromoCodes.req_discountPercent req) as [percent |]; [| assumption].
  destruct (_ || _); [assumption |]. destruct (_ || _); [assumption |].
  destruct (List.find _ _) eqn:Hfind; [assumption |].
  unfold Storage.writeJSONFile. destruct (Storage.writable f); [| assumption].
  simpl. rewrite read_written. unfold PromoCodes.uniqueCodes in *.
  rewrite List.map_app. simpl.
  apply NoDup_snoc; [assumption |].
  rewrite Htrim, toUpperCase_idem, in_map_iff. intros (p & Hp & Hin).
  pose proof (List.find_none _ _ Hfind p Hin) as Hsame.
  unfold PromoCodes.sameCode in Hsame. apply String.eqb_neq in Hsame. congruence.
Qed.

(** ** Password policy *)

Lemma test_contains (class : ascii → bool) (password : string) :
  Auth.test class password = true ↔ Auth.contains class password.
Proof.
  unfold Auth.test, Auth.contains. apply existsb_exists.
Qed.

Lemma pushIf_length (condition : bool) (message : string) (errors0 : list string) :
  length (Auth.pushIf condition message errors0)
  = ((if condition then 1 else 0) + length errors0)%nat.
Proof.
  destruct condition; simpl; [| reflexivity]. rewrite length_app. simpl. lia.
Qed.

Lemma valid_iff_all_checks (password : string) :
  Auth.isValid (Auth.validatePasswordStrength password) = true
  ↔ (Auth.strLength password <? Auth.minLength) = false
    ∧ Auth.test Js.is_upper password = true
    ∧ Auth.test Js.is_lower password = true
    ∧ Auth.test Js.is_digit password = true
    ∧ Auth.test Auth.is_special password = true.
Proof.
  unfold Auth.validatePasswordStrength. cbn [Auth.isValid].
  rewrite Nat.eqb_eq, !pushIf_length. simpl length.
  destruct (Auth.strLength password <? Auth.minLength),
    (Auth.test Js.is_upper password), (Auth.test Js.is_lower password),
    (Auth.test Js.is_digit password), (Auth.test Auth.is_special password);
    simpl; intuition (try discriminate; try lia).
Qed.

(** C7. A password is accepted exactly when it has at least 8 characters
    and contains an uppercase letter, a lowercase letter, a digit and a
    special character. The password Abc12345! is accepted, with no error and
    the strength "strong". The password abc is refused with four distinct
    reasons, in this order: length, uppercase letter, digit, special
    character; its strength is "weak". *)
Theorem password_policy :
  (∀ password,
      Auth.isValid (Auth.validatePasswordStrength password) = true
      ↔ 8 ≤ Auth.strLength password
        ∧ Auth.contains Js.is_upper password
        ∧ Auth.contains Js.is_lower password
        ∧ Auth.contains Js.is_digit password
        ∧ Auth.contains Auth.is_special password)
  ∧ Auth.validatePasswordStrength "Abc12345!"
    = {| Auth.isValid := true; Auth.errors := []; Auth.strength := "strong" |}
  ∧ (Auth.strength (Auth.validatePasswordStrength "Abc12345!") = "medium"
     ∨ Auth.strength (Auth.validatePasswordStrength "Abc12345!") = "strong")
  ∧ Auth.validatePasswordStrength "abc"
    = {| Auth.isValid := false;
         Auth.errors := [Auth.lengthError; Auth.uppercaseError; Auth.numberError;
                         Auth.specialError];
         Auth.strength := "weak" |}
  ∧ List.NoDup (Auth.errors (Auth.validatePasswordStrength "abc"))
  ∧ length (Auth.errors (Auth.validatePasswordStrength "abc")) = 4%nat.
Proof.
  split.
  { intros password. rewrite valid_iff_all_checks, !test_contains.
    unfold Auth.minLength. rewrite Z.ltb_ge. reflexivity. }
  split; [reflexivity |]. split; [right; reflexivity |]. split; [reflexivity |].
  split; [| reflexivity].
  vm_compute. repeat constructor; simpl; intuition discriminate.
Qed.

(** ** Menu *)

(** C8. An update request whose [pricePerServing] is a negative number is
    answered with the validation error (status 400), whatever the
    identifier and the stored list are, and the file, hence every stored
    item, is left as it was. *)
Theorem negative_price_update_is_rejected (itemId : option Z) (updates : Menu.Updates)
    (f : Storage.file Menu.MenuItem) (price : float) :
  Menu.upd_pricePerServing updates = Some (Menu.PriceNumber price) →
  PrimFloat.ltb price 0 = true →
  Menu.updateMenuItem itemId updates f
  = (Menu.Error 400 "Price per serving must be non-negative", f).
Proof.
  intros Hprice Hnegative.
  unfold Menu.updateMenuItem, Menu.negativePrice, Menu.belowZero.
  rewrite Hprice. cbn [Menu.toNumber]. now rewrite Hnegative.
Qed.

(** The same holds of a price given as a text that converts to a negative
    number. *)
Lemma negative_text_price_update_is_rejected (itemId : option Z) (updates : Menu.Updates)
    (f : Storage.file Menu.MenuItem) (text : string) :
  Menu.upd_pricePerServing updates = Some (Menu.PriceText text) →
  PrimFloat.ltb (Js.toNumberText text) 0 = true →
  Menu.updateMenuItem itemId updates f
  = (Menu.Error 400 "Price per serving must be non-negative", f).
Proof.
  intros Hprice Hnegative.
  unfold Menu.updateMenuItem, Menu.negativePrice, Menu.belowZero.
  rewrite Hprice. cbn [Menu.toNumber]. now rewrite Hnegative.
Qed.

Lemma negative_price_update_is_rejected_witness :
  Menu.updateMenuItem (Some 4) (Samples.priceUpdate (-5)%float)
    (Storage.File (Some [Samples.lumpia; Samples.pancit]) true)
  = (Menu.Error 400 "Price per serving must be non-negative",
     Storage.File (Some [Samples.lumpia; Samples.pancit]) true).
Proof.
  exact (negative_price_update_is_rejected (Some 4) (Samples.priceUpdate (-5)%float)
           (Storage.File (Some [Samples.lumpia; Samples.pancit]) true) (-5)%float
           eq_refl eq_refl).
Defined.

(** The same request with a price that is not negative changes the item. *)
Example price_update_applies :
  ∃ updated,
    Menu.updateMenuItem (Some 4) (Samples.priceUpdate 135%float)
      (Storage.File (Some [Samples.lumpia; Samples.pancit]) true)
    = (Menu.Ok 200 "Menu item updated successfully" updated,
       Storage.File (Some [updated; Samples.pancit]) true)
    ∧ Menu.pricePerServing updated = 135%float
    ∧ Menu.itemName updated = "Lumpia".
Proof.
  eexists. split; [reflexivity |]. split; reflexivity.
Qed.

Lemma mathMax_nonempty (values : list Z) :
  values ≠ [] →
  ∃ m, Menu.mathMax values = Menu.Finite m ∧ In m values ∧ ∀ v, In v values → v ≤ m.
Proof.
  induction values as [| x rest IH]; [congruence |]. intros _.
  destruct rest as [| y rest].
  - exists x. simpl. split; [reflexivity |]. split; [auto |]. intros v [<- | []]. lia.
  - destruct IH as (m & Hmax & Hin & Hle); [discriminate |].
    change (Menu.mathMax (x :: y :: rest))
      with (Menu.ext_max (Menu.Finite x) (Menu.mathMax (y :: rest))).
    rewrite Hmax. exists (Z.max x m). split; [reflexivity |]. split.
    + destruct (Z.max_spec x m) as [[_ ->] | [_ ->]]; [right; assumption | left; reflexivity].
    + intros v [<- | Hv]; [lia |]. specialize (Hle v Hv). lia.
Qed.

Lemma create_acceptable (req : Menu.CreateRequest) (menuItems : list Menu.MenuItem) :
  Menu.acceptable req →
  ∃ item,
    Menu.createMenuItem req (Storage.File (Some menuItems) true)
    = (Menu.Ok 201 "Menu item created successfully" item,
       Storage.File (Some (menuItems ++ [item])%list) true)
    ∧ Menu.id item = Menu.storedId (Menu.newId menuItems).
Proof.
  intros (itemName0 & category0 & price0 & Hn & Hn' & Hc & Hc' & Hp & Hp').
  apply str_truthy_true in Hn', Hc'.
  assert (Hprice : Menu.belowZero price0 = false).
  { destruct price0 as [x | text | | []]; try exact Hp'; reflexivity. }
  unfold Menu.createMenuItem. rewrite Hn, Hc, Hp, Hn', Hc', Hprice. simpl.
  eexists. split; reflexivity.
Qed.

(** An integer up to [2 ^ 53] in magnitude is a binary64 number. *)
Lemma toDouble_small (n : Z) : Z.abs n ≤ 2 ^ 53 → Js.toDouble n = n.
Proof.
  intros Hn. unfold Js.toDouble. now rewrite (proj2 (Z.leb_le _ _) Hn).
Qed.

(** C10, as stated, fails in the arithmetic of the code. When the only
    stored item has the identifier [2 ^ 53], adding 1 in binary64 gives
    [2 ^ 53] again: the identifier computed is not 1 plus the maximum, and
    the item created carries the identifier of the stored one. The last
    line is the same addition on the floats of the kernel. *)
Lemma menu_id_2_53_is_issued_twice :
  Menu.newId [MoreSamples.lastSafeItem] = Menu.Finite (2 ^ 53)
  ∧ Menu.newId [MoreSamples.lastSafeItem] ≠ Menu.Finite (2 ^ 53 + 1)
  ∧ (∃ item,
       Menu.createMenuItem Samples.menuRequest
         (Storage.File (Some [MoreSamples.lastSafeItem]) true)
       = (Menu.Ok 201 "Menu item created successfully" item,
          Storage.File (Some [MoreSamples.lastSafeItem; item]) true)
       ∧ Menu.id item = Menu.id MoreSamples.lastSafeItem)
  ∧ ¬ (∀ menuItems : list Menu.MenuItem,
         menuItems ≠ [] →
         ∃ m, Menu.newId menuItems = Menu.Finite (m + 1)
              ∧ ∀ item, In item menuItems → Menu.id item ≠ Some (m + 1))
  ∧ PrimFloat.eqb (9007199254740992 + 1) 9007199254740992 = true.
Proof.
  split; [reflexivity |]. split; [discriminate |].
  split; [eexists; split; reflexivity |].
  split; [| reflexivity].
  intros H. destruct (H [MoreSamples.lastSafeItem]) as (m & Hid & Hfresh); [discriminate |].
  apply (Hfresh MoreSamples.lastSafeItem); [left; reflexivity |].
  change (Menu.Finite (2 ^ 53) = Menu.Finite (m + 1)) in Hid.
  injection Hid as <-. reflexivity.
Qed.

(** C10, as amended. On a stored menu list whose greatest identifier [m]
    (an item without identifier counting for 0) is below [2 ^ 53] in
    magnitude, the identifier computed for a new item is [m + 1]; it is
    greater than the identifier of every stored item, hence different from
    each; and a creation request that passes the checks is answered with an
    item that carries it and is appended to the list. On the empty list the
    identifier computed is minus infinity, not an integer, and it is stored
    as [null]. *)
Theorem new_menu_id_is_fresh :
  (∀ (menuItems : list Menu.MenuItem) (m : Z),
      In m (List.map (fun item => Menu.id_or_zero (Menu.id item)) menuItems) →
      (∀ item, In item menuItems → Menu.id_or_zero (Menu.id item) ≤ m) →
      Z.abs m < 2 ^ 53 →
      Menu.newId menuItems = Menu.Finite (m + 1)
      ∧ (∀ item, In item menuItems →
                 Menu.id_or_zero (Menu.id item) < m + 1
                 ∧ Menu.id item ≠ Some (m + 1))
      ∧ ∀ req, Menu.acceptable req →
          ∃ item,
            Menu.createMenuItem req (Storage.File (Some menuItems) true)
            = (Menu.Ok 201 "Menu item created successfully" item,
               Storage.File (Some (menuItems ++ [item])%list) true)
            ∧ Menu.id item = Some (m + 1))
  ∧ Menu.newId [] = Menu.NegInfinity
  ∧ (∀ n, Menu.newId [] ≠ Menu.Finite n)
  ∧ ∀ req, Menu.acceptable req →
      ∃ item,
        Menu.createMenuItem req (Storage.File (Some []) true)
        = (Menu.Ok 201 "Menu item created successfully" item,
           Storage.File (Some [item]) true)
        ∧ Menu.id item = None.
Proof.
  split.
  - intros menuItems m Hin Hall Hsafe.
    destruct (mathMax_nonempty
                (List.map (fun item => Menu.id_or_zero (Menu.id item)) menuItems))
      as (m' & Hmax & Hin' & Hle).
    { destruct menuItems; [destruct Hin | discriminate]. }
    assert (m' = m) as ->.
    { apply Z.le_antisymm; [| now apply Hle].
      apply in_map_iff in Hin' as (item & <- & Hitem). now apply Hall. }
    assert (Hid : Menu.newId menuItems = Menu.Finite (m + 1)).
    { unfold Menu.newId. rewrite Hmax. simpl. rewrite toDouble_small; [reflexivity | lia]. }
    split; [assumption |]. split.
    + intros item Hitem. specialize (Hall item Hitem). split; [lia |].
      intros Heq. rewrite Heq in Hall. simpl in Hall. lia.
    + intros req Hreq. destruct (create_acceptable req menuItems Hreq) as (item & Hcreate & Hitem).
      exists item. split; [assumption |]. now rewrite Hitem, Hid.
  - split; [reflexivity |]. split; [discriminate |].
    intros req Hreq. destruct (create_acceptable req [] Hreq) as (item & Hcreate & Hitem).
    exists item. split; assumption.
Qed.

Lemma new_menu_id_is_fresh_witness :
  Menu.newId [Samples.lumpia; Samples.pancit] = Menu.Finite 8
  ∧ ∃ item,
      Menu.createMenuItem Samples.menuRequest
        (Storage.File (Some [Samples.lumpia; Samples.pancit]) true)
      = (Menu.Ok 201 "Menu item created successfully" item,
         Storage.File (Some [Samples.lumpia; Samples.pancit; item]) true)
      ∧ Menu.id item = Some 8.
Proof.
  destruct (proj1 new_menu_id_is_fresh [Samples.lumpia; Samples.pancit] 7)
    as (Hid & _ & Hcreate).
  - right; left; reflexivity.
  - intros item [<- | [<- | []]]; simpl; lia.
  - simpl; lia.
  - split; [exact Hid |].
    apply Hcreate. exists "Leche flan", "Dessert", (Menu.PriceNumber 90%float).
    repeat split; discriminate.
Defined.

(** ** Storage failures *)

(** C9, as stated, fails: with a bookings file that cannot be read, the
    availability endpoint answers, with status 200, that both slots are
    free, as it does on the empty list; the creation endpoint stores the new
    booking as the only one; and the promo-code validation reports an
    unknown code. None of them answers with status 500. *)
Lemma unreadable_file_is_read_as_empty :
  fst (Bookings.checkAvailability "2025-06-01" (Storage.File None true))
  = Bookings.Availability "2025-06-01" [] ["morning"; "afternoon"]
  ∧ ¬ Bookings.serverError
        (fst (Bookings.checkAvailability "2025-06-01" (Storage.File None true)))
  ∧ (∃ booking,
        Bookings.createBooking Samples.bookingEnv
          (Samples.bookingRequest (Some [Samples.adobo])) (Storage.File None true)
        = (Bookings.Created "Booking created successfully" booking,
           Storage.File (Some [booking]) true))
  ∧ fst (PromoCodes.validatePromo Samples.promoClock (Some "SAVE10")
           (Storage.File None true))
    = PromoCodes.Error 404 "Invalid promo code".
Proof.
  split; [reflexivity |]. split; [intros [error H]; discriminate H |].
  split; [eexists; reflexivity | reflexivity].
Qed.

Lemma promo_modifyAt_read_failure (promoId : option Z) (failure : string)
    (change : nat → PromoCodes.PromoCode → list PromoCodes.PromoCode
              → list PromoCodes.PromoCode * PromoCodes.PromoCode) :
  Failures.readFailureActsAsEmpty (PromoCodes.modifyAt promoId failure change).
Proof.
  intros w. split; [reflexivity | left; reflexivity].
Qed.

Lemma promo_modifyAt_write_failure (promoId : option Z) (failure : string)
    (change : nat → PromoCodes.PromoCode → list PromoCodes.PromoCode
              → list PromoCodes.PromoCode * PromoCodes.PromoCode) :
  Failures.writeFailureIs500 (PromoCodes.modifyAt promoId failure change)
    PromoCodes.succeeded PromoCodes.serverError.
Proof.
  intros c. unfold PromoCodes.modifyAt, Storage.readJSONFile, Storage.writeJSONFile.
  cbn [Storage.contents Storage.writable].
  destruct (Array.findIndex _ _) as [i |]; [| intros []].
  destruct (_ !! i) as [current |]; [| intros []].
  destruct (change i current _) as [promoCodes' answer]. intros _.
  split; [eexists |]; reflexivity.
Qed.

Lemma menu_modifyAt_read_failure (itemId : option Z) (message failure : string)
    (change : nat → Menu.MenuItem → list Menu.MenuItem
              → list Menu.MenuItem * Menu.MenuItem) :
  Failures.readFailureActsAsEmpty (Menu.modifyAt itemId message failure change).
Proof.
  intros w. split; [reflexivity | left; reflexivity].
Qed.

Lemma menu_modifyAt_write_failure (itemId : option Z) (message failure : string)
    (change : nat → Menu.MenuItem → list Menu.MenuItem
              → list Menu.MenuItem * Menu.MenuItem) :
  Failures.writeFailureIs500 (Menu.modifyAt itemId message failure change)
    Menu.succeeded Menu.serverError.
Proof.
  intros c. unfold Menu.modifyAt, Storage.readJSONFile, Storage.writeJSONFile.
  cbn [Storage.contents Storage.writable].
  destruct (Array.findIndex _ _) as [i |]; [| intros []].
  destruct (_ !! i) as [currentItem |]; [| intros []].
  destruct (change i currentItem _) as [menuItems' answer]. intros _.
  split; [eexists |]; reflexivity.
Qed.

Lemma availability_read_failure (date : string) :
  Failures.readFailureActsAsEmpty (Bookings.checkAvailability date).
Proof.
  intros w. split; [reflexivity | left; reflexivity].
Qed.

Lemma create_booking_read_failure (env : Bookings.Env) (req : Bookings.CreateRequest) :
  Failures.readFailureActsAsEmpty (Bookings.createBooking env req).
Proof.
  intros w. unfold Bookings.createBooking.
  destruct (Bookings.missingRequiredFields req); [split; [| left]; reflexivity |].
  rewrite read_unreadable, read_written. simpl.
  destruct (Bookings.readItems _); [| split; [| left]; reflexivity].
  destruct w; (split; [reflexivity |]); [right | left]; reflexivity.
Qed.

Lemma bookings_write_failure (env : Bookings.Env) (req : Bookings.CreateRequest) :
  Failures.writeFailureIs500 (Bookings.createBooking env req)
    Bookings.succeeded Bookings.serverError.
Proof.
  intros c. unfold Bookings.createBooking, Storage.readJSONFile, Storage.writeJSONFile.
  cbn [Storage.contents Storage.writable].
  destruct (Bookings.missingRequiredFields req); [intros [] |].
  destruct (List.find _ _); [intros [] |].
  destruct (Bookings.readItems _); [| intros []]. intros _.
  split; [eexists |]; reflexivity.
Qed.

Lemma promo_create_failures (clock : PromoCodes.Clock) (req : PromoCodes.CreateRequest) :
  Failures.readFailureActsAsEmpty (PromoCodes.createPromo clock req)
  ∧ Failures.writeFailureIs500 (PromoCodes.createPromo clock req)
      PromoCodes.succeeded PromoCodes.serverError.
Proof.
  split.
  - intros w. unfold PromoCodes.createPromo.
    destruct (PromoCodes.req_code req) as [code0 |]; [| split; [| left]; reflexivity].
    destruct (PromoCodes.req_discountPercent req) as [percent |];
      [| split; [| left]; reflexivity].
    destruct (_ || _); [split; [| left]; reflexivity |].
    destruct (_ || _); [split; [| left]; reflexivity |].
    destruct w; (split; [reflexivity |]); [right | left]; reflexivity.
  - intros c. unfold PromoCodes.createPromo, Storage.readJSONFile, Storage.writeJSONFile.
    cbn [Storage.contents Storage.writable].
    destruct (PromoCodes.req_code req) as [code0 |]; [| intros []].
    destruct (PromoCodes.req_discountPercent req) as [percent |]; [| intros []].
    destruct (_ || _); [intros [] |]. destruct (_ || _); [intros [] |].
    destruct (List.find _ _); [intros [] |]. intros _.
    split; [eexists |]; reflexivity.
Qed.

Lemma promo_validate_read_failure (clock : PromoCodes.Clock) (code0 : option string) :
  Failures.readFailureActsAsEmpty (PromoCodes.validatePromo clock code0).
Proof.
  intros w. unfold PromoCodes.validatePromo.
  destruct code0 as [c |]; [| split; [| left]; reflexivity].
  destruct (negb _); split; try reflexivity; left; reflexivity.
Qed.

Lemma menu_create_failures (req : Menu.CreateRequest) :
  Failures.readFailureActsAsEmpty (Menu.createMenuItem req)
  ∧ Failures.writeFailureIs500 (Menu.createMenuItem req) Menu.succeeded Menu.serverError.
Proof.
  split.
  - intros w. unfold Menu.createMenuItem.
    destruct (Menu.req_itemName req) as [itemName0 |]; [| split; [| left]; reflexivity].
    destruct (Menu.req_category req) as [category0 |]; [| split; [| left]; reflexivity].
    destruct (Menu.req_pricePerServing req) as [price0 |];
      [| split; [| left]; reflexivity].
    destruct (_ || _); [split; [| left]; reflexivity |].
    destruct (Menu.belowZero _); [split; [| left]; reflexivity |].
    destruct w; (split; [reflexivity |]); [right | left]; reflexivity.
  - intros c. unfold Menu.createMenuItem, Storage.readJSONFile, Storage.writeJSONFile.
    cbn [Storage.contents Storage.writable].
    destruct (Menu.req_itemName req) as [itemName0 |]; [| intros []].
    destruct (Menu.req_category req) as [category0 |]; [| intros []].
    destruct (Menu.req_pricePerServing req) as [price0 |]; [| intros []].
    destruct (_ || _); [intros [] |]. destruct (Menu.belowZero _); [intros [] |].
    intros _. split; [eexists |]; reflexivity.
Qed.

Lemma menu_update_failures (itemId : option Z) (updates : Menu.Updates) :
  Failures.readFailureActsAsEmpty (Menu.updateMenuItem itemId updates)
  ∧ Failures.writeFailureIs500 (Menu.updateMenuItem itemId updates)
      Menu.succeeded Menu.serverError.
Proof.
  unfold Menu.updateMenuItem. split.
  - intros w. destruct (Menu.negativePrice updates);
      [split; [| left]; reflexivity | apply menu_modifyAt_read_failure].
  - intros c. destruct (Menu.negativePrice updates);
      [intros [] | apply menu_modifyAt_write_failure].
Qed.

(** C9, as amended. For the booking, promo-code and menu operations:
    a failed write is answered with status 500 and leaves the file as it
    was, whenever the operation would have succeeded with a write that
    works; a failed read is not reported: the operation answers what it
    answers on the empty collection, and the file is left alone or receives
    what would be written starting from the empty collection. *)
Theorem storage_failures :
  (∀ env req,
      Failures.writeFailureIs500 (Bookings.createBooking env req)
        Bookings.succeeded Bookings.serverError)
  ∧ (∀ clock req,
        Failures.writeFailureIs500 (PromoCodes.createPromo clock req)
          PromoCodes.succeeded PromoCodes.serverError)
  ∧ (∀ clock promoId updates,
        Failures.writeFailureIs500 (PromoCodes.updatePromo clock promoId updates)
          PromoCodes.succeeded PromoCodes.serverError)
  ∧ (∀ clock promoId active0,
        Failures.writeFailureIs500 (PromoCodes.togglePromo clock promoId active0)
          PromoCodes.succeeded PromoCodes.serverError)
  ∧ (∀ promoId,
        Failures.writeFailureIs500 (PromoCodes.deletePromo promoId)
          PromoCodes.succeeded PromoCodes.serverError)
  ∧ (∀ req,
        Failures.writeFailureIs500 (Menu.createMenuItem req)
          Menu.succeeded Menu.serverError)
  ∧ (∀ itemId updates,
        Failures.writeFailureIs500 (Menu.updateMenuItem itemId updates)
          Menu.succeeded Menu.serverError)
  ∧ (∀ itemId,
        Failures.writeFailureIs500 (Menu.deleteMenuItem itemId)
          Menu.succeeded Menu.serverError)
  ∧ (∀ itemId,
        Failures.writeFailureIs500 (Menu.toggleAvailability itemId)
          Menu.succeeded Menu.serverError)
  ∧ (∀ date, Failures.readFailureActsAsEmpty (Bookings.checkAvailability date))
  ∧ (∀ env req, Failures.readFailureActsAsEmpty (Bookings.createBooking env req))
  ∧ (∀ clock code0, Failures.readFailureActsAsEmpty (PromoCodes.validatePromo clock code0))
  ∧ (∀ clock req, Failures.readFailureActsAsEmpty (PromoCodes.createPromo clock req))
  ∧ (∀ clock promoId updates,
        Failures.readFailureActsAsEmpty (PromoCodes.updatePromo clock promoId updates))
  ∧ (∀ clock promoId active0,
        Failures.readFailureActsAsEmpty (PromoCodes.togglePromo clock promoId active0))
  ∧ (∀ promoId, Failures.readFailureActsAsEmpty (PromoCodes.deletePromo promoId))
  ∧ (∀ req, Failures.readFailureActsAsEmpty (Menu.createMenuItem req))
  ∧ (∀ itemId updates,
        Failures.readFailureActsAsEmpty (Menu.updateMenuItem itemId updates))
  ∧ (∀ itemId, Failures.readFailureActsAsEmpty (Menu.deleteMenuItem itemId))
  ∧ (∀ itemId, Failures.readFailureActsAsEmpty (Menu.toggleAvailability itemId)).
Proof.
  repeat match goal with |- _ ∧ _ => split end; intros.
  - apply bookings_write_failure.
  - apply promo_create_failures.
  - apply promo_modifyAt_write_failure.
  - apply promo_modifyAt_write_failure.
  - apply promo_modifyAt_write_failure.
  - apply menu_create_failures.
  - apply menu_update_failures.
  - apply menu_modifyAt_write_failure.
  - apply menu_modifyAt_write_failure.
  - apply availability_read_failure.
  - apply create_booking_read_failure.
  - apply promo_validate_read_failure.
  - apply promo_create_failures.
  - apply promo_modifyAt_read_failure.
  - apply promo_modifyAt_read_failure.
  - apply promo_modifyAt_read_failure.
  - apply menu_create_failures.
  - apply menu_update_failures.
  - apply menu_modifyAt_read_failure.
  - apply menu_modifyAt_read_failure.
Qed.

Lemma storage_failures_witness :
  let request := Samples.bookingRequest (Some [Samples.adobo]) in
  Bookings.serverError
    (fst (Bookings.createBooking Samples.bookingEnv request (Storage.File (Some []) false)))
  ∧ snd (Bookings.createBooking Samples.bookingEnv request (Storage.File (Some []) false))
    = Storage.File (Some []) false.
Proof.
  exact (proj1 storage_failures Samples.bookingEnv
           (Samples.bookingRequest (Some [Samples.adobo])) (Some []) I).
Defined.

(** * Further properties of the handlers *)

(** ** Bookings: creation and availability together *)

Lemma created_booking_shape (env : Bookings.Env) (req : Bookings.CreateRequest)
    (f f' : Storage.file Bookings.Booking) (message : string) (booking : Bookings.Booking) :
  Bookings.createBooking env req f = (Bookings.Created message booking, f') →
  ∃ d s selected,
    Bookings.req_eventDate req = Some d ∧ d ≠ ""
    ∧ Bookings.req_timeSlot req = Some s ∧ s ≠ ""
    ∧ List.find (Bookings.conflicts d s) (Storage.readJSONFile f) = None
    ∧ Bookings.readItems (default [] (Bookings.req_selectedItems req)) = Some selected
    ∧ booking = Bookings.newBooking env req d s selected (Storage.readJSONFile f)
    ∧ f' = Storage.File (Some (Storage.readJSONFile f ++ [booking])%list) true.
Proof.
  unfold Bookings.createBooking.
  destruct (Bookings.missingRequiredFields req) eqn:Hmissing; [discriminate |].
  unfold Bookings.missingRequiredFields in Hmissing.
  destruct (Bookings.req_eventDate req) as [d |]; [| discriminate].
  destruct (Bookings.req_timeSlot req) as [s |];
    [| simpl in Hmissing; rewrite orb_true_r in Hmissing; discriminate].
  simpl in Hmissing.
  destruct (Js.str_truthy d) eqn:Hd; [| discriminate].
  destruct (Js.str_truthy s) eqn:Hs; [| discriminate].
  simpl. rewrite Hd, Hs.
  destruct (List.find _ _) eqn:Hfind; [discriminate |].
  destruct (Bookings.readItems _) as [selected |]; [| discriminate].
  unfold Storage.writeJSONFile. destruct (Storage.writable f); [| discriminate].
  intros [= <- <- <-]. exists d, s, selected.
  apply str_truthy_true in Hd, Hs. repeat split; auto.
Qed.



Lemma free_slots_unfold (date : string) (f : Storage.file Bookings.Booking) :
  BookingQueries.freeSlots date f
  = Bookings.getAvailableSlots
      (List.filter (fun b => Js.strict_eq (Bookings.bookingDate b) (Js.JStr date))
         (Storage.readJSONFile f)).
Proof. reflexivity. Qed.

Lemma free_slots_spec (date slot : string) (f : Storage.file Bookings.Booking) :
  In slot (BookingQueries.freeSlots date f)
  ↔ In slot Bookings.allSlots
    ∧ ¬ Bookings.bookedOn (Storage.readJSONFile f) date slot.
Proof.
  rewrite free_slots_unfold, available_slots_spec. unfold Bookings.bookedOn.
  split; intros [Hall Hfree]; split; try assumption; intros (b & Hin & Hrest); apply Hfree.
  - destruct Hrest as [Hdate Hslot]. exists b. split; [| assumption].
    apply filter_In. split; [assumption |]. now apply strict_eq_str.
  - apply filter_In in Hin as [Hin Hdate]. apply strict_eq_str in Hdate. eauto.
Qed.

Lemma new_booking_date_slot (env : Bookings.Env) (req : Bookings.CreateRequest)
    (d s : string) (selected : list Bookings.SelectedItem)
    (bookings : list Bookings.Booking) :
  d ≠ "" → s ≠ "" →
  Bookings.bookingDate (Bookings.newBooking env req d s selected bookings) = Js.JStr d
  ∧ Bookings.bookingSlot (Bookings.newBooking env req d s selected bookings) = Js.JStr s.
Proof.
  intros Hd Hs. apply str_truthy_true in Hd, Hs.
  unfold Bookings.bookingDate, Bookings.bookingSlot, Js.or_else. simpl.
  now rewrite Hd, Hs.
Qed.

(** X1. Once a booking is created for a date and a slot, the availability
    answer for that date no longer lists the slot, and the availability
    answer for every other date is what it was before. *)
Theorem created_slot_is_taken (env : Bookings.Env) (req : Bookings.CreateRequest)
    (f f' : Storage.file Bookings.Booking) (message : string) (booking : Bookings.Booking) :
  Bookings.createBooking env req f = (Bookings.Created message booking, f') →
  ∃ d s,
    Bookings.req_eventDate req = Some d
    ∧ Bookings.req_timeSlot req = Some s
    ∧ ¬ In s (BookingQueries.freeSlots d f')
    ∧ ∀ d', d' ≠ d → BookingQueries.freeSlots d' f' = BookingQueries.freeSlots d' f.
Proof.
  intros Hcreate.
  destruct (created_booking_shape env req f f' message booking Hcreate)
    as (d & s & selected & Hd & Hd' & Hs & Hs' & _ & _ & Hbooking & ->).
  destruct (new_booking_date_slot env req d s selected (Storage.readJSONFile f) Hd' Hs')
    as [Hdate Hslot].
  rewrite <- Hbooking in Hdate, Hslot.
  exists d, s. split; [assumption |]. split; [assumption |]. split.
  - rewrite free_slots_spec, read_written. intros [_ Hfree]. apply Hfree.
    exists booking. rewrite in_app_iff. simpl. auto.
  - intros d' Hne. rewrite !free_slots_unfold, read_written, List.filter_app. simpl.
    rewrite Hdate. simpl.
    destruct (String.eqb d d') eqn:Heq; [apply String.eqb_eq in Heq; congruence |].
    now rewrite app_nil_r.
Qed.

Lemma created_slot_is_taken_witness :
  ∃ d s,
    Bookings.req_eventDate (Samples.bookingRequest (Some [Samples.adobo])) = Some d
    ∧ Bookings.req_timeSlot (Samples.bookingRequest (Some [Samples.adobo])) = Some s
    ∧ ¬ In s (BookingQueries.freeSlots d
                (snd (Bookings.createBooking Samples.bookingEnv
                        (Samples.bookingRequest (Some [Samples.adobo]))
                        (Storage.File (Some []) true))))
    ∧ ∀ d', d' ≠ d →
        BookingQueries.freeSlots d'
          (snd (Bookings.createBooking Samples.bookingEnv
                  (Samples.bookingRequest (Some [Samples.adobo]))
                  (Storage.File (Some []) true)))
        = BookingQueries.freeSlots d' (Storage.File (Some []) true).
Proof.
  exact (created_slot_is_taken Samples.bookingEnv
           (Samples.bookingRequest (Some [Samples.adobo])) (Storage.File (Some []) true)
           _ _ _ eq_refl).
Defined.

Lemma fold_max_bound (values : list Z) (v : Z) :
  In v values → v ≤ fold_right Z.max 0 values.
Proof.
  induction values as [| x rest IH]; simpl; [intros [] |].
  intros [<- | Hin]; [lia |]. specialize (IH Hin). lia.
Qed.

Lemma fold_max_nonneg (values : list Z) : 0 ≤ fold_right Z.max 0 values.
Proof.
  induction values as [| x rest IH]; simpl; lia.
Qed.

Lemma fold_max_in (values : list Z) :
  fold_right Z.max 0 values = 0 ∨ In (fold_right Z.max 0 values) values.
Proof.
  induction values as [| x rest IH]; simpl; [left; reflexivity |].
  destruct (Z.max_spec x (fold_right Z.max 0 rest)) as [[_ ->] | [_ ->]];
    [destruct IH; auto | auto].
Qed.

(** X2. When every stored booking has an identifier below [2 ^ 53], the
    numeric identifier of a created booking is 1 plus the greatest of them
    (1 when there is none, an absent identifier counting for 0): it is at
    least 1 and greater than the identifier of every stored booking, also
    when the stored list is empty or the file cannot be read. *)
Theorem created_booking_id_is_fresh (env : Bookings.Env) (req : Bookings.CreateRequest)
    (f f' : Storage.file Bookings.Booking) (message : string) (booking : Bookings.Booking) :
  (∀ b i, In b (Storage.readJSONFile f) → Bookings.id b = Some i → i < 2 ^ 53) →
  Bookings.createBooking env req f = (Bookings.Created message booking, f') →
  ∃ n,
    Bookings.id booking = Some n
    ∧ 1 ≤ n
    ∧ (n = 1 ∨ ∃ b, In b (Storage.readJSONFile f) ∧ Bookings.id b = Some (n - 1))
    ∧ ∀ b, In b (Storage.readJSONFile f) →
           match Bookings.id b with
           | Some i => i < n
           | None => True
           end.
Proof.
  intros Hsafe Hcreate.
  destruct (created_booking_shape env req f f' message booking Hcreate)
    as (d & s & selected & _ & _ & _ & _ & _ & _ & -> & _).
  set (ids := List.map (fun b => Bookings.id_or_zero (Bookings.id b))
                (Storage.readJSONFile f)).
  assert (Hbound : ∀ b, In b (Storage.readJSONFile f) →
                        Bookings.id_or_zero (Bookings.id b) ≤ fold_right Z.max 0 ids).
  { intros b Hin. apply fold_max_bound, in_map_iff. eauto. }
  pose proof (fold_max_nonneg ids) as Hnonneg.
  destruct (fold_max_in ids) as [Hzero | Hmax].
  - exists 1. unfold Bookings.newBooking, Bookings.newId. fold ids. rewrite Hzero. simpl.
    split; [reflexivity |]. split; [lia |]. split; [left; reflexivity |].
    intros b Hin. specialize (Hbound b Hin). rewrite Hzero in Hbound.
    destruct (Bookings.id b); simpl in Hbound; [lia | exact I].
  - apply in_map_iff in Hmax as (top & Htop & Hin).
    destruct (Bookings.id top) as [i |] eqn:Hi; simpl in Htop.
    + pose proof (Hsafe top i Hin Hi) as Hlt.
      exists (i + 1). unfold Bookings.newBooking, Bookings.newId. fold ids.
      rewrite <- Htop. simpl. rewrite toDouble_small by lia.
      split; [reflexivity |]. split; [lia |]. split.
      * right. exists top. split; [assumption |]. rewrite Hi. f_equal. lia.
      * intros b Hb. specialize (Hbound b Hb).
        destruct (Bookings.id b); simpl in Hbound; [lia | exact I].
    + exists 1. unfold Bookings.newBooking, Bookings.newId. fold ids.
      rewrite <- Htop. simpl.
      split; [reflexivity |]. split; [lia |]. split; [left; reflexivity |].
      intros b Hb. specialize (Hbound b Hb). rewrite <- Htop in Hbound.
      destruct (Bookings.id b); simpl in Hbound; [lia | exact I].
Qed.

Lemma created_booking_id_is_fresh_witness :
  ∃ n,
    Bookings.id
      (Bookings.newBooking Samples.bookingEnv MoreSamples.afternoonRequest
         "2025-06-01" "afternoon" [Samples.adobo] [Samples.morningBooking]) = Some n
    ∧ 1 ≤ n
    ∧ (n = 1 ∨ ∃ b, In b [Samples.morningBooking] ∧ Bookings.id b = Some (n - 1))
    ∧ ∀ b, In b [Samples.morningBooking] →
           match Bookings.id b with
           | Some i => i < n
           | None => True
           end.
Proof.
  refine (created_booking_id_is_fresh Samples.bookingEnv
            MoreSamples.afternoonRequest (Storage.File (Some [Samples.morningBooking]) true)
            _ _ _ _ eq_refl).
  intros b i [<- | []] [= <-]. reflexivity.
Defined.

(** With a stored booking whose identifier is [2 ^ 53], the booking created
    next carries the same identifier. *)
Example booking_id_2_53_is_issued_twice :
  ∃ booking,
    fst (Bookings.createBooking Samples.bookingEnv MoreSamples.afternoonRequest
           (Storage.File (Some [MoreSamples.lastSafeBooking]) true))
    = Bookings.Created "Booking created successfully" booking
    ∧ Bookings.id booking = Bookings.id MoreSamples.lastSafeBooking.
Proof.
  eexists. split; reflexivity.
Qed.

(** X3. On a stored list whose bookings carry no [event_date] and no
    [time_slot], a creation request with its required fields, for one of the
    two daily slots, is answered with the conflict error exactly when the
    availability answer for its date does not list its slot. *)
Theorem conflict_answer_iff_slot_taken (env : Bookings.Env) (req : Bookings.CreateRequest)
    (f : Storage.file Bookings.Booking) (d s : string) :
  Forall Bookings.camelCaseOnly (Storage.readJSONFile f) →
  Bookings.missingRequiredFields req = false →
  Bookings.req_eventDate req = Some d →
  Bookings.req_timeSlot req = Some s →
  In s Bookings.allSlots →
  fst (Bookings.createBooking env req f) = Bookings.Error 400 (Bookings.conflictMessage s d)
  ↔ ¬ In s (BookingQueries.freeSlots d f).
Proof.
  intros Hcamel Hmissing Hd Hs Hslot.
  destruct (missing_fields_false req d s Hd Hs Hmissing) as (Hd' & Hs' & Hdt & _).
  apply str_truthy_true in Hdt.
  pose proof (conflict_iff_unavailable (Storage.readJSONFile f) d s Hcamel Hdt Hslot)
    as Hagree.
  unfold Bookings.createBooking. rewrite Hmissing, Hd', Hs'. cbv zeta.
  rewrite free_slots_spec.
  destruct (List.find _ _) as [b |] eqn:Hfind.
  - split; [| reflexivity]. intros _ [_ Hfree]. apply Hfree, Hagree. eauto.
  - split.
    + destruct (Bookings.readItems _); [| discriminate].
      unfold Storage.writeJSONFile. destruct (Storage.writable f); discriminate.
    + intros Hnot. exfalso. apply Hnot. split; [assumption |].
      intros Hbooked. apply Hagree in Hbooked as [b Hb]. discriminate Hb.
Qed.

Lemma conflict_answer_iff_slot_taken_witness :
  fst (Bookings.createBooking Samples.bookingEnv
         (Samples.bookingRequest (Some [Samples.adobo]))
         (Storage.File (Some [Samples.morningBooking]) true))
  = Bookings.Error 400 (Bookings.conflictMessage "morning" "2025-06-01")
  ↔ ¬ In "morning"
        (BookingQueries.freeSlots "2025-06-01"
           (Storage.File (Some [Samples.morningBooking]) true)).
Proof.
  apply (conflict_answer_iff_slot_taken Samples.bookingEnv
           (Samples.bookingRequest (Some [Samples.adobo]))
           (Storage.File (Some [Samples.morningBooking]) true)).
  - repeat constructor.
  - reflexivity.
  - reflexivity.
  - reflexivity.
  - left. reflexivity.
Defined.



(** X5. [GET /] lists the stored bookings one for one and in their order.
    A booking created through [POST /] is listed under the name of the
    first user whose identifier is 1, or as "Unknown Customer" when there is
    none: the name given in the creation request is not shown. *)
Theorem listing_shows_user_one (env : Bookings.Env) (req : Bookings.CreateRequest)
    (f f' : Storage.file Bookings.Booking) (message : string) (booking : Bookings.Booking)
    (usersFile : Storage.file BookingQueries.User) :
  Bookings.createBooking env req f = (Bookings.Created message booking, f') →
  List.map (fun e => Bookings.bookingId (BookingQueries.shown e))
    (BookingQueries.listBookings usersFile f')
  = List.map Bookings.bookingId (Storage.readJSONFile f')
  ∧ In (BookingQueries.enhance (Storage.readJSONFile usersFile) booking)
       (BookingQueries.listBookings usersFile f')
  ∧ Bookings.customerName
      (BookingQueries.shown (BookingQueries.enhance (Storage.readJSONFile usersFile) booking))
    = match List.find (BookingQueries.isUser 1) (Storage.readJSONFile usersFile) with
      | Some user =>
          Js.interpolate (BookingQueries.firstName user) ++ " "
          ++ Js.interpolate (BookingQueries.lastName user)
      | None => "Unknown Customer"
      end.
Proof.
  intros Hcreate.
  destruct (created_booking_shape env req f f' message booking Hcreate)
    as (d & s & selected & _ & _ & _ & _ & _ & _ & Hbooking & ->).
  unfold BookingQueries.listBookings. rewrite read_written. split; [| split].
  - rewrite List.map_map. apply List.map_ext. intros b.
    unfold BookingQueries.enhance. destruct (List.find _ _); reflexivity.
  - apply in_map. rewrite in_app_iff. simpl. auto.
  - unfold BookingQueries.enhance. rewrite Hbooking. simpl.
    destruct (List.find _ _); reflexivity.
Qed.

Lemma listing_shows_user_one_witness :
  Bookings.customerName
    (BookingQueries.shown
       (BookingQueries.enhance []
          (Bookings.newBooking Samples.bookingEnv
             (Samples.bookingRequest (Some [Samples.adobo]))
             "2025-06-01" "morning" [Samples.adobo] [])))
  = "Unknown Customer".
Proof.
  exact (proj2 (proj2 (listing_shows_user_one Samples.bookingEnv
           (Samples.bookingRequest (Some [Samples.adobo])) (Storage.File (Some []) true)
           _ _ _ (Storage.File (Some []) true) eq_refl))).
Defined.

(** ** Promo codes: creation, validation and the identifiers *)

Lemma find_ext {A} (p q : A → bool) (l : list A) :
  (∀ x, p x = q x) → List.find p l = List.find q l.
Proof.
  intros Hpq. induction l as [| x l IH]; simpl; [reflexivity |].
  now rewrite Hpq, IH.
Qed.

(** X6. Validation does not depend on the case of the request code: two
    non-empty codes that are equal up to case get the same answer. *)
Theorem validation_ignores_case (clock : PromoCodes.Clock) (c c' : string)
    (f : Storage.file PromoCodes.PromoCode) :
  c ≠ "" → c' ≠ "" →
  Js.toUpperCase c = Js.toUpperCase c' →
  PromoCodes.validatePromo clock (Some c) f = PromoCodes.validatePromo clock (Some c') f.
Proof.
  intros Hc Hc' Hsame. apply str_truthy_true in Hc, Hc'.
  unfold PromoCodes.validatePromo. rewrite Hc, Hc'. cbn [negb].
  rewrite (find_ext (PromoCodes.sameCode c) (PromoCodes.sameCode c'));
    [reflexivity |].
  intros p. unfold PromoCodes.sameCode. now rewrite Hsame.
Qed.

Lemma validation_ignores_case_witness :
  PromoCodes.validatePromo Samples.promoClock (Some "save10")
    (Storage.File (Some [Samples.save10]) true)
  = PromoCodes.validatePromo Samples.promoClock (Some "Save10")
      (Storage.File (Some [Samples.save10]) true).
Proof.
  apply validation_ignores_case; [discriminate | discriminate | reflexivity].
Defined.



Lemma created_promo_shape (clock : PromoCodes.Clock) (req : PromoCodes.CreateRequest)
    (f f' : Storage.file PromoCodes.PromoCode) (status : Z) (promo : PromoCodes.PromoCode) :
  PromoCodes.createPromo clock req f = (PromoCodes.Ok status promo, f') →
  ∃ c percent,
    PromoCodes.req_code req = Some c ∧ c ≠ ""
    ∧ PromoCodes.req_discountPercent req = Some percent ∧ 1 ≤ percent ≤ 100
    ∧ List.find (PromoCodes.sameCode c) (Storage.readJSONFile f) = None
    ∧ promo = PromoCodes.newPromoCode clock req c percent (Storage.readJSONFile f)
    ∧ f' = Storage.File (Some (Storage.readJSONFile f ++ [promo])%list) true.
Proof.
  unfold PromoCodes.createPromo.
  destruct (PromoCodes.req_code req) as [c |]; [| discriminate].
  destruct (PromoCodes.req_discountPercent req) as [percent |]; [| discriminate].
  destruct (negb (Js.str_truthy c) || (percent =? 0)) eqn:Hrequired; [discriminate |].
  destruct ((percent <? 1) || (100 <? percent)) eqn:Hrange; [discriminate |].
  destruct (List.find _ _) eqn:Hfind; [discriminate |].
  unfold Storage.writeJSONFile. destruct (Storage.writable f); [| discriminate].
  intros [= <- <- <-]. exists c, percent.
  apply orb_false_iff in Hrequired as [Hc _], Hrange as [Hlow Hhigh].
  apply negb_false_iff, str_truthy_true in Hc.
  apply Z.ltb_ge in Hlow, Hhigh. repeat split; auto.
Qed.

Lemma find_app_none {A} (p : A → bool) (l l' : list A) :
  List.find p l = None → List.find p (l ++ l') = List.find p l'.
Proof.
  induction l as [| x l IH]; simpl; [reflexivity |].
  destruct (p x); [discriminate | exact IH].
Qed.

Lemma is_space_upper (c : ascii) : Js.is_space (Js.upper_char c) = Js.is_space c.
Proof.
  destruct c as [[] [] [] [] [] [] [] []]; reflexivity.
Qed.

Lemma toUpperCase_trimStart (s : string) :
  Js.toUpperCase (Js.trimStart s) = Js.trimStart (Js.toUpperCase s).
Proof.
  induction s as [| c s IH]; simpl; [reflexivity |].
  rewrite is_space_upper. destruct (Js.is_space c); [exact IH | reflexivity].
Qed.

Lemma toUpperCase_of_list (l : list ascii) :
  Js.toUpperCase (string_of_list_ascii l) = string_of_list_ascii (List.map Js.upper_char l).
Proof.
  induction l as [| c l IH]; simpl; [reflexivity | now rewrite IH].
Qed.

Lemma list_of_toUpperCase (s : string) :
  list_ascii_of_string (Js.toUpperCase s)
  = List.map Js.upper_char (list_ascii_of_string s).
Proof.
  induction s as [| c s IH]; simpl; [reflexivity | now rewrite IH].
Qed.

Lemma toUpperCase_reverse (s : string) :
  Js.toUpperCase (Js.reverse_string s) = Js.reverse_string (Js.toUpperCase s).
Proof.
  unfold Js.reverse_string.
  now rewrite toUpperCase_of_list, list_of_toUpperCase, List.map_rev.
Qed.

Lemma toUpperCase_trim (s : string) :
  Js.toUpperCase (Js.trim s) = Js.trim (Js.toUpperCase s).
Proof.
  unfold Js.trim, Js.trimEnd.
  now rewrite toUpperCase_reverse, toUpperCase_trimStart, toUpperCase_reverse,
    toUpperCase_trimStart.
Qed.

(** X8. After a promo code is created from the request code [c], a
    validation request with [c] itself (in any case) reaches the new promo
    code exactly when [c] has no white space at its ends: then the stored
    code is the one that is checked; otherwise the stored code is the
    trimmed one and [c] is answered with "Invalid promo code". *)
Theorem created_code_is_reached_iff_trimmed (clock clock' : PromoCodes.Clock)
    (req : PromoCodes.CreateRequest) (f f' : Storage.file PromoCodes.PromoCode)
    (status : Z) (promo : PromoCodes.PromoCode) (c : string) :
  PromoCodes.createPromo clock req f = (PromoCodes.Ok status promo, f') →
  PromoCodes.req_code req = Some c →
  (Js.trim (Js.toUpperCase c) = Js.toUpperCase c →
   PromoCodes.validatePromo clock' (Some c) f'
   = (match PromoCodes.firstFailure (PromoCodes.orderedChecks clock' promo) with
      | Some reason => PromoCodes.Error 400 reason
      | None => PromoCodes.Ok 200 promo
      end, f'))
  ∧ (Js.trim (Js.toUpperCase c) ≠ Js.toUpperCase c →
     PromoCodes.validatePromo clock' (Some c) f'
     = (PromoCodes.Error 404 "Invalid promo code", f')).
Proof.
  intros Hcreate Hc.
  destruct (created_promo_shape clock req f f' status promo Hcreate)
    as (c0 & percent & Hc0 & Hne & _ & _ & Hfind & Hpromo & ->).
  rewrite Hc in Hc0. injection Hc0 as <-.
  assert (Hcode : Js.toUpperCase (PromoCodes.code promo) = Js.trim (Js.toUpperCase c)).
  { rewrite Hpromo. simpl. now rewrite toUpperCase_trim, toUpperCase_idem. }
  split; intros Htrim.
  - apply validate_matched; [assumption |].
    rewrite (find_app_none _ _ _ Hfind). simpl. unfold PromoCodes.sameCode.
    now rewrite Hcode, Htrim, String.eqb_refl.
  - unfold PromoCodes.validatePromo. apply str_truthy_true in Hne. rewrite Hne.
    cbn [negb]. rewrite read_written, (find_app_none _ _ _ Hfind). simpl.
    unfold PromoCodes.sameCode. rewrite Hcode.
    destruct (String.eqb _ _) eqn:Heq; [| reflexivity].
    apply String.eqb_eq in Heq. contradiction.
Qed.

Lemma created_code_is_reached_iff_trimmed_witness :
  ∃ promo,
    PromoCodes.createPromo Samples.promoClock (Samples.promoRequest " save10")
      (Storage.File (Some []) true)
    = (PromoCodes.Ok 201 promo, Storage.File (Some [promo]) true)
    ∧ PromoCodes.validatePromo Samples.promoClock (Some " save10")
        (Storage.File (Some [promo]) true)
      = (PromoCodes.Error 404 "Invalid promo code", Storage.File (Some [promo]) true).
Proof.
  eexists. split; [reflexivity |].
  refine (proj2 (created_code_is_reached_iff_trimmed Samples.promoClock Samples.promoClock
                   (Samples.promoRequest " save10") (Storage.File (Some []) true)
                   _ 201 _ " save10" eq_refl eq_refl) _).
  discriminate.
Defined.

Lemma modifyAt_success (promoId : option Z) (failure : string)
    (change : nat → PromoCodes.PromoCode → list PromoCodes.PromoCode
              → list PromoCodes.PromoCode * PromoCodes.PromoCode)
    (f f' : Storage.file PromoCodes.PromoCode) (status : Z) (answer : PromoCodes.PromoCode) :
  PromoCodes.modifyAt promoId failure change f = (PromoCodes.Ok status answer, f') →
  ∃ i current,
    Array.findIndex (PromoCodes.hasId promoId) (Storage.readJSONFile f) = Some i
    ∧ Storage.readJSONFile f !! i = Some current
    ∧ PromoCodes.hasId promoId current = true
    ∧ answer = snd (change i current (Storage.readJSONFile f))
    ∧ f' = Storage.File (Some (fst (change i current (Storage.readJSONFile f)))) true.
Proof.
  unfold PromoCodes.modifyAt. cbv zeta.
  destruct (Array.findIndex _ _) as [i |] eqn:Hindex; [| discriminate].
  destruct (findIndex_Some _ _ _ Hindex) as (current & Hi & Hid). rewrite Hi.
  destruct (change i current (Storage.readJSONFile f)) as [promoCodes' answer'] eqn:Hchange.
  unfold Storage.writeJSONFile. destruct (Storage.writable f); [| discriminate].
  intros [= <- <- <-]. exists i, current. rewrite Hchange. repeat split; auto.
Qed.





Lemma maximum_bound (x : Z) (l : list Z) (v : Z) :
  In v (x :: l) → v ≤ PromoCodes.maximum x l.
Proof.
  revert x. induction l as [| y l IH]; intros x; simpl.
  - intros [<- | []]. lia.
  - intros [<- | Hin]; [lia |]. specialize (IH y Hin). simpl in IH. lia.
Qed.

Lemma maximum_in (x : Z) (l : list Z) : In (PromoCodes.maximum x l) (x :: l).
Proof.
  revert x. induction l as [| y l IH]; intros x; [left; reflexivity |].
  change (PromoCodes.maximum x (y :: l)) with (Z.max x (PromoCodes.maximum y l)).
  destruct (Z.max_spec x (PromoCodes.maximum y l)) as [[_ ->] | [_ ->]];
    [right; apply IH | left; reflexivity].
Qed.

Lemma promo_newId_fresh (promoCodes : list PromoCodes.PromoCode) (p : PromoCodes.PromoCode) :
  (∀ q i, In q promoCodes → PromoCodes.id q = Some i → Z.abs i < 2 ^ 53) →
  In p promoCodes →
  PromoCodes.id_or_zero (PromoCodes.id p) < PromoCodes.newId promoCodes.
Proof.
  intros Hsafe Hin. unfold PromoCodes.newId.
  pose proof (in_map (fun q => PromoCodes.id_or_zero (PromoCodes.id q)) _ _ Hin) as Hmap.
  destruct (List.map _ promoCodes) as [| x l] eqn:Hids; [destruct Hmap |].
  pose proof (maximum_bound x l _ Hmap).
  assert (Z.abs (PromoCodes.maximum x l) < 2 ^ 53).
  { pose proof (maximum_in x l) as Hmax. rewrite <- Hids in Hmax.
    apply in_map_iff in Hmax as (q & <- & Hq).
    destruct (PromoCodes.id q) as [i |] eqn:Hi; simpl; [eauto | lia]. }
  rewrite toDouble_small by lia. lia.
Qed.

Lemma hasId_true (promoId : option Z) (p : PromoCodes.PromoCode) :
  PromoCodes.hasId promoId p = true →
  PromoCodes.id p = Some (PromoCodes.id_or_zero promoId).
Proof.
  unfold PromoCodes.hasId.
  destruct (PromoCodes.id p) as [i |], promoId as [j |]; try discriminate.
  intros Heq. apply Z.eqb_eq in Heq. now subst.
Qed.

Lemma modifyAt_contents_id (promoId : option Z) (failure : string)
    (change : nat → PromoCodes.PromoCode → list PromoCodes.PromoCode
              → list PromoCodes.PromoCode * PromoCodes.PromoCode)
    (f : Storage.file PromoCodes.PromoCode) :
  Storage.readJSONFile (snd (PromoCodes.modifyAt promoId failure change f))
  = Storage.readJSONFile f
  ∨ ∃ i current,
      Storage.readJSONFile f !! i = Some current
      ∧ PromoCodes.hasId promoId current = true
      ∧ Storage.readJSONFile (snd (PromoCodes.modifyAt promoId failure change f))
        = fst (change i current (Storage.readJSONFile f)).
Proof.
  unfold PromoCodes.modifyAt. cbv zeta.
  destruct (Array.findIndex _ _) as [i |] eqn:Hindex; [| now left].
  destruct (findIndex_Some _ _ _ Hindex) as (current & Hi & Hid). rewrite Hi.
  destruct (change i current (Storage.readJSONFile f)) as [promoCodes' answer] eqn:Hchange.
  unfold Storage.writeJSONFile. destruct (Storage.writable f); simpl; [| now left].
  right. exists i, current. rewrite Hchange. auto.
Qed.

(** X10. If no two stored promo codes carry the same identifier, this
    remains so after every promo-code operation: creation, as long as the
    stored identifiers are below [2 ^ 53] in magnitude, so that adding 1 is
    exact; update (which forces the identifier of the address); toggle; and
    deletion. *)
Theorem promo_ids_stay_unique (clock : PromoCodes.Clock)
    (f : Storage.file PromoCodes.PromoCode) :
  Invariants.promoIdsUnique (Storage.readJSONFile f) →
  (∀ req,
      (∀ q i, In q (Storage.readJSONFile f) → PromoCodes.id q = Some i → Z.abs i < 2 ^ 53) →
      Invariants.promoIdsUnique
        (Storage.readJSONFile (snd (PromoCodes.createPromo clock req f))))
  ∧ (∀ promoId updates,
        Invariants.promoIdsUnique
          (Storage.readJSONFile (snd (PromoCodes.updatePromo clock promoId updates f))))
  ∧ (∀ promoId active0,
        Invariants.promoIdsUnique
          (Storage.readJSONFile (snd (PromoCodes.togglePromo clock promoId active0 f))))
  ∧ (∀ promoId,
        Invariants.promoIdsUnique
          (Storage.readJSONFile (snd (PromoCodes.deletePromo promoId f)))).
Proof.
  intros Hunique. unfold Invariants.promoIdsUnique in *. repeat split.
  - intros req Hsafe.
    destruct (PromoCodes.createPromo clock req f) as [[status promo | status error] f']
      eqn:Hcreate.
    + destruct (created_promo_shape clock req f f' status promo Hcreate)
        as (c & percent & _ & _ & _ & _ & _ & Hpromo & ->).
      simpl. rewrite read_written, List.map_app. simpl.
      apply NoDup_snoc; [assumption |]. rewrite Hpromo. simpl.
      rewrite in_map_iff. intros (q & Hq & Hin).
      pose proof (promo_newId_fresh _ q Hsafe Hin) as Hfresh.
      rewrite Hq in Hfresh. simpl in Hfresh. lia.
    + assert (Hsame : f' = f); [| now rewrite Hsame].
      revert Hcreate. unfold PromoCodes.createPromo.
      destruct (PromoCodes.req_code req); [| congruence].
      destruct (PromoCodes.req_discountPercent req); [| congruence].
      destruct (_ || _); [congruence |]. destruct (_ || _); [congruence |].
      destruct (List.find _ _); [congruence |].
      unfold Storage.writeJSONFile. destruct (Storage.writable f); [discriminate | congruence].
  - intros promoId updates. unfold PromoCodes.updatePromo.
    match goal with
    | |- context [PromoCodes.modifyAt ?a ?b ?c ?d] =>
        destruct (modifyAt_contents_id a b c d) as [-> | (i & current & Hi & Hid & ->)];
        [assumption |]
    end.
    simpl. erewrite map_insert_same; [eassumption | eassumption |].
    simpl. symmetry. now apply hasId_true.
  - intros promoId active0. unfold PromoCodes.togglePromo.
    match goal with
    | |- context [PromoCodes.modifyAt ?a ?b ?c ?d] =>
        destruct (modifyAt_contents a b c d) as [-> | (i & current & Hi & ->)];
        [assumption |]
    end.
    simpl. erewrite map_insert_same; [eassumption | eassumption | reflexivity].
  - intros promoId. unfold PromoCodes.deletePromo.
    match goal with
    | |- context [PromoCodes.modifyAt ?a ?b ?c ?d] =>
        destruct (modifyAt_contents a b c d) as [-> | (i & current & Hi & ->)];
        [assumption |]
    end.
    simpl. now apply NoDup_map_delete.
Qed.

Lemma promo_ids_stay_unique_witness :
  Invariants.promoIdsUnique
    (Storage.readJSONFile
       (snd (PromoCodes.createPromo Samples.promoClock (Samples.promoRequest "FIESTA")
               (Storage.File (Some [Samples.save10; Samples.welcome5]) true)))).
Proof.
  apply (proj1 (promo_ids_stay_unique Samples.promoClock
                  (Storage.File (Some [Samples.save10; Samples.welcome5]) true)
                  ltac:(unfold Invariants.promoIdsUnique; simpl;
                        repeat constructor; simpl; intuition discriminate))).
  intros q i [<- | [<- | []]] [= <-]; reflexivity.
Defined.

(** ** Menu: what the operations keep and how they compose *)

Lemma menu_modifyAt_contents (itemId : option Z) (message failure : string)
    (change : nat → Menu.MenuItem → list Menu.MenuItem
              → list Menu.MenuItem * Menu.MenuItem)
    (f : Storage.file Menu.MenuItem) :
  Storage.readJSONFile (snd (Menu.modifyAt itemId message failure change f))
  = Storage.readJSONFile f
  ∨ ∃ i current,
      Storage.readJSONFile f !! i = Some current
      ∧ Menu.hasId itemId current = true
      ∧ Storage.readJSONFile (snd (Menu.modifyAt itemId message failure change f))
        = fst (change i current (Storage.readJSONFile f)).
Proof.
  unfold Menu.modifyAt. cbv zeta.
  destruct (Array.findIndex _ _) as [i |] eqn:Hindex; [| now left].
  destruct (findIndex_Some _ _ _ Hindex) as (current & Hi & Hid). rewrite Hi.
  destruct (change i current (Storage.readJSONFile f)) as [menuItems' answer] eqn:Hchange.
  unfold Storage.writeJSONFile. destruct (Storage.writable f); simpl; [| now left].
  right. exists i, current. rewrite Hchange. auto.
Qed.

Lemma menu_modifyAt_success (itemId : option Z) (message failure : string)
    (change : nat → Menu.MenuItem → list Menu.MenuItem
              → list Menu.MenuItem * Menu.MenuItem)
    (f f' : Storage.file Menu.MenuItem) (status : Z) (message' : string)
    (answer : Menu.MenuItem) :
  Menu.modifyAt itemId message failure change f = (Menu.Ok status message' answer, f') →
  ∃ i current,
    Array.findIndex (Menu.hasId itemId) (Storage.readJSONFile f) = Some i
    ∧ Storage.readJSONFile f !! i = Some current
    ∧ Menu.hasId itemId current = true
    ∧ answer = snd (change i current (Storage.readJSONFile f))
    ∧ f' = Storage.File (Some (fst (change i current (Storage.readJSONFile f)))) true.
Proof.
  unfold Menu.modifyAt. cbv zeta.
  destruct (Array.findIndex _ _) as [i |] eqn:Hindex; [| discriminate].
  destruct (findIndex_Some _ _ _ Hindex) as (current & Hi & Hid). rewrite Hi.
  destruct (change i current (Storage.readJSONFile f)) as [menuItems' answer'] eqn:Hchange.
  unfold Storage.writeJSONFile. destruct (Storage.writable f); [| discriminate].
  intros [= <- <- <- <-]. exists i, current. rewrite Hchange. repeat split; auto.
Qed.

Lemma created_item_shape (req : Menu.CreateRequest) (f f' : Storage.file Menu.MenuItem)
    (status : Z) (message : string) (item : Menu.MenuItem) :
  Menu.createMenuItem req f = (Menu.Ok status message item, f') →
  ∃ price0,
    Menu.req_pricePerServing req = Some price0
    ∧ Menu.belowZero price0 = false
    ∧ Menu.pricePerServing item = Menu.parseFloat price0
    ∧ Menu.id item = Menu.storedId (Menu.newId (Storage.readJSONFile f))
    ∧ f' = Storage.File (Some (Storage.readJSONFile f ++ [item])%list) true.
Proof.
  unfold Menu.createMenuItem.
  destruct (Menu.req_itemName req) as [itemName0 |]; [| discriminate].
  destruct (Menu.req_category req) as [category0 |]; [| discriminate].
  destruct (Menu.req_pricePerServing req) as [price0 |]; [| discriminate].
  destruct (_ || _); [discriminate |].
  destruct (Menu.belowZero price0) eqn:Hprice; [discriminate |].
  unfold Storage.writeJSONFile. destruct (Storage.writable f); [| discriminate].
  intros [= <- <- <- <-]. exists price0. repeat split; auto.
Qed.

Lemma create_item_contents (req : Menu.CreateRequest) (f : Storage.file Menu.MenuItem) :
  Storage.readJSONFile (snd (Menu.createMenuItem req f)) = Storage.readJSONFile f
  ∨ ∃ status message item,
      Menu.createMenuItem req f
      = (Menu.Ok status message item,
         Storage.File (Some (Storage.readJSONFile f ++ [item])%list) true).
Proof.
  destruct (Menu.createMenuItem req f) as [[status message item | status error] f']
    eqn:Hcreate.
  - right. exists status, message, item.
    destruct (created_item_shape req f f' status message item Hcreate)
      as (_ & _ & _ & _ & _ & ->). reflexivity.
  - left. revert Hcreate. unfold Menu.createMenuItem.
    destruct (Menu.req_itemName req); [| now intros [= _ _ <-]].
    destruct (Menu.req_category req); [| now intros [= _ _ <-]].
    destruct (Menu.req_pricePerServing req); [| now intros [= _ _ <-]].
    destruct (_ || _); [now intros [= _ _ <-] |].
    destruct (Menu.belowZero _); [now intros [= _ _ <-] |].
    unfold Storage.writeJSONFile. destruct (Storage.writable f); [discriminate |].
    now intros [= _ _ <-].
Qed.

Lemma parseFloat_not_negative (x : float) :
  PrimFloat.ltb x 0 = false →
  PrimFloat.ltb (Menu.parseFloat (Menu.PriceNumber x)) 0 = false.
Proof.
  simpl. destruct (PrimFloat.is_zero x); [reflexivity | auto].
Qed.

(** X11. As long as the price of a request, when there is one, is a JSON
    number, no menu operation stores a price below zero: if no stored item
    has a negative price, this remains so after creation, update, deletion
    and the availability toggle. A price that is not a number is compared
    after conversion to a number and stored as [parseFloat] reads it: the
    text [-5abc], which converts to no number and reads as -5, passes the
    check of the update and leaves the price -5 in the list. *)
Theorem menu_prices_stay_not_negative (f : Storage.file Menu.MenuItem) :
  Invariants.pricesNotNegative (Storage.readJSONFile f) →
  (∀ req x,
      Menu.req_pricePerServing req = Some (Menu.PriceNumber x) →
      Invariants.pricesNotNegative
        (Storage.readJSONFile (snd (Menu.createMenuItem req f))))
  ∧ (∀ req,
        Menu.req_pricePerServing req = None →
        Invariants.pricesNotNegative
          (Storage.readJSONFile (snd (Menu.createMenuItem req f))))
  ∧ (∀ itemId updates x,
        Menu.upd_pricePerServing updates = Some (Menu.PriceNumber x) →
        Invariants.pricesNotNegative
          (Storage.readJSONFile (snd (Menu.updateMenuItem itemId updates f))))
  ∧ (∀ itemId updates,
        Menu.upd_pricePerServing updates = None →
        Invariants.pricesNotNegative
          (Storage.readJSONFile (snd (Menu.updateMenuItem itemId updates f))))
  ∧ (∀ itemId, Invariants.pricesNotNegative
                 (Storage.readJSONFile (snd (Menu.deleteMenuItem itemId f))))
  ∧ (∀ itemId, Invariants.pricesNotNegative
                 (Storage.readJSONFile (snd (Menu.toggleAvailability itemId f))))
  ∧ ∃ updated,
      Menu.updateMenuItem (Some 4) MoreSamples.textPriceUpdate
        (Storage.File (Some [Samples.lumpia; Samples.pancit]) true)
      = (Menu.Ok 200 "Menu item updated successfully" updated,
         Storage.File (Some [updated; Samples.pancit]) true)
      ∧ Menu.pricePerServing updated = (-5)%float
      ∧ PrimFloat.ltb (Menu.pricePerServing updated) 0 = true.
Proof.
  intros Hok. unfold Invariants.pricesNotNegative in *.
  assert (Hcreate : ∀ req,
             (∀ price0, Menu.req_pricePerServing req = Some price0 →
                        ∃ x, price0 = Menu.PriceNumber x) →
             Forall (fun item => PrimFloat.ltb (Menu.pricePerServing item) 0 = false)
               (Storage.readJSONFile (snd (Menu.createMenuItem req f)))).
  { intros req Hnumber.
    destruct (create_item_contents req f) as [-> | (status & message & item & Hcreate)];
      [assumption |].
    destruct (created_item_shape req f _ status message item Hcreate)
      as (price0 & Hreq & Hprice & Hitem & _ & _).
    destruct (Hnumber price0 Hreq) as [x ->].
    rewrite Hcreate. simpl snd. rewrite read_written. apply Forall_app.
    split; [assumption |].
    constructor; [| constructor]. rewrite Hitem. now apply parseFloat_not_negative. }
  assert (Hupdate : ∀ itemId updates,
             (∀ price0, Menu.upd_pricePerServing updates = Some price0 →
                        ∃ x, price0 = Menu.PriceNumber x) →
             Forall (fun item => PrimFloat.ltb (Menu.pricePerServing item) 0 = false)
               (Storage.readJSONFile (snd (Menu.updateMenuItem itemId updates f)))).
  { intros itemId updates Hnumber. unfold Menu.updateMenuItem.
    destruct (Menu.negativePrice updates) eqn:Hnegative; [assumption |].
    match goal with
    | |- context [Menu.modifyAt ?a ?b ?c ?d ?e] =>
        destruct (menu_modifyAt_contents a b c d e)
          as [-> | (i & current & Hi & Hid & ->)]; [assumption |]
    end.
    simpl. apply Forall_insert; [assumption |].
    unfold Menu.applyUpdates, Menu.negativePrice in *. cbn [Menu.pricePerServing].
    destruct (Menu.upd_pricePerServing updates) as [price0 |].
    + destruct (Hnumber price0 eq_refl) as [x ->]. now apply parseFloat_not_negative.
    + rewrite Forall_forall in Hok. apply Hok.
      eapply list_elem_of_lookup_2. exact Hi. }
  split; [intros req x Hx; apply Hcreate; intros price0; rewrite Hx; intros [= <-]; eauto |].
  split; [intros req Hnone; apply Hcreate; intros price0; rewrite Hnone; discriminate |].
  split; [intros itemId updates x Hx; apply Hupdate; intros price0; rewrite Hx;
          intros [= <-]; eauto |].
  split; [intros itemId updates Hnone; apply Hupdate; intros price0; rewrite Hnone;
          discriminate |].
  split; [| split].
  - intros itemId. unfold Menu.deleteMenuItem.
    match goal with
    | |- context [Menu.modifyAt ?a ?b ?c ?d ?e] =>
        destruct (menu_modifyAt_contents a b c d e)
          as [-> | (i & current & Hi & Hid & ->)]; [assumption |]
    end.
    simpl. now apply Forall_delete.
  - intros itemId. unfold Menu.toggleAvailability.
    match goal with
    | |- context [Menu.modifyAt ?a ?b ?c ?d ?e] =>
        destruct (menu_modifyAt_contents a b c d e)
          as [-> | (i & current & Hi & Hid & ->)]; [assumption |]
    end.
    simpl. apply Forall_insert; [assumption |]. simpl.
    rewrite Forall_forall in Hok. apply Hok.
    eapply list_elem_of_lookup_2. exact Hi.
  - eexists. split; [reflexivity |]. split; reflexivity.
Qed.

Lemma menu_prices_stay_not_negative_witness :
  Invariants.pricesNotNegative
    (Storage.readJSONFile
       (snd (Menu.updateMenuItem (Some 4) (Samples.priceUpdate 135%float)
               (Storage.File (Some [Samples.lumpia; Samples.pancit]) true)))).
Proof.
  apply (proj1 (proj2 (proj2 (menu_prices_stay_not_negative
                                (Storage.File (Some [Samples.lumpia; Samples.pancit]) true)
                                ltac:(repeat constructor))))
           (Some 4) (Samples.priceUpdate 135%float) 135%float eq_refl).
Defined.

Lemma menu_hasId_true (itemId : option Z) (item : Menu.MenuItem) :
  Menu.hasId itemId item = true → Menu.id item = itemId ∧ ∃ n, itemId = Some n.
Proof.
  unfold Menu.hasId.
  destruct (Menu.id item) as [i |], itemId as [j |]; try discriminate.
  intros Heq. apply Z.eqb_eq in Heq. subst. eauto.
Qed.

Lemma menu_hasId_iff (itemId : option Z) (item : Menu.MenuItem) :
  Menu.hasId itemId item = true ↔ ∃ n, itemId = Some n ∧ Menu.id item = Some n.
Proof.
  unfold Menu.hasId.
  destruct (Menu.id item) as [i |], itemId as [j |];
    try (split; [discriminate | intros (n & [=] & [=])]).
  rewrite Z.eqb_eq. split.
  - intros ->. eauto.
  - intros (n & [= ->] & [= ->]). reflexivity.
Qed.

(** The stored identifiers are below [2 ^ 53] in magnitude. *)
Lemma menu_newId_safe (menuItems : list Menu.MenuItem) :
  menuItems ≠ [] →
  (∀ item i, In item menuItems → Menu.id item = Some i → Z.abs i < 2 ^ 53) →
  ∃ m, Menu.newId menuItems = Menu.Finite (m + 1)
       ∧ ∀ item, In item menuItems → Menu.id_or_zero (Menu.id item) ≤ m.
Proof.
  intros Hne Hsafe.
  destruct (mathMax_nonempty
              (List.map (fun item => Menu.id_or_zero (Menu.id item)) menuItems))
    as (m & Hmax & Hin & Hle).
  { destruct menuItems; [congruence | discriminate]. }
  exists m. split.
  - unfold Menu.newId. rewrite Hmax. simpl. rewrite toDouble_small; [reflexivity |].
    apply in_map_iff in Hin as (item & <- & Hitem).
    destruct (Menu.id item) as [i |] eqn:Hi; simpl; [| lia].
    specialize (Hsafe item i Hitem Hi). lia.
  - intros item Hitem. apply Hle, in_map_iff. eauto.
Qed.

Lemma menu_newId_not_stored (menuItems : list Menu.MenuItem) :
  menuItems ≠ [] →
  (∀ item i, In item menuItems → Menu.id item = Some i → Z.abs i < 2 ^ 53) →
  ¬ In (Menu.storedId (Menu.newId menuItems)) (List.map Menu.id menuItems).
Proof.
  intros Hne Hsafe.
  destruct (menu_newId_safe menuItems Hne Hsafe) as (m & -> & Hle).
  simpl. rewrite in_map_iff.
  intros (item & Hid & Hin). specialize (Hle item Hin).
  rewrite Hid in Hle. simpl in Hle. lia.
Qed.

(** X12. If no two stored menu items carry the same identifier, this
    remains so after creation, as long as the stored identifiers are below
    [2 ^ 53] in magnitude, so that adding 1 is exact; and after update,
    deletion and the availability toggle. *)
Theorem menu_ids_stay_unique (f : Storage.file Menu.MenuItem) :
  Invariants.menuIdsUnique (Storage.readJSONFile f) →
  (∀ req,
      (∀ item i, In item (Storage.readJSONFile f) → Menu.id item = Some i →
                 Z.abs i < 2 ^ 53) →
      Invariants.menuIdsUnique
        (Storage.readJSONFile (snd (Menu.createMenuItem req f))))
  ∧ (∀ itemId updates,
        Invariants.menuIdsUnique
          (Storage.readJSONFile (snd (Menu.updateMenuItem itemId updates f))))
  ∧ (∀ itemId, Invariants.menuIdsUnique
                 (Storage.readJSONFile (snd (Menu.deleteMenuItem itemId f))))
  ∧ (∀ itemId, Invariants.menuIdsUnique
                 (Storage.readJSONFile (snd (Menu.toggleAvailability itemId f)))).
Proof.
  intros Hunique. unfold Invariants.menuIdsUnique in *. repeat split.
  - intros req Hsafe.
    destruct (create_item_contents req f) as [-> | (status & message & item & Hcreate)];
      [assumption |].
    destruct (created_item_shape req f _ status message item Hcreate)
      as (_ & _ & _ & _ & Hid & _).
    rewrite Hcreate. simpl. rewrite read_written, List.map_app. simpl.
    apply NoDup_snoc; [assumption |]. rewrite Hid.
    destruct (Storage.readJSONFile f) as [| first rest] eqn:Hread; [intros [] |].
    apply menu_newId_not_stored; [discriminate | assumption].
  - intros itemId updates. unfold Menu.updateMenuItem.
    destruct (Menu.negativePrice updates); [assumption |].
    match goal with
    | |- context [Menu.modifyAt ?a ?b ?c ?d ?e] =>
        destruct (menu_modifyAt_contents a b c d e)
          as [-> | (i & current & Hi & Hid & ->)]; [assumption |]
    end.
    simpl. erewrite map_insert_same; [eassumption | eassumption | reflexivity].
  - intros itemId. unfold Menu.deleteMenuItem.
    match goal with
    | |- context [Menu.modifyAt ?a ?b ?c ?d ?e] =>
        destruct (menu_modifyAt_contents a b c d e)
          as [-> | (i & current & Hi & Hid & ->)]; [assumption |]
    end.
    simpl. now apply NoDup_map_delete.
  - intros itemId. unfold Menu.toggleAvailability.
    match goal with
    | |- context [Menu.modifyAt ?a ?b ?c ?d ?e] =>
        destruct (menu_modifyAt_contents a b c d e)
          as [-> | (i & current & Hi & Hid & ->)]; [assumption |]
    end.
    simpl. erewrite map_insert_same; [eassumption | eassumption | reflexivity].
Qed.

Lemma menu_ids_stay_unique_witness :
  Invariants.menuIdsUnique
    (Storage.readJSONFile
       (snd (Menu.createMenuItem Samples.menuRequest
               (Storage.File (Some [Samples.lumpia; Samples.pancit]) true)))).
Proof.
  apply (proj1 (menu_ids_stay_unique
                  (Storage.File (Some [Samples.lumpia; Samples.pancit]) true)
                  ltac:(unfold Invariants.menuIdsUnique; simpl;
                        repeat constructor; simpl; intuition discriminate))).
  intros item i [<- | [<- | []]] [= <-]; reflexivity.
Defined.

(** X13. A successful update replaces one stored item, the first one with
    the identifier of the address, and leaves every other position of the
    list as it was. The new item keeps the identifier and every field that
    the request body does not carry; a name or a category that the body
    carries is stored trimmed, a description, an image address or an
    availability as given, and a price that is a number other than zero as
    given. *)
Theorem update_touches_only_given_fields (itemId : option Z) (updates : Menu.Updates)
    (f f' : Storage.file Menu.MenuItem) (status : Z) (message : string)
    (updated : Menu.MenuItem) :
  Menu.updateMenuItem itemId updates f = (Menu.Ok status message updated, f') →
  ∃ i current n,
    Storage.readJSONFile f !! i = Some current
    ∧ itemId = Some n ∧ Menu.id current = Some n
    ∧ (∀ j item, (j < i)%nat → Storage.readJSONFile f !! j = Some item →
                 Menu.id item ≠ Some n)
    ∧ f' = Storage.File (Some (<[i := updated]> (Storage.readJSONFile f))) true
    ∧ (∀ j, j ≠ i → Storage.readJSONFile f' !! j = Storage.readJSONFile f !! j)
    ∧ Menu.id updated = Some n
    ∧ Menu.itemName updated
      = match Menu.upd_itemName updates with
        | Some text => Js.trim text
        | None => Menu.itemName current
        end
    ∧ Menu.description updated
      = match Menu.upd_description updates with
        | Some text => text
        | None => Menu.description current
        end
    ∧ Menu.category updated
      = match Menu.upd_category updates with
        | Some text => Js.trim text
        | None => Menu.category current
        end
    ∧ (Menu.upd_pricePerServing updates = None →
       Menu.pricePerServing updated = Menu.pricePerServing current)
    ∧ (∀ x, Menu.upd_pricePerServing updates = Some (Menu.PriceNumber x) →
            PrimFloat.is_zero x = false →
            Menu.pricePerServing updated = x ∧ PrimFloat.ltb x 0 = false)
    ∧ Menu.imageUrl updated
      = match Menu.upd_imageUrl updates with
        | Some text => text
        | None => Menu.imageUrl current
        end
    ∧ Menu.isAvailable updated
      = match Menu.upd_isAvailable updates with
        | Some flag => flag
        | None => Menu.isAvailable current
        end.
Proof.
  unfold Menu.updateMenuItem.
  destruct (Menu.negativePrice updates) eqn:Hnegative; [discriminate |].
  intros Hupdate.
  apply menu_modifyAt_success in Hupdate as (i & current & Hindex & Hi & Hid & -> & ->).
  apply menu_hasId_iff in Hid as (n & -> & Hn).
  destruct (findIndex_first _ _ _ Hindex) as (current' & Hi' & _ & Hfirst).
  exists i, current, n. simpl. rewrite read_written.
  split; [assumption |]. split; [reflexivity |]. split; [assumption |].
  split.
  { intros j item Hj Hitem Heq. specialize (Hfirst j item Hj Hitem).
    assert (Menu.hasId (Some n) item = true) by (apply menu_hasId_iff; eauto).
    congruence. }
  split; [reflexivity |].
  split; [intros j Hj; now apply list_lookup_insert_ne |].
  split; [assumption |].
  repeat split.
  - now intros ->.
  - rewrite H. simpl. now rewrite H0.
  - unfold Menu.negativePrice in Hnegative. rewrite H in Hnegative. exact Hnegative.
Qed.

Lemma update_touches_only_given_fields_witness :
  ∃ updated f',
    Menu.updateMenuItem (Some 4) (Samples.priceUpdate 135%float)
      (Storage.File (Some [Samples.lumpia; Samples.pancit]) true)
    = (Menu.Ok 200 "Menu item updated successfully" updated, f')
    ∧ Storage.readJSONFile f' !! 1%nat = Some Samples.pancit
    ∧ Menu.itemName updated = "Lumpia".
Proof.
  eexists _, _. split; [reflexivity |].
  destruct (update_touches_only_given_fields (Some 4) (Samples.priceUpdate 135%float)
              (Storage.File (Some [Samples.lumpia; Samples.pancit]) true) _ _ _ _ eq_refl)
    as (i & current & n & Hi & Hid & _).
  split; reflexivity.
Defined.

Lemma findIndex_insert {A} (p : A → bool) (l : list A) (i : nat) (x current : A) :
  l !! i = Some current → p x = p current →
  Array.findIndex p (<[i := x]> l) = Array.findIndex p l.
Proof.
  revert i. induction l as [| z l IH]; intros [| i]; simpl; try discriminate.
  - intros [= ->] ->. reflexivity.
  - intros Hi Hp. now rewrite (IH i Hi Hp).
Qed.

(** X14. Toggling the availability of an item twice puts the stored list
    back as it was: the second toggle addresses the same position and
    restores the item. *)
Theorem toggle_twice_restores (itemId : option Z) (f f' : Storage.file Menu.MenuItem)
    (status : Z) (message : string) (toggled : Menu.MenuItem) :
  Menu.toggleAvailability itemId f = (Menu.Ok status message toggled, f') →
  ∃ restored,
    Menu.toggleAvailability itemId f'
    = (Menu.Ok 200 "Menu item availability updated successfully" restored,
       Storage.File (Some (Storage.readJSONFile f)) true)
    ∧ Menu.isAvailable restored = negb (Menu.isAvailable toggled).
Proof.
  intros Htoggle. unfold Menu.toggleAvailability in Htoggle.
  apply menu_modifyAt_success in Htoggle as (i & current & Hindex & Hi & Hid & -> & ->).
  simpl. exists current.
  unfold Menu.toggleAvailability, Menu.modifyAt. cbv zeta. rewrite read_written.
  rewrite (findIndex_insert _ _ i _ current Hi), Hindex by reflexivity.
  rewrite list_lookup_insert_eq by (eapply lookup_lt_Some; exact Hi).
  unfold Storage.writeJSONFile. simpl.
  rewrite list_insert_insert_eq, negb_involutive.
  split; [| reflexivity].
  assert (Hsame : ∀ item : Menu.MenuItem,
             {| Menu.id := Menu.id item; Menu.itemName := Menu.itemName item;
                Menu.description := Menu.description item;
                Menu.category := Menu.category item;
                Menu.pricePerServing := Menu.pricePerServing item;
                Menu.imageUrl := Menu.imageUrl item;
                Menu.isAvailable := Menu.isAvailable item |} = item)
    by (intros []; reflexivity).
  rewrite Hsame, (list_insert_id _ _ _ Hi). reflexivity.
Qed.

Lemma toggle_twice_restores_witness :
  ∃ toggled f' restored,
    Menu.toggleAvailability (Some 7)
      (Storage.File (Some [Samples.lumpia; Samples.pancit]) true)
    = (Menu.Ok 200 "Menu item availability updated successfully" toggled, f')
    ∧ Menu.toggleAvailability (Some 7) f'
      = (Menu.Ok 200 "Menu item availability updated successfully" restored,
         Storage.File (Some [Samples.lumpia; Samples.pancit]) true).
Proof.
  eexists _, _. 
  destruct (toggle_twice_restores (Some 7)
              (Storage.File (Some [Samples.lumpia; Samples.pancit]) true) _ _ _ _ eq_refl)
    as (restored & Hrestored & _).
  exists restored. split; [reflexivity | exact Hrestored].
Defined.

Lemma find_none_by_id (itemId : option Z) (menuItems : list Menu.MenuItem) :
  ¬ In itemId (List.map Menu.id menuItems) →
  List.find (Menu.hasId itemId) menuItems = None.
Proof.
  intros Hnot. destruct (List.find _ _) as [item |] eqn:Hfind; [| reflexivity].
  apply List.find_some in Hfind as [Hin Hid]. apply menu_hasId_true in Hid as [Hid _].
  exfalso. apply Hnot. rewrite <- Hid. now apply in_map.
Qed.

Lemma findIndex_none {A} (p : A → bool) (l : list A) :
  List.find p l = None → Array.findIndex p l = None.
Proof.
  induction l as [| x l IH]; simpl; [reflexivity |].
  destruct (p x); [discriminate |]. intros Hfind. now rewrite IH.
Qed.

(** X15. An item created in a menu that is not empty, with identifiers
    below [2 ^ 53] in magnitude, is returned by [GET /:id] at its new
    identifier. An item created in an empty menu (or
    with a menu file that cannot be read) is stored without identifier:
    afterwards [GET /:id], [PUT /:id], [DELETE /:id] and the availability
    toggle answer "Menu item not found" for every identifier. *)
Theorem created_item_is_addressable_iff_menu_not_empty (req : Menu.CreateRequest)
    (f f' : Storage.file Menu.MenuItem) (status : Z) (message : string)
    (item : Menu.MenuItem) :
  Menu.createMenuItem req f = (Menu.Ok status message item, f') →
  (Storage.readJSONFile f ≠ [] →
   (∀ stored i, In stored (Storage.readJSONFile f) → Menu.id stored = Some i →
                Z.abs i < 2 ^ 53) →
   (∀ stored, In stored (Storage.readJSONFile f) → Menu.id stored ≠ Menu.id item)
   ∧ MenuQueries.getMenuItem (Menu.id item) f' = MenuQueries.Found item)
  ∧ (Storage.readJSONFile f = [] →
     Menu.id item = None
     ∧ ∀ itemId,
         MenuQueries.getMenuItem itemId f' = MenuQueries.NotFound 404 "Menu item not found"
         ∧ (∀ updates, Menu.negativePrice updates = false →
              Menu.updateMenuItem itemId updates f'
              = (Menu.Error 404 "Menu item not found", f'))
         ∧ Menu.deleteMenuItem itemId f' = (Menu.Error 404 "Menu item not found", f')
         ∧ Menu.toggleAvailability itemId f' = (Menu.Error 404 "Menu item not found", f')).
Proof.
  intros Hcreate.
  destruct (created_item_shape req f f' status message item Hcreate)
    as (price0 & _ & _ & _ & Hid & ->).
  split.
  - intros Hne Hsafe.
    pose proof (menu_newId_not_stored _ Hne Hsafe) as Hfresh. rewrite <- Hid in Hfresh.
    split.
    { intros stored Hin Heq. apply Hfresh. rewrite <- Heq. now apply in_map. }
    unfold MenuQueries.getMenuItem. rewrite read_written.
    rewrite find_app_none by now apply find_none_by_id.
    simpl. unfold Menu.hasId. rewrite Hid.
    destruct (menu_newId_safe _ Hne Hsafe) as (m & -> & _).
    simpl. now rewrite Z.eqb_refl.
  - intros Hempty. rewrite Hempty in *. simpl in Hid. split; [assumption |].
    assert (Hfind : ∀ itemId, List.find (Menu.hasId itemId) [item] = None).
    { intros itemId. simpl. unfold Menu.hasId. now rewrite Hid. }
    intros itemId. specialize (Hfind itemId).
    pose proof (findIndex_none _ _ Hfind) as Hindex.
    unfold MenuQueries.getMenuItem, Menu.updateMenuItem, Menu.deleteMenuItem,
      Menu.toggleAvailability, Menu.modifyAt.
    cbv zeta. rewrite !read_written. simpl app. rewrite Hfind, Hindex.
    repeat split. intros updates ->. reflexivity.
Qed.

Lemma created_item_is_addressable_iff_menu_not_empty_witness :
  ∃ item f',
    Menu.createMenuItem Samples.menuRequest (Storage.File (Some []) true)
    = (Menu.Ok 201 "Menu item created successfully" item, f')
    ∧ Menu.id item = None
    ∧ Menu.deleteMenuItem (Some 1) f' = (Menu.Error 404 "Menu item not found", f').
Proof.
  eexists _, _. split; [reflexivity |].
  destruct (proj2 (created_item_is_addressable_iff_menu_not_empty Samples.menuRequest
                     (Storage.File (Some []) true) _ _ _ _ eq_refl) eq_refl)
    as [Hid Hall].
  split; [exact Hid |]. exact (proj1 (proj2 (proj2 (Hall (Some 1))))).
Defined.

Lemma not_in_map_delete {A B} (g : A → B) (l : list A) (i : nat) (x : A) :
  List.NoDup (List.map g l) → l !! i = Some x →
  ¬ In (g x) (List.map g (delete i l)).
Proof.
  revert i. induction l as [| z l IH]; intros [| i]; simpl; try discriminate.
  - intros Hnodup [= ->]. now apply List.NoDup_cons_iff in Hnodup.
  - intros Hnodup Hi. apply List.NoDup_cons_iff in Hnodup as [Hz Hl].
    intros [Heq | Hin]; [| now apply (IH i Hl Hi)].
    apply Hz. rewrite Heq. apply in_map.
    apply list_elem_of_In. eapply list_elem_of_lookup_2. exact Hi.
Qed.

(** X16. A successful deletion removes one element from the stored list,
    the first one with the identifier of the address, and answers with it.
    If the stored identifiers were distinct, the identifier is gone
    afterwards: [GET /:id] and a second [DELETE /:id] answer "Menu item not
    found". *)
Theorem deleted_item_is_gone (itemId : option Z) (f f' : Storage.file Menu.MenuItem)
    (status : Z) (message : string) (deleted : Menu.MenuItem) :
  Menu.deleteMenuItem itemId f = (Menu.Ok status message deleted, f') →
  (∃ i n,
      Storage.readJSONFile f !! i = Some deleted
      ∧ itemId = Some n ∧ Menu.id deleted = Some n
      ∧ (∀ j item, (j < i)%nat → Storage.readJSONFile f !! j = Some item →
                   Menu.id item ≠ Some n)
      ∧ f' = Storage.File (Some (delete i (Storage.readJSONFile f))) true
      ∧ (∀ j, (j < i)%nat →
              Storage.readJSONFile f' !! j = Storage.readJSONFile f !! j)
      ∧ (∀ j, (i ≤ j)%nat →
              Storage.readJSONFile f' !! j = Storage.readJSONFile f !! S j)
      ∧ S (length (Storage.readJSONFile f')) = length (Storage.readJSONFile f))
  ∧ (Invariants.menuIdsUnique (Storage.readJSONFile f) →
     MenuQueries.getMenuItem itemId f' = MenuQueries.NotFound 404 "Menu item not found"
     ∧ Menu.deleteMenuItem itemId f' = (Menu.Error 404 "Menu item not found", f')).
Proof.
  intros Hdelete. unfold Menu.deleteMenuItem in Hdelete.
  apply menu_modifyAt_success in Hdelete as (i & current & Hindex & Hi & Hid & -> & ->).
  destruct (findIndex_first _ _ _ Hindex) as (current' & _ & _ & Hfirst).
  simpl. pose proof (proj1 (menu_hasId_iff _ _) Hid) as (n & Hn & Hn').
  apply menu_hasId_true in Hid as [Hid _]. split.
  - exists i, n. rewrite read_written. unfold Array.splice1.
    repeat split; try assumption.
    + intros j item Hj Hitem Heq. specialize (Hfirst j item Hj Hitem).
      assert (Menu.hasId itemId item = true) by (apply menu_hasId_iff; eauto).
      congruence.
    + intros j Hj. now apply list_lookup_delete_lt.
    + intros j Hj. now apply list_lookup_delete_ge.
    + rewrite length_delete by eauto.
      apply lookup_lt_Some in Hi. lia.
  - intros Hunique.
    assert (Hfind : List.find (Menu.hasId itemId)
                      (Array.splice1 i (Storage.readJSONFile f)) = None).
    { apply find_none_by_id. rewrite <- Hid.
      now apply (not_in_map_delete Menu.id). }
    unfold MenuQueries.getMenuItem, Menu.deleteMenuItem, Menu.modifyAt. cbv zeta.
    rewrite !read_written, Hfind, (findIndex_none _ _ Hfind). split; reflexivity.
Qed.

Lemma deleted_item_is_gone_witness :
  ∃ deleted f',
    Menu.deleteMenuItem (Some 4) (Storage.File (Some [Samples.lumpia; Samples.pancit]) true)
    = (Menu.Ok 200 "Menu item deleted successfully" deleted, f')
    ∧ Menu.deleteMenuItem (Some 4) f' = (Menu.Error 404 "Menu item not found", f').
Proof.
  eexists _, _. split; [reflexivity |].
  refine (proj2 (proj2 (deleted_item_is_gone (Some 4)
                          (Storage.File (Some [Samples.lumpia; Samples.pancit]) true)
                          _ _ _ _ eq_refl) _)).
  unfold Invariants.menuIdsUnique. simpl.
  repeat constructor; simpl; intuition discriminate.
Defined.

(** ** Auth helper *)

(** X17. Every password that the policy accepts is rated "strong": a
    password rated "weak" or "medium" is never valid. The converse fails: a
    password of twelve characters without a lowercase letter is rated
    "strong" and refused. *)
Theorem valid_password_is_strong :
  (∀ password,
      Auth.isValid (Auth.validatePasswordStrength password) = true →
      Auth.strength (Auth.validatePasswordStrength password) = "strong")
  ∧ Auth.strength (Auth.validatePasswordStrength "ABCDEFGHIJ1!") = "strong"
  ∧ Auth.isValid (Auth.validatePasswordStrength "ABCDEFGHIJ1!") = false.
Proof.
  split; [| split; reflexivity].
  intros password Hvalid.
  apply valid_iff_all_checks in Hvalid as (Hlen & Hupper & Hlower & Hdigit & Hspecial).
  unfold Auth.validatePasswordStrength. cbn [Auth.strength].
  unfold Auth.calculatePasswordStrength. rewrite Hupper, Hlower, Hdigit, Hspecial.
  unfold Auth.minLength in Hlen. apply Z.ltb_ge in Hlen.
  replace (8 <=? Auth.strLength password) with true by (symmetry; apply Z.leb_le; lia).
  destruct (12 <=? Auth.strLength password); reflexivity.
Qed.

Lemma valid_password_is_strong_witness :
  Auth.strength (Auth.validatePasswordStrength "Abc12345!") = "strong".
Proof.
  exact (proj1 valid_password_is_strong "Abc12345!" eq_refl).
Defined.

Lemma split_no_separator (sep : ascii) (s : string) :
  ¬ In sep (list_ascii_of_string s) → AuthMiddleware.split sep s = [s].
Proof.
  induction s as [| c s IH]; simpl; [reflexivity |]. intros Hnot.
  destruct (Ascii.eqb c sep) eqn:Hc.
  - apply Ascii.eqb_eq in Hc. exfalso. apply Hnot. now left.
  - rewrite IH; [reflexivity |]. intros Hin. apply Hnot. now right.
Qed.

Lemma split_at_separator (sep : ascii) (a b : string) :
  ¬ In sep (list_ascii_of_string a) →
  AuthMiddleware.split sep (a ++ String sep b) = a :: AuthMiddleware.split sep b.
Proof.
  induction a as [| c a IH]; simpl; intros Hnot.
  - now rewrite Ascii.eqb_refl.
  - destruct (Ascii.eqb c sep) eqn:Hc.
    + apply Ascii.eqb_eq in Hc. exfalso. apply Hnot. now left.
    + rewrite IH; [reflexivity |]. intros Hin. apply Hnot. now right.
Qed.

(** X18. The token that [authenticateToken] verifies is the text between
    the first and the second space of the [Authorization] header, or after
    the first space when there is no second one; the word before the first
    space is not looked at, so that any scheme is treated as [Bearer] is,
    and what follows the second space is dropped. A header whose first space
    is followed at once by a second one or by nothing, a header without a
    space and a missing header are answered with 401 "Access token
    required". *)
Theorem token_is_second_word (verify : string → AuthMiddleware.Verification)
    (scheme token : string) :
  AuthMiddleware.noSpace scheme →
  AuthMiddleware.noSpace token →
  AuthMiddleware.bearerToken (Some (scheme ++ " " ++ token)) = Some token
  ∧ (∀ more, AuthMiddleware.bearerToken (Some (scheme ++ " " ++ token ++ " " ++ more))
             = Some token)
  ∧ (∀ more, AuthMiddleware.authenticateToken verify
               (Some (scheme ++ " " ++ token ++ " " ++ more))
             = AuthMiddleware.authenticateToken verify (Some ("Bearer " ++ token)))
  ∧ AuthMiddleware.authenticateToken verify (Some (scheme ++ " " ++ token))
    = AuthMiddleware.authenticateToken verify (Some ("Bearer " ++ token))
  ∧ (token ≠ "" →
     AuthMiddleware.authenticateToken verify (Some (scheme ++ " " ++ token))
     = match verify token with
       | AuthMiddleware.Valid user => AuthMiddleware.Next (Some user)
       | AuthMiddleware.Invalid name =>
           if String.eqb name "TokenExpiredError"
           then AuthMiddleware.Reject 401 "Token expired"
           else if String.eqb name "JsonWebTokenError"
           then AuthMiddleware.Reject 403 "Invalid token"
           else AuthMiddleware.Reject 403 "Token verification failed"
       end)
  ∧ (∀ more, AuthMiddleware.authenticateToken verify (Some (scheme ++ " " ++ " " ++ more))
             = AuthMiddleware.Reject 401 "Access token required")
  ∧ AuthMiddleware.authenticateToken verify (Some (scheme ++ " "))
    = AuthMiddleware.Reject 401 "Access token required"
  ∧ AuthMiddleware.authenticateToken verify (Some scheme)
    = AuthMiddleware.Reject 401 "Access token required"
  ∧ AuthMiddleware.authenticateToken verify None
    = AuthMiddleware.Reject 401 "Access token required".
Proof.
  intros Hscheme Htoken.
  assert (Htruthy : ∀ word rest, Js.str_truthy (word ++ " " ++ rest) = true)
    by (intros [] rest; reflexivity).
  assert (Hword : ∀ word, AuthMiddleware.noSpace word →
            AuthMiddleware.bearerToken (Some (word ++ " " ++ token)) = Some token).
  { intros word Hw. unfold AuthMiddleware.bearerToken. rewrite Htruthy.
    change (word ++ " " ++ token) with (word ++ String " " token).
    rewrite (split_at_separator _ _ _ Hw), (split_no_separator _ _ Htoken).
    reflexivity. }
  assert (Hmore : ∀ more,
            AuthMiddleware.bearerToken (Some (scheme ++ " " ++ token ++ " " ++ more))
            = Some token).
  { intros more. unfold AuthMiddleware.bearerToken. rewrite Htruthy.
    change (scheme ++ " " ++ token ++ " " ++ more)
      with (scheme ++ String " " (token ++ String " " more)).
    rewrite (split_at_separator _ _ _ Hscheme), (split_at_separator _ _ _ Htoken).
    reflexivity. }
  assert (Hbearer : AuthMiddleware.bearerToken (Some ("Bearer " ++ token)) = Some token).
  { change ("Bearer " ++ token) with ("Bearer" ++ " " ++ token). apply Hword.
    unfold AuthMiddleware.noSpace. simpl. intuition discriminate. }
  split; [now apply Hword |]. split; [exact Hmore |].
  unfold AuthMiddleware.authenticateToken.
  split; [intros more; now rewrite Hmore, Hbearer |].
  split; [now rewrite (Hword scheme Hscheme), Hbearer |].
  split.
  { intros Hne. rewrite (Hword scheme Hscheme).
    apply str_truthy_true in Hne. now rewrite Hne. }
  split.
  { intros more. unfold AuthMiddleware.bearerToken. rewrite Htruthy.
    change (scheme ++ " " ++ " " ++ more) with (scheme ++ String " " ("" ++ String " " more)).
    rewrite (split_at_separator _ _ _ Hscheme). reflexivity. }
  split.
  { unfold AuthMiddleware.bearerToken.
    replace (Js.str_truthy (scheme ++ " ")) with true by (destruct scheme; reflexivity).
    change (scheme ++ " ") with (scheme ++ String " " "").
    rewrite (split_at_separator _ _ _ Hscheme). reflexivity. }
  split; [| reflexivity].
  unfold AuthMiddleware.bearerToken.
  destruct (Js.str_truthy scheme); [| reflexivity].
  now rewrite (split_no_separator _ _ Hscheme).
Qed.

Lemma token_is_second_word_witness :
  AuthMiddleware.bearerToken (Some ("Basic" ++ " " ++ "abc.def.ghi" ++ " " ++ "x y"))
  = Some "abc.def.ghi".
Proof.
  refine (proj1 (proj2 (token_is_second_word
                          (fun _ => AuthMiddleware.Invalid "JsonWebTokenError")
                          "Basic" "abc.def.ghi" _ _)) "x y");
    unfold AuthMiddleware.noSpace; simpl; intuition discriminate.
Defined.

(** X19. A request gets through [authenticateToken] followed by
    [requireCustomerOrAdmin] exactly when its header carries a non-empty
    token that verifies to a payload whose [userType] is the string
    "customer" or "admin"; every other request is rejected with 401 or 403.
    And whoever passes [requireAdmin] passes [requireCustomerOrAdmin]. *)
Theorem protected_route_lets_in (verify : string → AuthMiddleware.Verification)
    (authHeader : option string) :
  (∀ passed,
      AuthMiddleware.protectedRoute verify authHeader = AuthMiddleware.Next passed
      ↔ ∃ token user,
          AuthMiddleware.bearerToken authHeader = Some token ∧ token ≠ ""
          ∧ verify token = AuthMiddleware.Valid user
          ∧ passed = Some user
          ∧ (AuthMiddleware.userType user = Js.JStr "customer"
             ∨ AuthMiddleware.userType user = Js.JStr "admin"))
  ∧ (∀ status error,
        AuthMiddleware.protectedRoute verify authHeader = AuthMiddleware.Reject status error →
        status = 401 ∨ status = 403)
  ∧ (∀ user passed,
        AuthMiddleware.requireAdmin user = AuthMiddleware.Next passed →
        AuthMiddleware.requireCustomerOrAdmin user = AuthMiddleware.Next passed).
Proof.
  split; [| split].
  - intros passed. unfold AuthMiddleware.protectedRoute, AuthMiddleware.authenticateToken.
    split.
    + destruct (AuthMiddleware.bearerToken authHeader) as [token |]; [| discriminate].
      destruct (Js.str_truthy token) eqn:Htoken; [| discriminate]. cbn [negb].
      destruct (verify token) as [user | name] eqn:Hverify.
      * unfold AuthMiddleware.requireCustomerOrAdmin.
        destruct (Js.strict_eq (AuthMiddleware.userType user) (Js.JStr "customer"))
          eqn:Hcustomer;
          destruct (Js.strict_eq (AuthMiddleware.userType user) (Js.JStr "admin"))
            eqn:Hadmin; simpl; try discriminate;
          intros [= <-]; exists token, user; apply str_truthy_true in Htoken;
          repeat split; auto;
          [left | left | right]; now apply strict_eq_str.
      * destruct (String.eqb name "TokenExpiredError"); [discriminate |].
        destruct (String.eqb name "JsonWebTokenError"); discriminate.
    + intros (token & user & -> & Htoken & -> & -> & Htype).
      apply str_truthy_true in Htoken. rewrite Htoken. cbn [negb].
      unfold AuthMiddleware.requireCustomerOrAdmin.
      destruct Htype as [-> | ->]; reflexivity.
  - intros status error.
    unfold AuthMiddleware.protectedRoute, AuthMiddleware.authenticateToken.
    destruct (AuthMiddleware.bearerToken authHeader) as [token |];
      [| intros [= <- _]; now left].
    destruct (Js.str_truthy token); cbn [negb]; [| intros [= <- _]; now left].
    destruct (verify token) as [user | name].
    + unfold AuthMiddleware.requireCustomerOrAdmin.
      destruct (_ && _); [intros [= <- _]; now right | discriminate].
    + destruct (String.eqb name "TokenExpiredError"); [intros [= <- _]; now left |].
      destruct (String.eqb name "JsonWebTokenError"); intros [= <- _]; now right.
  - intros [user |] passed; [| discriminate].
    unfold AuthMiddleware.requireAdmin, AuthMiddleware.requireCustomerOrAdmin.
    destruct (Js.strict_eq (AuthMiddleware.userType user) (Js.JStr "admin"));
      [| discriminate].
    simpl. rewrite andb_false_r. auto.
Qed.

(** ** Front-end utilities *)

Lemma string_length_app (a b : string) :
  String.length (a ++ b) = (String.length a + String.length b)%nat.
Proof.
  induction a as [| c a IH]; simpl; [reflexivity | now rewrite IH].
Qed.

Lemma take_length (n : nat) (s : string) :
  String.length (Utils.take n s) = Nat.min n (String.length s).
Proof.
  revert s. induction n as [| n IH]; intros [| c s]; simpl; try reflexivity.
  now rewrite IH.
Qed.

Lemma take_app_exact (a b : string) : Utils.take (String.length a) (a ++ b) = a.
Proof.
  induction a as [| c a IH]; simpl; [now destruct b | now rewrite IH].
Qed.

Lemma truncateText_long (text : string) (maxLength : Z) :
  0 ≤ maxLength →
  maxLength < Utils.strLength text →
  Utils.truncateText text maxLength = Utils.take (Z.to_nat maxLength) text ++ "..."
  ∧ String.length (Utils.take (Z.to_nat maxLength) text) = Z.to_nat maxLength.
Proof.
  intros Hmax Hlong. unfold Utils.truncateText, Utils.strLength in *.
  replace (Z.of_nat (String.length text) <=? maxLength) with false
    by (symmetry; apply Z.leb_gt; lia).
  destruct text as [| c text]; [simpl in Hlong; lia |].
  split; [reflexivity |]. rewrite take_length. lia.
Qed.

(** X20. [truncateText] returns a text of at most [maxLength] characters
    unchanged; a longer text becomes its first [maxLength] characters
    followed by three dots, hence a text of [maxLength + 3] characters,
    which is longer than the original when the original has one or two
    characters too many. Truncating twice is the same as truncating
    once. *)
Theorem truncateText_bounds (text : string) (maxLength : Z) :
  0 ≤ maxLength →
  (Utils.strLength text ≤ maxLength → Utils.truncateText text maxLength = text)
  ∧ (maxLength < Utils.strLength text →
     Utils.truncateText text maxLength = Utils.take (Z.to_nat maxLength) text ++ "..."
     ∧ Utils.strLength (Utils.truncateText text maxLength) = maxLength + 3)
  ∧ Utils.strLength (Utils.truncateText text maxLength) ≤ maxLength + 3
  ∧ Utils.truncateText (Utils.truncateText text maxLength) maxLength
    = Utils.truncateText text maxLength.
Proof.
  intros Hmax.
  assert (Hshort : Utils.strLength text ≤ maxLength →
                   Utils.truncateText text maxLength = text).
  { intros Hle. unfold Utils.truncateText.
    replace (Utils.strLength text <=? maxLength) with true
      by (symmetry; apply Z.leb_le; lia).
    now rewrite orb_true_r. }
  assert (Hlong : maxLength < Utils.strLength text →
                  Utils.truncateText text maxLength
                  = Utils.take (Z.to_nat maxLength) text ++ "..."
                  ∧ Utils.strLength (Utils.truncateText text maxLength) = maxLength + 3).
  { intros Hlt. destruct (truncateText_long text maxLength Hmax Hlt) as [Heq Hlen].
    split; [assumption |]. rewrite Heq. unfold Utils.strLength.
    rewrite string_length_app, Hlen. simpl. lia. }
  split; [assumption |]. split; [assumption |].
  destruct (Z_le_gt_dec (Utils.strLength text) maxLength) as [Hle | Hgt].
  - rewrite (Hshort Hle). split; [lia | now apply Hshort].
  - destruct (Hlong ltac:(lia)) as [Heq Hlen]. split; [lia |].
    destruct (truncateText_long text maxLength Hmax ltac:(lia)) as [_ Htake].
    destruct (truncateText_long (Utils.truncateText text maxLength) maxLength Hmax
                ltac:(lia)) as [Hagain _].
    rewrite Hagain, Heq. f_equal.
    rewrite <- Htake at 1. apply take_app_exact.
Qed.

Lemma truncateText_bounds_witness :
  Utils.truncateText "catering" 7 = "caterin..."
  ∧ Utils.strLength (Utils.truncateText "catering" 7) = 7 + 3.
Proof.
  apply (proj1 (proj2 (truncateText_bounds "catering" 7 ltac:(lia)))).
  vm_compute. reflexivity.
Defined.

Lemma removeSpaces_app (a b : string) :
  Utils.removeSpaces (a ++ b) = Utils.removeSpaces a ++ Utils.removeSpaces b.
Proof.
  induction a as [| c a IH]; simpl; [reflexivity |].
  destruct (Js.is_space c); simpl; now rewrite IH.
Qed.

Lemma removeSpaces_length (s : string) :
  (String.length (Utils.removeSpaces s) ≤ String.length s)%nat.
Proof.
  induction s as [| c s IH]; simpl; [lia |].
  destruct (Js.is_space c); simpl; lia.
Qed.

Lemma is_space_codes (c : ascii) :
  Js.is_space c = existsb (N.eqb (N_of_ascii c)) [9; 10; 11; 12; 13; 32; 160]%N.
Proof.
  destruct c as [[] [] [] [] [] [] [] []]; reflexivity.
Qed.

Lemma removeSpaces_filter (s : string) :
  Utils.removeSpaces s
  = string_of_list_ascii
      (List.filter
         (fun c => negb (existsb (N.eqb (N_of_ascii c)) [9; 10; 11; 12; 13; 32; 160]%N))
         (list_ascii_of_string s)).
Proof.
  induction s as [| c s IH]; [reflexivity |].
  cbn [Utils.removeSpaces list_ascii_of_string List.filter].
  rewrite (is_space_codes c).
  destruct (existsb _ [9; 10; 11; 12; 13; 32; 160]%N);
    cbn [negb string_of_list_ascii]; [exact IH | now rewrite IH].
Qed.

Lemma keep_first_unless_plus (c : ascii) (rest : string) :
  c ≠ "+"%char →
  match String c rest with
  | String "+" tail => tail
  | _ => String c rest
  end = String c rest.
Proof.
  intros Hc. destruct c as [[] [] [] [] [] [] [] []]; try reflexivity.
  exfalso. now apply Hc.
Qed.

Lemma phonePattern_digits (c : ascii) (rest : string) :
  Utils.is_nonzero_digit c && (String.length rest <=? 15)%nat
  && forallb Js.is_digit (list_ascii_of_string rest) = true
  ↔ (49 ≤ N_of_ascii c ≤ 57)%N
    ∧ (String.length rest ≤ 15)%nat
    ∧ Forall (fun d => (48 ≤ N_of_ascii d ≤ 57)%N) (list_ascii_of_string rest).
Proof.
  assert (Hdigit : ∀ d, Js.is_digit d = true ↔ (48 ≤ N_of_ascii d ≤ 57)%N).
  { intros d. unfold Js.is_digit. cbv zeta. rewrite andb_true_iff, !N.leb_le. reflexivity. }
  assert (Hfirst : Utils.is_nonzero_digit c = true ↔ (49 ≤ N_of_ascii c ≤ 57)%N).
  { unfold Utils.is_nonzero_digit. cbv zeta. rewrite andb_true_iff, !N.leb_le. reflexivity. }
  rewrite !andb_true_iff, Nat.leb_le, forallb_forall, List.Forall_forall, Hfirst.
  split.
  - intros [[Hc Hlen] Hrest]. split; [exact Hc | split; [exact Hlen |]].
    intros d Hd. now apply Hdigit, Hrest.
  - intros (Hc & Hlen & Hrest). split; [split; [exact Hc | exact Hlen] |].
    intros d Hd. now apply Hdigit, Hrest.
Qed.

(** X21. [validatePhone] ignores white space wherever it stands: a tab, a
    line feed, a vertical tab, a form feed, a carriage return, a space or a
    no-break space can be inserted anywhere without changing the verdict. It
    accepts a number exactly when the characters other than white space are
    an optional plus sign, then a digit from 1 to 9, then at most 15 digits;
    so every number written with a leading 0 is refused. *)
Theorem validatePhone_shape :
  (∀ a b c,
      In (N_of_ascii c) [9; 10; 11; 12; 13; 32; 160]%N →
      Utils.validatePhone (a ++ String c b) = Utils.validatePhone (a ++ b))
  ∧ (∀ phone,
        let kept :=
          string_of_list_ascii
            (List.filter
               (fun c => negb (existsb (N.eqb (N_of_ascii c)) [9; 10; 11; 12; 13; 32; 160]%N))
               (list_ascii_of_string phone)) in
        Utils.validatePhone phone = true
        ↔ ∃ c rest,
            (kept = String c rest ∨ kept = String "+" (String c rest))
            ∧ (49 ≤ N_of_ascii c ≤ 57)%N
            ∧ (String.length rest ≤ 15)%nat
            ∧ Forall (fun d => (48 ≤ N_of_ascii d ≤ 57)%N) (list_ascii_of_string rest))
  ∧ (∀ rest, Utils.validatePhone ("0" ++ rest) = false).
Proof.
  split; [| split].
  - intros a b c Hc. unfold Utils.validatePhone. rewrite !removeSpaces_app. simpl.
    replace (Js.is_space c) with true; [reflexivity |].
    rewrite is_space_codes. symmetry. apply existsb_exists.
    exists (N_of_ascii c). split; [assumption | apply N.eqb_refl].
  - intros phone kept. unfold Utils.validatePhone.
    rewrite removeSpaces_filter. fold kept. clearbody kept. clear phone.
    unfold Utils.phonePattern. split.
    + destruct kept as [| c s']; [discriminate |].
      destruct (Ascii.eqb c "+") eqn:Hplus.
      * apply Ascii.eqb_eq in Hplus. subst c.
        destruct s' as [| c rest]; [discriminate |].
        intros Hmatch. apply phonePattern_digits in Hmatch.
        exists c, rest. split; [now right | exact Hmatch].
      * apply Ascii.eqb_neq in Hplus. rewrite (keep_first_unless_plus c s' Hplus).
        intros Hmatch. apply phonePattern_digits in Hmatch.
        exists c, s'. split; [now left | exact Hmatch].
    + intros (c & rest & [-> | ->] & Hshape).
      * rewrite keep_first_unless_plus; [now apply phonePattern_digits |].
        intros ->. simpl in Hshape. lia.
      * now apply phonePattern_digits.
  - intros rest. unfold Utils.validatePhone. rewrite removeSpaces_app. reflexivity.
Qed.

Lemma validatePhone_shape_witness :
  ∃ c rest,
    ("+639083422706" = String c rest ∨ "+639083422706" = String "+" (String c rest))
    ∧ (49 ≤ N_of_ascii c ≤ 57)%N
    ∧ (String.length rest ≤ 15)%nat
    ∧ Forall (fun d => (48 ≤ N_of_ascii d ≤ 57)%N) (list_ascii_of_string rest).
Proof.
  exact (proj1 (proj1 (proj2 validatePhone_shape) "+63 908 342 2706") eq_refl).
Defined.

Lemma countChar_app (c : ascii) (a b : string) :
  Utils.countChar c (a ++ b) = (Utils.countChar c a + Utils.countChar c b)%nat.
Proof.
  induction a as [| d a IH]; simpl; [reflexivity | rewrite IH; lia].
Qed.

Lemma dashes_no_dot (s : string) : Utils.countChar "." (Utils.dashes s) = O.
Proof.
  induction s as [| c s IH]; simpl; [reflexivity |]. rewrite IH.
  destruct (Ascii.eqb c ":") eqn:Hcolon; simpl; [reflexivity |].
  destruct (Ascii.eqb c ".") eqn:Hdot; simpl; [reflexivity |]. now rewrite Hdot.
Qed.

Lemma dashes_no_colon (s : string) : Utils.countChar ":" (Utils.dashes s) = O.
Proof.
  induction s as [| c s IH]; simpl; [reflexivity |]. rewrite IH.
  destruct (Ascii.eqb c ":") eqn:Hcolon; simpl; [reflexivity |].
  destruct (Ascii.eqb c ".") eqn:Hdot; simpl; [reflexivity |]. now rewrite Hcolon.
Qed.

Lemma dashes_length (s : string) : String.length (Utils.dashes s) = String.length s.
Proof.
  induction s as [| c s IH]; simpl; [reflexivity | now rewrite IH].
Qed.

Lemma split_pieces_clean (sep : ascii) (s : string) :
  Forall (fun piece => Utils.countChar sep piece = O) (AuthMiddleware.split sep s)
  ∧ AuthMiddleware.split sep s ≠ [].
Proof.
  induction s as [| c s [IH Hne]]; simpl.
  - split; [repeat constructor | discriminate].
  - destruct (Ascii.eqb c sep) eqn:Hc.
    + split; [constructor; [reflexivity | assumption] | discriminate].
    + destruct (AuthMiddleware.split sep s) as [| piece pieces]; [congruence |].
      apply Forall_cons in IH as [Hpiece Hpieces].
      split; [| discriminate]. constructor; [| assumption]. simpl. now rewrite Hc.
Qed.

Lemma extension_no_dot (originalName : string) :
  Utils.countChar "." (Utils.extension originalName) = O.
Proof.
  unfold Utils.extension.
  destruct (split_pieces_clean "." originalName) as [Hclean Hne].
  rewrite Forall_forall in Hclean. apply Hclean, list_elem_of_In.
  destruct (exists_last Hne) as (front & piece & ->).
  rewrite List.last_last, in_app_iff. simpl. auto.
Qed.

Lemma countChar_zero_not_in (c : ascii) (s : string) :
  Utils.countChar c s = O → ¬ In c (list_ascii_of_string s).
Proof.
  induction s as [| d s IH]; simpl; [tauto |].
  destruct (Ascii.eqb d c) eqn:Hd; [discriminate |].
  intros Hcount [-> | Hin]; [| now apply IH].
  now rewrite Ascii.eqb_refl in Hd.
Qed.

Lemma split_last (sep : ascii) (a b : string) :
  ∃ piece pieces,
    AuthMiddleware.split sep (a ++ String sep b) = piece :: pieces
    ∧ pieces ≠ []
    ∧ List.last pieces EmptyString = List.last (AuthMiddleware.split sep b) EmptyString.
Proof.
  induction a as [| c a (piece & pieces & IH & Hne & Hlast)]; simpl.
  - rewrite Ascii.eqb_refl. eexists _, _. split; [reflexivity |].
    split; [apply split_pieces_clean | reflexivity].
  - rewrite IH. destruct (Ascii.eqb c sep).
    + eexists _, _. split; [reflexivity |]. split; [discriminate |].
      destruct pieces; [congruence | exact Hlast].
    + eexists _, _. split; [reflexivity |]. split; assumption.
Qed.

Lemma dashes_same (s : string) :
  Utils.countChar ":" s = O → Utils.countChar "." s = O → Utils.dashes s = s.
Proof.
  induction s as [| c s IH]; simpl; [reflexivity |].
  destruct (Ascii.eqb c ":"); [discriminate |].
  destruct (Ascii.eqb c "."); [discriminate |].
  simpl. intros Hcolon Hdot. now rewrite IH.
Qed.

(** X22. The file name that [generateImageFileName] builds contains exactly
    one dot, the one in front of the extension. The extension is the text
    after the last dot of the original name, whatever stands before that
    dot, and the whole original name when that has no dot. The time stamp
    is taken over with its colons and dots replaced by dashes. *)
Theorem image_file_name_has_one_dot (iso originalName : string) :
  Utils.countChar "." (Utils.generateImageFileName iso originalName) = 1%nat
  ∧ (∀ front ext,
        Utils.countChar "." ext = O →
        Utils.extension (front ++ "." ++ ext) = ext
        ∧ ∃ stamp,
            Utils.generateImageFileName iso (front ++ "." ++ ext)
            = "offer-" ++ stamp ++ "." ++ ext
            ∧ String.length stamp = String.length iso
            ∧ Utils.countChar ":" stamp = O ∧ Utils.countChar "." stamp = O
            ∧ (Utils.countChar ":" iso = O → Utils.countChar "." iso = O → stamp = iso))
  ∧ (Utils.countChar "." originalName = O → Utils.extension originalName = originalName)
  ∧ Utils.generateImageFileName "2025-06-15T08:30:00.000Z" "photo.final.png"
    = "offer-2025-06-15T08-30-00-000Z.png".
Proof.
  assert (Hext : ∀ front ext, Utils.countChar "." ext = O →
                              Utils.extension (front ++ "." ++ ext) = ext).
  { intros front ext Hnone. unfold Utils.extension.
    change (front ++ "." ++ ext) with (front ++ String "." ext).
    destruct (split_last "." front ext) as (piece & pieces & -> & Hne & Hlast).
    destruct pieces as [| next pieces]; [congruence |].
    change (List.last (piece :: next :: pieces) EmptyString)
      with (List.last (next :: pieces) EmptyString).
    rewrite Hlast, split_no_separator by now apply countChar_zero_not_in.
    reflexivity. }
  split; [| split; [| split]].
  - unfold Utils.generateImageFileName.
    rewrite !countChar_app, dashes_no_dot, extension_no_dot. reflexivity.
  - intros front ext Hnone. split; [now apply Hext |].
    exists (Utils.dashes iso). unfold Utils.generateImageFileName.
    rewrite (Hext front ext Hnone). split; [reflexivity |].
    split; [apply dashes_length |]. split; [apply dashes_no_colon |].
    split; [apply dashes_no_dot | apply dashes_same].
  - intros Hnone. unfold Utils.extension.
    rewrite split_no_separator by now apply countChar_zero_not_in. reflexivity.
  - reflexivity.
Qed.

Lemma image_file_name_has_one_dot_witness :
  Utils.extension ("photo.final" ++ "." ++ "png") = "png".
Proof.
  exact (proj1 (proj1 (proj2 (image_file_name_has_one_dot "2025-06-15T08:30:00.000Z"
                                "photo.final.png")) "photo.final" "png" eq_refl)).
Defined.

(** ** Offers *)

Lemma isActive_spec (clock : PromoCodes.Clock) (offer : Offers.Offer) :
  Offers.isActive clock offer = true
  ↔ Offers.active offer = true
    ∧ ∃ t0 t1,
        Offers.startDate clock offer = Some t0
        ∧ Offers.endDate clock offer = Some t1
        ∧ t0 ≤ PromoCodes.now clock ≤ t1.
Proof.
  unfold Offers.isActive.
  destruct (Offers.active offer); simpl;
    [| split; [discriminate | intros [[=] _]]].
  destruct (Offers.startDate clock offer) as [t0 |],
    (Offers.endDate clock offer) as [t1 |];
    try (split; [discriminate | intros [_ (a & b & Ha & Hb & _)]; discriminate]).
  rewrite andb_true_iff, !Z.leb_le. split.
  - intros Hrange. split; [reflexivity |]. exists t0, t1. auto.
  - intros [_ (a & b & [= <-] & [= <-] & Hrange)]. exact Hrange.
Qed.

(** X23. [GET /active] lists stored offers only, in their stored order, and
    lists an offer exactly when it is flagged active, its start is a date
    not after the clock reading, and its end is a date not before it. An
    offer without start, or with an empty one, counts as started at the
    epoch (millisecond 0); an offer without end, or with an empty one,
    counts as ending on 31 December 2099 (millisecond 4102358400000). An
    offer whose start or end is a text that is not a date is never
    listed. *)
Theorem active_offers_spec (clock : PromoCodes.Clock) (f : Storage.file Offers.Offer) :
  sublist (Offers.activeOffers clock f) (Storage.readJSONFile f)
  ∧ (∀ offer,
        In offer (Offers.activeOffers clock f)
        ↔ In offer (Storage.readJSONFile f)
          ∧ Offers.active offer = true
          ∧ match Offers.startAt offer with
            | None | Some "" => 0 ≤ PromoCodes.now clock
            | Some text =>
                ∃ t, PromoCodes.date_ms clock text = Some t ∧ t ≤ PromoCodes.now clock
            end
          ∧ match Offers.endAt offer with
            | None | Some "" => PromoCodes.now clock ≤ 4102358400000
            | Some text =>
                ∃ t, PromoCodes.date_ms clock text = Some t ∧ PromoCodes.now clock ≤ t
            end)
  ∧ (∀ offer text,
        (Offers.startAt offer = Some text ∨ Offers.endAt offer = Some text) →
        text ≠ "" → PromoCodes.date_ms clock text = None →
        ¬ In offer (Offers.activeOffers clock f)).
Proof.
  assert (Hstart : ∀ offer t0,
            Offers.startDate clock offer = Some t0 ∧ t0 ≤ PromoCodes.now clock
            → match Offers.startAt offer with
              | None | Some "" => 0 ≤ PromoCodes.now clock
              | Some text =>
                  ∃ t, PromoCodes.date_ms clock text = Some t ∧ t ≤ PromoCodes.now clock
              end).
  { intros offer t0. unfold Offers.startDate.
    destruct (Offers.startAt offer) as [[| c text] |]; simpl.
    - now intros [[= <-] H].
    - eauto.
    - now intros [[= <-] H]. }
  assert (Hstart' : ∀ offer,
            match Offers.startAt offer with
            | None | Some "" => 0 ≤ PromoCodes.now clock
            | Some text =>
                ∃ t, PromoCodes.date_ms clock text = Some t ∧ t ≤ PromoCodes.now clock
            end
            → ∃ t0, Offers.startDate clock offer = Some t0 ∧ t0 ≤ PromoCodes.now clock).
  { intros offer. unfold Offers.startDate.
    destruct (Offers.startAt offer) as [[| c text] |]; simpl; eauto. }
  assert (Hend : ∀ offer t1,
            Offers.endDate clock offer = Some t1 ∧ PromoCodes.now clock ≤ t1
            → match Offers.endAt offer with
              | None | Some "" => PromoCodes.now clock ≤ 4102358400000
              | Some text =>
                  ∃ t, PromoCodes.date_ms clock text = Some t ∧ PromoCodes.now clock ≤ t
              end).
  { intros offer t1. unfold Offers.endDate, Offers.farFuture.
    destruct (Offers.endAt offer) as [[| c text] |]; simpl.
    - now intros [[= <-] H].
    - eauto.
    - now intros [[= <-] H]. }
  assert (Hend' : ∀ offer,
            match Offers.endAt offer with
            | None | Some "" => PromoCodes.now clock ≤ 4102358400000
            | Some text =>
                ∃ t, PromoCodes.date_ms clock text = Some t ∧ PromoCodes.now clock ≤ t
            end
            → ∃ t1, Offers.endDate clock offer = Some t1 ∧ PromoCodes.now clock ≤ t1).
  { intros offer. unfold Offers.endDate, Offers.farFuture.
    destruct (Offers.endAt offer) as [[| c text] |]; simpl; eauto. }
  unfold Offers.activeOffers. split; [| split].
  - apply filter_is_sublist.
  - intros offer. rewrite filter_In, isActive_spec. split.
    + intros (Hin & Hactive & t0 & t1 & H0 & H1 & Hrange).
      split; [assumption |]. split; [assumption |]. split.
      * apply (Hstart offer t0). split; [assumption | lia].
      * apply (Hend offer t1). split; [assumption | lia].
    + intros (Hin & Hactive & H0 & H1).
      destruct (Hstart' offer H0) as (t0 & Ht0 & Hle0).
      destruct (Hend' offer H1) as (t1 & Ht1 & Hle1).
      split; [assumption |]. split; [assumption |]. exists t0, t1. repeat split; assumption.
  - intros offer text Hfield Htext Hdate. rewrite filter_In, isActive_spec.
    apply str_truthy_true in Htext.
    intros [_ [_ (t0 & t1 & H0 & H1 & _)]].
    unfold Offers.startDate, Offers.endDate in *.
    destruct Hfield as [Hfield | Hfield]; rewrite Hfield, Htext, Hdate in *; discriminate.
Qed.

(** X24. An offer created with a title, without dates and without an
    [active] field appears in the list of [GET /active] from the moment of
    its creation on, as long as the clock stays before 31 December 2099 and
    reads its own ISO text as a date. *)
Theorem created_offer_is_listed (clock clock' : PromoCodes.Clock)
    (req : Offers.CreateRequest) (f f' : Storage.file Offers.Offer) (status : Z)
    (offer : Offers.Offer) (t : Z) :
  Offers.createOffer clock req f = (Offers.Ok status offer, f') →
  Offers.req_startAt req = None → Offers.req_endAt req = None →
  Offers.req_active req = None →
  PromoCodes.date_ms clock' (PromoCodes.iso_text clock) = Some t →
  PromoCodes.iso_text clock ≠ "" →
  t ≤ PromoCodes.now clock' ≤ Offers.farFuture →
  In offer (Offers.activeOffers clock' f').
Proof.
  unfold Offers.createOffer.
  destruct (Offers.req_title req) as [title0 |]; [| discriminate].
  destruct (negb (Js.str_truthy title0)); [discriminate |].
  unfold Storage.writeJSONFile. destruct (Storage.writable f); [| discriminate].
  intros [= <- <- <-] Hstart Hend Hactive Hdate Hiso Hrange.
  unfold Offers.activeOffers. rewrite filter_In, isActive_spec.
  rewrite read_written, in_app_iff. simpl. split; [auto |].
  rewrite Hactive. split; [reflexivity |].
  unfold Offers.startDate, Offers.endDate. simpl. rewrite Hstart, Hend. simpl.
  apply str_truthy_true in Hiso. rewrite Hiso, Hdate. eauto.
Qed.

Lemma created_offer_is_listed_witness :
  ∃ offer f',
    Offers.createOffer Samples.promoClock MoreSamples.offerRequest
      (Storage.File (Some []) true)
    = (Offers.Ok 201 offer, f')
    ∧ In offer (Offers.activeOffers Samples.promoClock f').
Proof.
  eexists _, _. split; [reflexivity |].
  eapply (created_offer_is_listed Samples.promoClock Samples.promoClock
            MoreSamples.offerRequest (Storage.File (Some []) true) _ 201 _
            1749945600000 eq_refl);
    try reflexivity; [discriminate | unfold Offers.farFuture; simpl; lia].
Defined.

(** ** Receipts: the booking PDF *)





(** ** Instances of the statements above *)

Lemma protected_route_lets_in_witness :
  AuthMiddleware.protectedRoute MoreSamples.acceptAll (Some "Bearer abc.def.ghi")
  = AuthMiddleware.Next (Some MoreSamples.adminPayload).
Proof.
  apply (proj1 (protected_route_lets_in MoreSamples.acceptAll (Some "Bearer abc.def.ghi"))).
  exists "abc.def.ghi", MoreSamples.adminPayload.
  split; [reflexivity |]. split; [discriminate |]. split; [reflexivity |].
  split; [reflexivity | right; reflexivity].
Defined.

Lemma active_offers_spec_witness :
  ¬ In MoreSamples.undatedOffer
      (Offers.activeOffers Samples.promoClock
         (Storage.File (Some [MoreSamples.undatedOffer]) true)).
Proof.
  apply (proj2 (proj2 (active_offers_spec Samples.promoClock
                         (Storage.File (Some [MoreSamples.undatedOffer]) true)))
           MoreSamples.undatedOffer "soon").
  - right. reflexivity.
  - discriminate.
  - reflexivity.
Defined.
